(** * GitScribe: the burndown aggregation

    A shallow embedding of the methods [getTimeSpent] and
    [generateBurndownChart] of the class [GitScribe], in the version of the
    library that has the [includeOpen] and [useEstimate] options, together
    with the parts of the JavaScript runtime they rely on: numbers with [NaN] and the infinities, arrays that grow
    when written past their end, the regular expressions of the effort
    extractor, and ISO date parsing.

    Conventions of the embedding:
    - a timestamp ([new Date(x)] of a valid date) is its epoch time in
      milliseconds, a [Z];
    - a finite JavaScript number is an exact rational kept in lowest terms
      ([Qred]); the sums, products and quotients of the program are doubles,
      and the exact value is the program's where it is a double itself
      (whole numbers below [2^53], their halves and quarters). The
      statements below about a computed value keep to that domain, say of a
      value only that it is no [NaN] or not negative, or compare a
      computation with itself; [Number] rounds as the program does. Signed
      zeros are not represented;
    - a string is a [string] of 8-bit code units;
    - a thrown exception is the [Throw] case of [result]. *)

From Stdlib Require Import ZArith QArith Qround Ascii String DecimalString Lia.
From Stdlib Require Import Permutation Sorted.
From stdpp Require Import base option list.

Local Open Scope string_scope.
Local Open Scope Z_scope.

(** ** Exceptions *)

Inductive JsError :=
  | TypeError (msg : string)
  | RangeError (msg : string).

Inductive result (A : Type) :=
  | Ok (a : A)
  | Throw (e : JsError).
Arguments Ok {A} a.
Arguments Throw {A} e.

#[global] Instance result_ret : MRet result := fun A a => Ok a.
#[global] Instance result_bind : MBind result := fun A B f r =>
  match r with
  | Ok a => f a
  | Throw e => Throw e
  end.
#[global] Instance result_fmap : FMap result := fun A B f r =>
  match r with
  | Ok a => Ok (f a)
  | Throw e => Throw e
  end.

Definition is_Ok {A} (r : result A) : bool :=
  match r with Ok _ => true | Throw _ => false end.

(** Reading property [prop] of [base], which is [undefined] or [null]. *)
Definition cannot_read (prop base : string) : JsError :=
  TypeError ("Cannot read property '" ++ prop ++ "' of " ++ base).

Definition invalid_array_length : JsError := RangeError "Invalid array length".

(** ** Numbers *)

Module Num.

Inductive num :=
  | Fin (q : Q)
  | NaN
  | PInf
  | NInf.

Definition of_Z (z : Z) : num := Fin (inject_Z z).
Definition zero : num := of_Z 0.
Definition one : num := of_Z 1.

Definition neg (a : num) : num :=
  match a with
  | Fin q => Fin (Qred (- q))
  | NaN => NaN
  | PInf => NInf
  | NInf => PInf
  end.

(** [a + b] *)
Definition add (a b : num) : num :=
  match a, b with
  | Fin x, Fin y => Fin (Qred (x + y))
  | NaN, _ | _, NaN => NaN
  | PInf, NInf | NInf, PInf => NaN
  | PInf, _ | _, PInf => PInf
  | NInf, _ | _, NInf => NInf
  end.

(** [a - b] *)
Definition sub (a b : num) : num := add a (neg b).

(** Sign of a rational: [Lt], [Eq] or [Gt] against zero. *)
Definition sgn (q : Q) : comparison := (Qnum q ?= 0)%Z.

(** [a * b]; an infinity times zero is [NaN]. *)
Definition mul (a b : num) : num :=
  match a, b with
  | Fin x, Fin y => Fin (Qred (x * y))
  | NaN, _ | _, NaN => NaN
  | PInf, Fin y | Fin y, PInf =>
      match sgn y with Eq => NaN | Gt => PInf | Lt => NInf end
  | NInf, Fin y | Fin y, NInf =>
      match sgn y with Eq => NaN | Gt => NInf | Lt => PInf end
  | PInf, PInf | NInf, NInf => PInf
  | PInf, NInf | NInf, PInf => NInf
  end.

(** [a / b]; the zero divisors met in this program are positive zeros,
    so [x / 0] takes the sign of [x], and [0 / 0] is [NaN]. *)
Definition div (a b : num) : num :=
  match a, b with
  | Fin x, Fin y =>
      match sgn y with
      | Eq => match sgn x with Eq => NaN | Gt => PInf | Lt => NInf end
      | _ => Fin (Qred (x / y))
      end
  | NaN, _ | _, NaN => NaN
  | Fin _, (PInf | NInf) => zero
  | (PInf | NInf), (PInf | NInf) => NaN
  | PInf, Fin y => match sgn y with Lt => NInf | _ => PInf end
  | NInf, Fin y => match sgn y with Lt => PInf | _ => NInf end
  end.

(** [x || 0] on a number: [0] and [NaN] are falsy. *)
Definition or_zero (a : num) : num :=
  match a with
  | Fin q => match sgn q with Eq => zero | _ => a end
  | NaN => zero
  | _ => a
  end.

End Num.
Import Num.

(** [Math.round]: nearest integer, ties towards plus infinity. *)
Definition Math_round (x : Q) : Z := Qfloor (x + (1 # 2)).

(** [Math.ceil] *)
Definition Math_ceil (x : Q) : Z := Qceiling x.

(** ** Arrays

    An array is the list of its elements; [None] is an empty slot (a hole).
    Properties that are not array indices (["null"], ["NaN"], integers from
    [2^32 - 1] on) live beside the elements and are read by none of
    [slice], [reduce] and [map], so a write to one leaves the list as it is. *)

Abbreviation JsArray := (list (option num)).

(** The value used as a property key in [a[k]]. *)
Inductive key :=
  | KNull
  | KNaN
  | KInt (z : Z).

Definition is_array_index (z : Z) : bool := (0 <=? z) && (z <? 2 ^ 32 - 1).

(** [new Array(n).fill(v)] for an integral [n]. *)
Definition new_Array_fill (n : Z) (v : num) : result JsArray :=
  if (n <? 0) || (2 ^ 32 - 1 <? n) then Throw invalid_array_length
  else Ok (replicate (Z.to_nat n) (Some v)).

(** [a[i] = v] for an array index [i]: in range the slot is replaced, past
    the end the array is extended, with holes up to [i]. *)
Definition array_set (a : JsArray) (i : nat) (v : num) : JsArray :=
  if (i <? length a)%nat then <[i := Some v]> a
  else (a ++ replicate (i - length a) None ++ [Some v])%list.

(** [a[k] += v]; reading a hole or past the end gives [undefined], and
    [undefined + v] is [NaN]. *)
Definition array_add_assign (a : JsArray) (k : key) (v : num) : JsArray :=
  match k with
  | KInt z =>
      if is_array_index z then
        let i := Z.to_nat z in
        let sum := match a !! i with
                   | Some (Some x) => add x v
                   | _ => NaN
                   end in
        array_set a i sum
      else a
  | KNull | KNaN => a
  end.

(** [a.reduce((sum, x) => sum + x, 0)]; [reduce] skips holes. *)
Definition reduce_sum (a : JsArray) : num :=
  fold_left (fun sum slot => match slot with Some x => add sum x | None => sum end)
            a zero.

(** [a.slice(0, n)] *)
Definition slice0 (a : JsArray) (n : nat) : JsArray := take n a.

(** [new Array(n).fill(_).map((_, i) => f i)] once [new Array(n)] succeeded. *)
Definition fill_map {A} (n : Z) (f : nat -> A) : list A := map f (seq 0 (Z.to_nat n)).

(** ** Strings and regular expressions

    The regular expressions of [getTimeSpent] are sequences of one-character
    classes, greedy stars over a class, the two anchors and one capture
    group. [run] is the backtracking matcher of the runtime on this
    fragment: a star first takes as many characters as it can and gives them
    back one at a time. *)

Module RegExp.

Inductive cclass :=
  | Dot                 (* [.]  : anything but a line terminator *)
  | Digit               (* [\d] *)
  | Lit (c : ascii).

Inductive atom :=
  | Bol                 (* [^] *)
  | Eol                 (* [$] *)
  | One (k : cclass)
  | Star (k : cclass)   (* [k*] *)
  | Open                (* [(] *)
  | Close.              (* [)] *)

Definition regex := list atom.

Definition lit (s : string) : regex := map (fun c => One (Lit c)) (list_ascii_of_string s).
(** [k+] *)
Definition plus (k : cclass) : regex := [One k; Star k].
(** [k{n}] *)
Definition times (n : nat) (k : cclass) : regex := replicate n (One k).

Definition is_digit (c : ascii) : bool :=
  let n := N_of_ascii c in ((48 <=? n) && (n <=? 57))%N.

Definition is_line_terminator (c : ascii) : bool :=
  let n := N_of_ascii c in ((n =? 10) || (n =? 13))%N.

Definition cclass_matches (k : cclass) (c : ascii) : bool :=
  match k with
  | Dot => negb (is_line_terminator c)
  | Digit => is_digit c
  | Lit a => Ascii.eqb a c
  end.

(** Where the group was opened (the input left at that point) and what it
    captured once closed. *)
Record captures := { opened : option (list ascii); group1 : option (list ascii) }.

Definition no_captures : captures := {| opened := None; group1 := None |}.

(** The characters consumed between the suffixes [from] and [to]. *)
Definition consumed (from to : list ascii) : list ascii :=
  take (length from - length to)%nat from.

Fixpoint run (r : regex) (input s : list ascii) (g : captures)
  : option (list ascii * captures) :=
  match r with
  | [] => Some (s, g)
  | Bol :: r' => if (length s =? length input)%nat then run r' input s g else None
  | Eol :: r' => match s with [] => run r' input s g | _ :: _ => None end
  | One k :: r' =>
      match s with
      | c :: s' => if cclass_matches k c then run r' input s' g else None
      | [] => None
      end
  | Star k :: r' =>
      (fix star (s : list ascii) : option (list ascii * captures) :=
         match s with
         | c :: s' =>
             if cclass_matches k c then
               match star s' with
               | Some m => Some m
               | None => run r' input s g
               end
             else run r' input s g
         | [] => run r' input s g
         end) s
  | Open :: r' => run r' input s {| opened := Some s; group1 := group1 g |}
  | Close :: r' =>
      run r' input s
          {| opened := opened g;
             group1 := (fun from => consumed from s) <$> opened g |}
  end.

(** The array returned by a successful match: [m[0]] and [m[1]]. *)
Record Match := { m0 : string; m1 : option string }.

Definition match_at (r : regex) (input s : list ascii) : option Match :=
  match run r input s no_captures with
  | Some (rest, g) =>
      Some {| m0 := string_of_list_ascii (consumed s rest);
              m1 := string_of_list_ascii <$> group1 g |}
  | None => None
  end.

(** The leftmost start position at which the expression matches. *)
Fixpoint search (r : regex) (input s : list ascii) : option Match :=
  match match_at r input s with
  | Some m => Some m
  | None => match s with
            | [] => None
            | _ :: s' => search r input s'
            end
  end.

(** [str.match(r)] for an expression without the [g] flag; [None] is [null]. *)
Definition str_match (str : string) (r : regex) : option Match :=
  let input := list_ascii_of_string str in search r input input.

End RegExp.
Import RegExp.

(** [m[1]] of the result [m] of [match], which may be [null]. A group that
    did not take part in the match reads as [undefined]; the groups of this
    program always take part. *)
Definition index1 (m : option Match) : result (option string) :=
  match m with
  | Some m => Ok (m1 m)
  | None => Throw (cannot_read "1" "null")
  end.

(** [s.slice(0, -1)] *)
Definition slice_0_m1 (s : string) : string :=
  string_of_list_ascii (removelast (list_ascii_of_string s)).

Definition digit_value (c : ascii) : Z := Z.of_N (N_of_ascii c) - 48.

(** The value of a string of decimal digits. *)
Definition decimal (l : list ascii) : Z :=
  fold_left (fun acc c => 10 * acc + digit_value c) l 0.

(** The double nearest to a whole number [z] that is not negative: [z]
    itself when it has 53 bits or fewer, otherwise its 53 leading bits
    rounded to nearest, ties to even, and [Infinity] from [2^1024] on. *)
Definition double_of_whole (z : Z) : num :=
  let bits := Z.log2 z + 1 in
  if bits <=? 53 then of_Z z
  else
    let shift := bits - 53 in
    let leading := Z.shiftr z shift in
    let rest := Z.land z (Z.ones shift) in
    let half := Z.shiftl 1 (shift - 1) in
    let rounded :=
      if (half <? rest) || ((rest =? half) && Z.odd leading) then leading + 1
      else leading in
    let value := Z.shiftl rounded shift in
    if 2 ^ 1024 <=? value then PInf else of_Z value.

(** [Number(s)]. The program calls it on what [\d+] matched less its last
    character, a run of decimal digits, which reads as the double nearest to
    its value (the empty string is 0). Any other string is [NaN] here: the
    embedding does not read signs, fractions, exponents or blanks. *)
Definition Number_of_string (s : string) : num :=
  let l := list_ascii_of_string s in
  if forallb is_digit l then double_of_whole (decimal l) else NaN.

(** ** Dates *)

Definition MILLISECONDS_IN_DAY : Z := 24 * 60 * 60 * 1000.

(** Days from 1970-01-01 to the first day of month [m] (1 to 12) of year [y]
    in the proleptic Gregorian calendar, plus [d - 1]. *)
Definition days_from_civil (y m d : Z) : Z :=
  let y' := if m <=? 2 then y - 1 else y in
  let era := y' / 400 in
  let yoe := y' - era * 400 in
  let mp := (m + 9) mod 12 in
  let doy := (153 * mp + 2) / 5 + (d - 1) in
  let doe := yoe * 365 + yoe / 4 - yoe / 100 + doy in
  era * 146097 + doe - 719468.

(** [new Date(s).getTime()] for a string [s] of the shape [YYYY-MM-DD]: the
    time of that day at midnight UTC. [None] is [NaN], the time of an
    invalid date: the month must be 1 to 12 and the day 1 to 31 (V8, the
    engine of Node, lets a day past the end of a month run into the next). *)
Definition Date_getTime (s : string) : option Z :=
  match list_ascii_of_string s with
  | [y1; y2; y3; y4; h1; m1; m2; h2; d1; d2] =>
      if forallb is_digit [y1; y2; y3; y4; m1; m2; d1; d2]
         && Ascii.eqb h1 "-" && Ascii.eqb h2 "-" then
        let y := decimal [y1; y2; y3; y4] in
        let m := decimal [m1; m2] in
        let d := decimal [d1; d2] in
        if (1 <=? m) && (m <=? 12) && (1 <=? d) && (d <=? 31) then
          Some (days_from_civil y m d * MILLISECONDS_IN_DAY)
        else None
      else None
  | _ => None
  end.

(** ** Sorting and objects used as maps *)

(** A stable insertion sort: [before x y] says that [x] may stay in front of
    [y]. [Array.prototype.sort] is stable, so for a comparator [cmp] that is
    consistent its result is the one of this sort with
    [before x y := cmp(x, y) <= 0]. *)
Section InsertionSort.
Context {A : Type} (before : A -> A -> bool).

Fixpoint insert_sorted (x : A) (l : list A) : list A :=
  match l with
  | [] => [x]
  | y :: l' => if before x y then x :: l else y :: insert_sorted x l'
  end.

Definition insertion_sort (l : list A) : list A := foldr insert_sorted [] l.
End InsertionSort.

(** An object whose property names are times ([getTime()] of a date,
    [None] for [NaN]), in the order the properties were created. *)
Abbreviation TimeMap := (list (option Z * num)).

(** [o[k]]; [None] is [undefined]. *)
Fixpoint TimeMap_get (o : TimeMap) (k : option Z) : option num :=
  match o with
  | [] => None
  | (k', v) :: o' => if decide (k = k') then Some v else TimeMap_get o' k
  end.

(** [o[k] = v]: an existing property keeps its place. *)
Fixpoint TimeMap_set (o : TimeMap) (k : option Z) (v : num) : TimeMap :=
  match o with
  | [] => [(k, v)]
  | (k', v') :: o' =>
      if decide (k = k') then (k', v) :: o' else (k', v') :: TimeMap_set o' k v
  end.

Definition is_index_key (k : option Z) : bool :=
  match k with
  | Some z => is_array_index z
  | None => false
  end.

Definition key_le (x y : option Z) : bool :=
  match x, y with
  | Some a, Some b => a <=? b
  | _, _ => true
  end.

(** [Object.keys(o)]: the names that are array indices come first, in
    ascending order, then the others in creation order. *)
Definition Object_keys (o : TimeMap) : list (option Z) :=
  let names := map fst o in
  (insertion_sort key_le (filter (fun k => is_index_key k = true) names)
   ++ filter (fun k => is_index_key k = false) names)%list.

(** ** The data handed to the library *)

Record Note := {
  body : string;
  system : bool;
  createdAt : Z;
  updatedAt : Z
}.

Record Comment := {
  author : string;
  notes : list Note
}.

Record TimeStats := { totalTimeSpent : Z }.

Record Issue := {
  discussion : list Comment;
  closedAt : option Z;          (* [None]: [null], the issue is open *)
  timeStats : TimeStats
}.

Record Milestone := {
  title : string;
  iid : N;
  startDate : Z;
  dueDate : Z
}.

(** The issue after [issue.discussion] was replaced (sorted in place). *)
Definition with_discussion (issue : Issue) (d : list Comment) : Issue :=
  {| discussion := d; closedAt := closedAt issue; timeStats := timeStats issue |}.

(** One element of [spendings]. *)
Module Spending.
Record t := {
  author : string;
  date : option Z;            (* the time of the [Date]; [None] for an invalid date *)
  days : num;
  hours : num;
  minutes : num;
  totalHours : num
}.
End Spending.

(** The object [{total, days}] returned by [getTimeSpent] and by the
    [getEffort] and [getEffortEstimate] options. *)
Module TimeSpent.
Record t := {
  total : num;
  days : TimeMap
}.

(** [timeSpent[k]] for a time [k]: the object has the two properties
    [total] and [days] and none named by a number, so the read is
    [undefined]. *)
Definition get (timeSpent : t) (k : option Z) : option num := None.
End TimeSpent.

(** ** getTimeSpent *)

(** The expression [/^added.*at \d{4}-\d{2}-\d{2}$/]. *)
Definition re_isSpending : regex :=
  ([Bol] ++ lit "added" ++ [Star Dot] ++ lit "at "
   ++ times 4 Digit ++ lit "-" ++ times 2 Digit ++ lit "-" ++ times 2 Digit
   ++ [Eol])%list.

(** The expression [/added (G) at/] with the group [G] the greedy [.*]. *)
Definition re_humanReadableTime : regex :=
  (lit "added " ++ [Open; Star Dot; Close] ++ lit " at")%list.

(** The expressions [/\d+d/], [/\d+h/] and [/\d+m/]. *)
Definition re_humanReadableDays : regex := (plus Digit ++ lit "d")%list.
Definition re_humanReadableHours : regex := (plus Digit ++ lit "h")%list.
Definition re_humanReadableMinutes : regex := (plus Digit ++ lit "m")%list.

(** The expression [/at (\d{4}-\d{2}-\d{2})/]. *)
Definition re_date : regex :=
  (lit "at " ++ [Open] ++ times 4 Digit ++ lit "-" ++ times 2 Digit ++ lit "-"
   ++ times 2 Digit ++ [Close])%list.

(** [comment.notes[0]], read for its property [prop]. *)
Definition note0 (comment : Comment) (prop : string) : result Note :=
  match notes comment !! 0%nat with
  | Some note => Ok note
  | None => Throw (cannot_read prop "undefined")
  end.

(** The callback of [filter]. *)
Definition isSpendingComment (startDate endDate : Z) (comment : Comment) : result bool :=
  note ← note0 comment "body";
  let isSpending := str_match (body note) re_isSpending in
  let isBySystem := system note in
  let isWithinInterval := (startDate <=? createdAt note) && (createdAt note <=? endDate) in
  Ok (bool_decide (isSpending <> None) && isBySystem && isWithinInterval).

(** [Number(m ? m[0].slice(0, -1) : 0)] *)
Definition component (m : option Match) : num :=
  match m with
  | Some m => Number_of_string (slice_0_m1 (m0 m))
  | None => zero
  end.

(** The callback of [map]. *)
Definition toSpending (comment : Comment) : result Spending.t :=
  note ← note0 comment "body";
  let body := body note in
  group ← index1 (str_match body re_humanReadableTime);
  match group with
  | None => Throw (cannot_read "match" "undefined")
  | Some humanReadableTime =>
      let humanReadableDays := str_match humanReadableTime re_humanReadableDays in
      let humanReadableHours := str_match humanReadableTime re_humanReadableHours in
      let humanReadableMinutes := str_match humanReadableTime re_humanReadableMinutes in
      let days := component humanReadableDays in
      let hours := component humanReadableHours in
      let minutes := component humanReadableMinutes in
      (* On GitLab a day equals eight hours *)
      let totalHours := add (add (mul days (of_Z 8)) hours) (div minutes (of_Z 60)) in
      iso ← index1 (str_match body re_date);
      let date := iso ≫= Date_getTime in
      Ok {| Spending.author := author comment;
            Spending.date := date;
            Spending.days := days;
            Spending.hours := hours;
            Spending.minutes := minutes;
            Spending.totalHours := totalHours |}
  end.

(** [l.filter(f)] and [l.map(f)] for callbacks that may throw: the first
    exception, in list order, ends the traversal. *)
Fixpoint filter_result {A} (f : A -> result bool) (l : list A) : result (list A) :=
  match l with
  | [] => Ok []
  | x :: l' =>
      keep ← f x;
      rest ← filter_result f l';
      Ok (if keep : bool then x :: rest else rest)
  end.

Fixpoint map_result {A B} (f : A -> result B) (l : list A) : result (list B) :=
  match l with
  | [] => Ok []
  | x :: l' =>
      y ← f x;
      rest ← map_result f l';
      Ok (y :: rest)
  end.

Definition spendings (issue : Issue) (startDate endDate : Z) : result (list Spending.t) :=
  accepted ← filter_result (isSpendingComment startDate endDate) (discussion issue);
  map_result toSpending accepted.

(** One turn of the loop over [spendings]:
    [timeSpent.days[k] = (timeSpent[k] || 0) + spending.totalHours]
    with [k = spending.date.getTime()]. *)
Definition recordSpending (timeSpent : TimeSpent.t) (spending : Spending.t) : TimeSpent.t :=
  let k := Spending.date spending in
  let previous := match TimeSpent.get timeSpent k with
                  | Some v => or_zero v
                  | None => zero
                  end in
  {| TimeSpent.total := TimeSpent.total timeSpent;
     TimeSpent.days :=
       TimeMap_set (TimeSpent.days timeSpent) k (add previous (Spending.totalHours spending)) |}.

Definition getTimeSpent (issue : Issue) (startDate endDate : Z) : result TimeSpent.t :=
  spendings ← spendings issue startDate endDate;
  (* Total in hours *)
  let total := fold_left (fun total spending => add total (Spending.totalHours spending))
                         spendings zero in
  let timeSpent := {| TimeSpent.total := total; TimeSpent.days := [] |} in
  Ok (fold_left recordSpending spendings timeSpent).

(** ** generateBurndownChart *)

(** The options after the defaults were merged with what the caller gave.
    [getEffort] may return a falsy value ([None]), which the chart replaces
    by an empty [{total: 0, days: {}}]. *)
Record Options := {
  getEffort : Issue -> result (option TimeSpent.t);
  getEffortEstimate : Issue -> result TimeSpent.t;
  width : Z;
  height : Z;
  includeOpen : bool;
  useEstimate : bool
}.

(** The [options] argument: every property may be left out. *)
Record UserOptions := {
  u_getEffort : option (Issue -> result (option TimeSpent.t));
  u_getEffortEstimate : option (Issue -> result TimeSpent.t);
  u_width : option Z;
  u_height : option Z;
  u_includeOpen : option bool;
  u_useEstimate : option bool
}.

Definition no_options : UserOptions :=
  {| u_getEffort := None; u_getEffortEstimate := None; u_width := None;
     u_height := None; u_includeOpen := None; u_useEstimate := None |}.

Definition set_includeOpen (u : UserOptions) (b : option bool) : UserOptions :=
  {| u_getEffort := u_getEffort u; u_getEffortEstimate := u_getEffortEstimate u;
     u_width := u_width u; u_height := u_height u;
     u_includeOpen := b; u_useEstimate := u_useEstimate u |}.

(** [{getEffort: ..., getEffortEstimate: ..., width: 1420, height: 720,
      includeOpen: false, useEstimate: false, ...options}] *)
Definition merge_options (startDate dueDate : Z) (options : UserOptions) : Options :=
  {| getEffort :=
       default (fun issue => Some <$> getTimeSpent issue startDate dueDate)
               (u_getEffort options);
     getEffortEstimate :=
       default (fun issue =>
                  Ok {| TimeSpent.total :=
                          div (div (of_Z (totalTimeSpent (timeStats issue))) (of_Z 60))
                              (of_Z 60);
                        TimeSpent.days := [] |})
               (u_getEffortEstimate options);
     width := default 1420 (u_width options);
     height := default 720 (u_height options);
     includeOpen := default false (u_includeOpen options);
     useEstimate := default false (u_useEstimate options) |}.

(** [Math.round((t - startDate) / MILLISECONDS_IN_DAY)] *)
Definition day_index (t startDate : Z) : Z :=
  Math_round (inject_Z (t - startDate) / inject_Z MILLISECONDS_IN_DAY).

(** [Math.ceil((dueDate - startDate) / MILLISECONDS_IN_DAY + 1)] *)
Definition days_of (startDate dueDate : Z) : Z :=
  Math_ceil (inject_Z (dueDate - startDate) / inject_Z MILLISECONDS_IN_DAY + 1).

(** The four arrays filled by the loop over the issues. *)
Module ByDay.
Record t := {
  issuesOpenedByDay : JsArray;
  issuesClosedByDay : JsArray;
  effortSpentByDay : JsArray;
  effortEstimatedByDay : JsArray
}.
End ByDay.

(** [updatedAt] of [comment.notes[0]], for comments that have a note. *)
Definition updateAt (comment : Comment) : Z :=
  match notes comment !! 0%nat with
  | Some note => updatedAt note
  | None => 0
  end.

(** [issue.discussion.sort((a, b) => updateAtB - updateAtA)]: newest first.
    The comparator is called when there are two comments or more, then on
    every comment, and reads [notes[0].updatedAt]. *)
Definition sort_discussion (d : list Comment) : result (list Comment) :=
  if (length d <? 2)%nat then Ok d
  else
    _ ← map_result (fun comment => note0 comment "updatedAt") d;
    Ok (insertion_sort (fun a b => updateAt b <=? updateAt a) d).

Definition double_quote : string := String (ascii_of_nat 34) EmptyString.

(** The callback of [some]: a note of the system saying that the milestone
    was changed to this one, by title or by iid. *)
Definition mentionsMilestone (milestone : Milestone) (note : Note) : bool :=
  let changedMilestone :=
    String.eqb (body note)
      ("changed milestone to %" ++ double_quote ++ title milestone ++ double_quote)
    || String.eqb (body note)
      ("changed milestone to %" ++ NilEmpty.string_of_uint (N.to_uint (iid milestone))) in
  let isBySystem := system note in
  changedMilestone && isBySystem.

(** The key of [a[dayClosed]]. *)
Definition key_of_day (day : option Z) : key :=
  match day with
  | Some d => KInt d
  | None => KNull
  end.

(** [Math.max(0, Math.round((Number(date) - startDate) / MILLISECONDS_IN_DAY))]
    for a property name [date] of [effort.days]. *)
Definition effort_day (startDate : Z) (date : option Z) : key :=
  match date with
  | Some t => KInt (Z.max 0 (day_index t startDate))
  | None => KNaN
  end.

(** [effort.days[date]] as the right-hand side of [+=]; the name of a
    property that is not there would add [undefined], that is [NaN]. *)
Definition amount_of (effortDays : TimeMap) (date : option Z) : num :=
  match TimeMap_get effortDays date with
  | Some amount => amount
  | None => NaN
  end.

(** The loop over [Object.keys(effort.days)]. *)
Definition addEffortDays (startDate : Z) (effortDays : TimeMap) (spent : JsArray) : JsArray :=
  fold_left
    (fun spent date =>
       let day := effort_day startDate date in
       array_add_assign spent day (amount_of effortDays date))
    (Object_keys effortDays) spent.

(** The body of the loop over [milestoneIssues]; [continue] returns the
    arrays as they are. *)
Definition processIssue (milestone : Milestone) (startDate dueDate days : Z)
    (options : Options) (byDay : ByDay.t) (issue : Issue) : result ByDay.t :=
  _ ← getTimeSpent issue startDate dueDate;
  (* The comment mentioning the last milestone change *)
  sorted ← sort_discussion (discussion issue);
  let issue := with_discussion issue sorted in
  match List.find (fun comment => existsb (mentionsMilestone milestone) (notes comment))
                  sorted with
  | None => Throw (cannot_read "notes" "undefined")
  | Some lastMilestoneChangeComment =>
      note ← note0 lastMilestoneChangeComment "updatedAt";
      (* The day of the sprint where the issue was added *)
      let dayAdded := Z.max 0 (day_index (updatedAt note) startDate) in
      (* The day of the sprint where the issue was closed *)
      let dayClosed := (fun t => day_index t startDate) <$> closedAt issue in
      (* Ignore the issue if it was added after the milestone's due date *)
      if days <=? dayAdded then Ok byDay
      (* Ignore the issue if it was closed before the milestone's start date *)
      else if match dayClosed with Some d => d <? 0 | None => false end then Ok byDay
      else
        let opened :=
          array_add_assign (ByDay.issuesOpenedByDay byDay) (KInt dayAdded) one in
        estimate ← getEffortEstimate options issue;
        let estimated :=
          array_add_assign (ByDay.effortEstimatedByDay byDay) (KInt dayAdded)
                           (or_zero (TimeSpent.total estimate)) in
        let wasClosedWithinMilestone :=
          match dayClosed with Some d => d <=? days | None => false end in
        let closed :=
          if wasClosedWithinMilestone
          then array_add_assign (ByDay.issuesClosedByDay byDay) (key_of_day dayClosed) one
          else ByDay.issuesClosedByDay byDay in
        let isOpenAndShouldBeIncluded :=
          bool_decide (dayClosed = None) && includeOpen options in
        if wasClosedWithinMilestone || isOpenAndShouldBeIncluded then
          returned ← getEffort options issue;
          let effort := default {| TimeSpent.total := zero; TimeSpent.days := [] |} returned in
          let spent := addEffortDays startDate (TimeSpent.days effort)
                                     (ByDay.effortSpentByDay byDay) in
          (* If there is no track of what days effort was spent (as with
             storypoints), add it all to the day it was closed *)
          let spent :=
            if (length (Object_keys (TimeSpent.days effort)) =? 0)%nat
            then array_add_assign spent (key_of_day dayClosed) (TimeSpent.total effort)
            else spent in
          Ok {| ByDay.issuesOpenedByDay := opened;
                ByDay.issuesClosedByDay := closed;
                ByDay.effortSpentByDay := spent;
                ByDay.effortEstimatedByDay := estimated |}
        else
          Ok {| ByDay.issuesOpenedByDay := opened;
                ByDay.issuesClosedByDay := closed;
                ByDay.effortSpentByDay := ByDay.effortSpentByDay byDay;
                ByDay.effortEstimatedByDay := estimated |}
  end.

(** [for (const issue of milestoneIssues) ...] *)
Fixpoint processIssues (milestone : Milestone) (startDate dueDate days : Z)
    (options : Options) (byDay : ByDay.t) (milestoneIssues : list Issue) : result ByDay.t :=
  match milestoneIssues with
  | [] => Ok byDay
  | issue :: rest =>
      byDay' ← processIssue milestone startDate dueDate days options byDay issue;
      processIssues milestone startDate dueDate days options byDay' rest
  end.

(** [a.slice(0, i + 1).reduce((sum, x) => sum + x, 0)] *)
Definition cumulative (a : JsArray) (i : nat) : num := reduce_sum (slice0 a (i + 1)).

(** What the chart configuration is built from: the labels and the four
    data sets given to the renderer, and the values they were derived
    from. *)
Record Burndown := {
  days : Z;
  issuesOpenedByDay : JsArray;
  issuesClosedByDay : JsArray;
  effortSpentByDay : JsArray;
  effortEstimatedByDay : JsArray;
  totalEffort : num;
  labels : list string;
  remainingEffort : JsArray;
  idealBurndown : JsArray;
  remainingTasks : JsArray;
  completedTasks : JsArray
}.

(** The function up to the [configuration] object; the rendering of the
    configuration into an image is outside this development. *)
Definition generateBurndownChart (milestone : Milestone) (milestoneIssues : list Issue)
    (options : UserOptions) : result Burndown :=
  let startDate := startDate milestone in
  let dueDate := dueDate milestone in
  let options := merge_options startDate dueDate options in
  let days := days_of startDate dueDate in
  issuesOpenedByDay ← new_Array_fill days zero;
  issuesClosedByDay ← new_Array_fill days zero;
  effortSpentByDay ← new_Array_fill days zero;
  effortEstimatedByDay ← new_Array_fill days zero;
  byDay ← processIssues milestone startDate dueDate days options
            {| ByDay.issuesOpenedByDay := issuesOpenedByDay;
               ByDay.issuesClosedByDay := issuesClosedByDay;
               ByDay.effortSpentByDay := effortSpentByDay;
               ByDay.effortEstimatedByDay := effortEstimatedByDay |}
            milestoneIssues;
  let issuesOpenedByDay := ByDay.issuesOpenedByDay byDay in
  let issuesClosedByDay := ByDay.issuesClosedByDay byDay in
  let effortSpentByDay := ByDay.effortSpentByDay byDay in
  let effortEstimatedByDay := ByDay.effortEstimatedByDay byDay in
  let '(totalEffort, remainingEffort) :=
    if useEstimate options then
      (* Calculate the cumulative sum of each day *)
      let remainingEffort := fill_map days (fun i =>
        let effortEstimated := cumulative effortEstimatedByDay i in
        let effortSpent := cumulative effortSpentByDay i in
        Some (sub effortEstimated effortSpent)) in
      (reduce_sum effortEstimatedByDay, remainingEffort)
    else
      let totalEffort := reduce_sum effortSpentByDay in
      (* Calculate the cumulative sum of each day *)
      (totalEffort, fill_map days (fun i =>
        let effortSpent := cumulative effortSpentByDay i in
        Some (sub totalEffort effortSpent))) in
  let completedTasks := issuesClosedByDay in
  (* The ideal burndown is the cumulative sum of the average effort for each day *)
  let idealBurndown := fill_map days (fun i =>
    Some (sub totalEffort
              (mul (div totalEffort (of_Z (days - 1))) (of_Z (Z.of_nat i))))) in
  (* Calculate the cumulative sum of each day *)
  let remainingTasks := fill_map days (fun i =>
    let issuesOpened := cumulative issuesOpenedByDay i in
    let issuesClosed := cumulative issuesClosedByDay i in
    Some (sub issuesOpened issuesClosed)) in
  Ok {| days := days;
        issuesOpenedByDay := issuesOpenedByDay;
        issuesClosedByDay := issuesClosedByDay;
        effortSpentByDay := effortSpentByDay;
        effortEstimatedByDay := effortEstimatedByDay;
        totalEffort := totalEffort;
        labels := fill_map days (fun day =>
                    "Day " ++ NilEmpty.string_of_uint (Nat.to_uint (day + 1)));
        remainingEffort := remainingEffort;
        idealBurndown := idealBurndown;
        remainingTasks := remainingTasks;
        completedTasks := completedTasks |}.

(** ** The effort of the command line's [--storypoints] flag *)

(** [s.indexOf(pattern)], with [None] for [-1]. *)
Definition indexOf (s pattern : string) : option nat := String.index 0 pattern s.

(** [s.replace(pattern, replacement)] for a [pattern] that is a string: the
    first occurrence is replaced. The replacement of this program is the
    empty string, which holds none of the [$] patterns. *)
Definition String_replace (s pattern replacement : string) : string :=
  match indexOf s pattern with
  | Some i =>
      let after := (i + String.length pattern)%nat in
      substring 0 i s ++ replacement ++ substring after (String.length s - after) s
  | None => s
  end.

Section Storypoints.

(** [issue.labels], an array of strings, and [Number] on the text of a
    label. *)
Variable issue_labels : Issue -> list string.
Variable Number : string -> num.

(** [getStorypoints] of the command line, given as [getEffort] and
    [getEffortEstimate] when the flag is set. The label that [find] returns
    starts with [storypoints::], so that it is not the empty string and the
    test [if (storypointsLabel)] is whether there is one. *)
Definition getStorypoints (issue : Issue) : TimeSpent.t :=
  let storypointsLabel :=
    List.find (fun label => bool_decide (indexOf label "storypoints::" = Some 0%nat))
              (issue_labels issue) in
  match storypointsLabel with
  | Some storypointsLabel =>
      {| TimeSpent.total := Number (String_replace storypointsLabel "storypoints::" "");
         TimeSpent.days := [] |}
  | None => {| TimeSpent.total := zero; TimeSpent.days := [] |}
  end.

End Storypoints.

(** ** Notions used in the statements *)

(** Whether some note of the issue's discussion is accepted by the search
    for the comment mentioning the last milestone change. *)
Definition hasMilestoneEvidence (milestone : Milestone) (issue : Issue) : bool :=
  existsb (fun comment => existsb (mentionsMilestone milestone) (notes comment))
          (discussion issue).

(** The arrays before the loop over the issues. *)
Definition initial_byDay (days : Z) : ByDay.t :=
  {| ByDay.issuesOpenedByDay := replicate (Z.to_nat days) (Some zero);
     ByDay.issuesClosedByDay := replicate (Z.to_nat days) (Some zero);
     ByDay.effortSpentByDay := replicate (Z.to_nat days) (Some zero);
     ByDay.effortEstimatedByDay := replicate (Z.to_nat days) (Some zero) |}.

(** [Math.min(Math.max(x, lo), hi)] *)
Definition clamp (x lo hi : Z) : Z := Z.min (Z.max x lo) hi.

(** The amounts of the entries of [effort.days] whose day, that is
    [Math.max(0, Math.round(...))] with no upper bound, is [i], in the order
    of [Object.keys]. *)
Definition amounts_for (startDate : Z) (effortDays : TimeMap) (dates : list (option Z))
    (i : nat) : list num :=
  flat_map (fun date =>
              match effort_day startDate date with
              | KInt z => if z =? Z.of_nat i then [amount_of effortDays date] else []
              | KNull | KNaN => []
              end) dates.

(** The series that the [includeOpen] option is not meant to reach. *)
Definition unaffected_by_includeOpen (out : Burndown)
    : JsArray * JsArray * JsArray * JsArray * JsArray :=
  (issuesOpenedByDay out, issuesClosedByDay out, effortEstimatedByDay out,
   completedTasks out, remainingTasks out).

(** The arrays of the loop that the [includeOpen] option is not meant to
    reach. *)
Definition counts (byDay : ByDay.t) : JsArray * JsArray * JsArray :=
  (ByDay.issuesOpenedByDay byDay, ByDay.issuesClosedByDay byDay,
   ByDay.effortEstimatedByDay byDay).

(** The same series, from the counts left by the loop. *)
Definition unaffected_of_counts (days : Z) (c : JsArray * JsArray * JsArray)
    : JsArray * JsArray * JsArray * JsArray * JsArray :=
  let '(opened, closed, estimated) := c in
  (opened, closed, estimated, closed,
   fill_map days (fun i => Some (sub (cumulative opened i) (cumulative closed i)))).

(** [getEffort] throws on no issue that [getTimeSpent] accepts, however the
    discussion of the issue is ordered when [getEffort] is called. The
    default [getEffort] is such a function, and so is one that never
    throws. *)
Definition getEffort_is_safe (startDate dueDate : Z)
    (getEffort : Issue -> result (option TimeSpent.t)) : Prop :=
  forall issue reordered,
    is_Ok (getTimeSpent issue startDate dueDate) = true ->
    Permutation reordered (discussion issue) ->
    is_Ok (getEffort (with_discussion issue reordered)) = true.

(** A whole number that is not negative, or [Infinity]. *)
Definition whole_or_infinite (x : num) : Prop :=
  x = PInf \/ exists z, 0 <= z /\ x = of_Z z.

(** A number that is not negative, or [Infinity]; not [NaN]. *)
Definition nonnegative (x : num) : Prop :=
  match x with
  | Fin q => (0 <= q)%Q
  | PInf => True
  | NaN | NInf => False
  end.

(** The shape of a date, four digits, two digits and two digits with a
    hyphen between them. *)
Definition has_date_shape (text : list ascii) : bool :=
  match text with
  | [y1; y2; y3; y4; hyphen1; m1; m2; hyphen2; d1; d2] =>
      forallb is_digit [y1; y2; y3; y4; m1; m2; d1; d2]
      && Ascii.eqb hyphen1 "-" && Ascii.eqb hyphen2 "-"
  | _ => false
  end.

(** The texts that start with [added] and end with [at ] and a date, with
    no line terminator in between. *)
Definition is_spending_text (text : list ascii) : Prop :=
  exists middle date,
    text = (list_ascii_of_string "added" ++ middle
            ++ list_ascii_of_string "at " ++ date)%list
    /\ forallb (fun c => negb (is_line_terminator c)) middle = true
    /\ has_date_shape date = true.

(** ** Inputs used in the examples below *)

Module Examples.

(** Midnight UTC of a day given as [YYYY-MM-DD]. *)
Definition at_date (s : string) : Z := default 0 (Date_getTime s).

(** A discussion entry holding one note written by the system at [t]. *)
Definition system_note (text : string) (t : Z) : Comment :=
  {| author := "gitlab";
     notes := [{| body := text; system := true; createdAt := t; updatedAt := t |}] |}.

Definition sprint (start due : Z) : Milestone :=
  {| title := "Sprint 1"; iid := 7; startDate := start; dueDate := due |}.

(** The five days from 2020-02-01 to 2020-02-05. *)
Definition february : Milestone := sprint (at_date "2020-02-01") (at_date "2020-02-05").

(** A milestone that starts and ends on 2020-02-01. *)
Definition one_day : Milestone := sprint (at_date "2020-02-01") (at_date "2020-02-01").

Definition issue_of (d : list Comment) (closed : option Z) : Issue :=
  {| discussion := d; closedAt := closed; timeStats := {| totalTimeSpent := 0 |} |}.

(** Added to the milestone on 2020-02-01, closed on 2020-02-03, with
    10.5 hours logged on 2020-02-03. *)
Definition worked_issue : Issue :=
  issue_of [system_note "changed milestone to %7" (at_date "2020-02-01");
            system_note "added 1d 2h 30m of time spent at 2020-02-03" (at_date "2020-02-03")]
           (Some (at_date "2020-02-03")).

(** As [worked_issue], but the hours are logged for 2020-02-10, five days
    after the milestone is due. *)
Definition late_effort_issue : Issue :=
  issue_of [system_note "changed milestone to %7" (at_date "2020-02-01");
            system_note "added 1d 2h 30m of time spent at 2020-02-10" (at_date "2020-02-03")]
           (Some (at_date "2020-02-03")).

(** Added to [one_day] on its only day and closed on the next day,
    2020-02-02: [dayClosed] is 1, which is [days]. *)
Definition closed_next_day : Issue :=
  issue_of [system_note "changed milestone to %7" (at_date "2020-02-01")]
           (Some (at_date "2020-02-02")).

(** Added to [one_day], worked on and closed on that same day. *)
Definition same_day_issue : Issue :=
  issue_of [system_note "changed milestone to %7" (at_date "2020-02-01");
            system_note "added 1d 2h 30m of time spent at 2020-02-01" (at_date "2020-02-01")]
           (Some (at_date "2020-02-01")).

(** One hour and two hours logged for the same day, 2020-02-03. *)
Definition two_contributions : Issue :=
  issue_of [system_note "added 1h of time spent at 2020-02-03" (at_date "2020-02-03");
            system_note "added 2h of time spent at 2020-02-03" (at_date "2020-02-04")]
           None.

(** A note of the system that the spending filter accepts while the
    duration pattern, which wants a space after [added] and one before
    [at], does not match it. *)
Definition no_duration_issue : Issue :=
  issue_of [system_note "added at 2020-02-03" (at_date "2020-02-03")] None.

(** An issue whose discussion never mentions the milestone. *)
Definition no_evidence_issue : Issue :=
  issue_of [system_note "added 1h of time spent at 2020-02-03" (at_date "2020-02-03")]
           None.

(** Added to the milestone on 2020-02-01 and still open, with two hours
    logged for 2020-02-02. *)
Definition open_issue : Issue :=
  issue_of [system_note "changed milestone to %7" (at_date "2020-02-01");
            system_note "added 2h of time spent at 2020-02-02" (at_date "2020-02-02")]
           None.

(** A milestone due the day before it starts. *)
Definition due_before_start : Milestone :=
  sprint (at_date "2020-02-02") (at_date "2020-02-01").

(** A milestone due two days before it starts. *)
Definition due_two_days_before_start : Milestone :=
  sprint (at_date "2020-02-03") (at_date "2020-02-01").

End Examples.

(** * Properties *)

(** ** A run of the whole chart *)

(** The milestone runs from 2020-02-01 to 2020-02-05; one issue enters it on
    the first day, is closed on 2020-02-03 and has 10.5 hours logged for
    that day. *)
Example february_burndown :
  generateBurndownChart Examples.february [Examples.worked_issue] no_options
  = Ok {| days := 5;
          issuesOpenedByDay := Some <$> [one; zero; zero; zero; zero];
          issuesClosedByDay := Some <$> [zero; zero; one; zero; zero];
          effortSpentByDay := Some <$> [zero; zero; Fin (21 # 2); zero; zero];
          effortEstimatedByDay := Some <$> [zero; zero; zero; zero; zero];
          totalEffort := Fin (21 # 2);
          labels := ["Day 1"; "Day 2"; "Day 3"; "Day 4"; "Day 5"];
          remainingEffort := Some <$> [Fin (21 # 2); Fin (21 # 2); zero; zero; zero];
          idealBurndown :=
            Some <$> [Fin (21 # 2); Fin (63 # 8); Fin (21 # 4); Fin (21 # 8); zero];
          remainingTasks := Some <$> [one; one; zero; zero; zero];
          completedTasks := Some <$> [zero; zero; one; zero; zero] |}.
Proof. vm_compute. reflexivity. Qed.

(** ** Days and day indices as integer divisions *)

(** [Number] on long runs of digits: from [2^53] on the value is rounded to
    the nearest double, ties to even, and it is [Infinity] from 309 digits
    on. *)
Example Number_rounds_to_the_nearest_double :
  Number_of_string "9007199254740993" = of_Z 9007199254740992
  /\ Number_of_string "9007199254740995" = of_Z 9007199254740996
  /\ Number_of_string "99999999999999999999" = of_Z 100000000000000000000
  /\ double_of_whole (10 ^ 308) <> PInf
  /\ double_of_whole (10 ^ 309) = PInf.
Proof. vm_compute. repeat split. discriminate. Qed.

Lemma MILLISECONDS_IN_DAY_eq : MILLISECONDS_IN_DAY = 86400000.
Proof. reflexivity. Qed.

Lemma days_of_Z s d :
  days_of s d = - ((s - d - MILLISECONDS_IN_DAY) / MILLISECONDS_IN_DAY).
Proof.
  unfold days_of, Math_ceil, Qceiling, Qfloor.
  rewrite MILLISECONDS_IN_DAY_eq. cbn -[Z.div Z.mul Z.add Z.sub Z.opp].
  f_equal. f_equal; lia.
Qed.

Lemma day_index_Z t s :
  day_index t s = (2 * (t - s) + MILLISECONDS_IN_DAY) / (2 * MILLISECONDS_IN_DAY).
Proof.
  unfold day_index, Math_round, Qfloor.
  rewrite MILLISECONDS_IN_DAY_eq. cbn -[Z.div Z.mul Z.add Z.sub Z.opp].
  f_equal; lia.
Qed.

(** The [+ 1] may be taken out of [Math.ceil]. *)
Lemma days_of_ceil_plus_1 s d :
  days_of s d = Math_ceil (inject_Z (d - s) / inject_Z MILLISECONDS_IN_DAY) + 1.
Proof.
  rewrite days_of_Z. unfold Math_ceil, Qceiling, Qfloor.
  rewrite MILLISECONDS_IN_DAY_eq. cbn -[Z.div Z.mul Z.add Z.sub Z.opp].
  change (Z.pos (1 * 86400000)) with 86400000.
  replace (- ((d - s) * 1)) with (s - d) by lia.
  replace (s - d - 86400000) with (s - d + (-1) * 86400000) by lia.
  rewrite Z.div_add by lia. lia.
Qed.

(** ** Arrays *)

Lemma length_array_set_ge a i v : (length a <= length (array_set a i v))%nat.
Proof.
  unfold array_set. destruct (Nat.ltb_spec i (length a)).
  - by rewrite length_insert.
  - rewrite length_app. lia.
Qed.

Lemma length_array_set_lt a i v :
  (i < length a)%nat -> length (array_set a i v) = length a.
Proof.
  intros Hi. unfold array_set.
  destruct (Nat.ltb_spec i (length a)); [apply length_insert | lia].
Qed.

Lemma length_array_add_assign_ge a k v :
  (length a <= length (array_add_assign a k v))%nat.
Proof.
  destruct k as [| |z]; simpl; try lia.
  destruct (is_array_index z); [apply length_array_set_ge | lia].
Qed.

Lemma length_array_add_assign_lt a z v :
  z < Z.of_nat (length a) -> length (array_add_assign a (KInt z) v) = length a.
Proof.
  intros Hz. simpl. destruct (is_array_index z) eqn:Hix; [|done].
  apply length_array_set_lt.
  unfold is_array_index in Hix. apply andb_true_iff in Hix as [H0 _].
  apply Z.leb_le in H0. lia.
Qed.

Lemma length_addEffortDays_ge startDate effortDays spent :
  (length spent <= length (addEffortDays startDate effortDays spent))%nat.
Proof.
  unfold addEffortDays. generalize (Object_keys effortDays) as dates.
  intros dates. revert spent.
  induction dates as [|date dates IH]; intros spent; simpl; [lia|].
  etransitivity; [|apply IH]. apply length_array_add_assign_ge.
Qed.

Lemma length_fill_map {A} n (f : nat -> A) : length (fill_map n f) = Z.to_nat n.
Proof. unfold fill_map. by rewrite length_map, length_seq. Qed.

Lemma new_Array_fill_Ok n v a :
  new_Array_fill n v = Ok a -> 0 <= n /\ a = replicate (Z.to_nat n) (Some v).
Proof.
  unfold new_Array_fill. destruct (Z.ltb_spec n 0); simpl; [discriminate|].
  destruct (2 ^ 32 - 1 <? n); [discriminate|].
  intros [= <-]. done.
Qed.

(** ** Exceptions *)

Lemma bind_Ok {A B} (r : result A) (f : A -> result B) b :
  r ≫= f = Ok b -> exists a, r = Ok a /\ f a = Ok b.
Proof. destruct r as [a|e]; simpl; [eauto | discriminate]. Qed.

Ltac bind_inv H :=
  let a := fresh "a" in
  let Ha := fresh "Ha" in
  apply bind_Ok in H as (a & Ha & H).

(** ** The lengths of the arrays *)

#[local] Arguments array_add_assign : simpl never.

Ltac proj_byDay :=
  cbn [ByDay.issuesOpenedByDay ByDay.issuesClosedByDay
       ByDay.effortSpentByDay ByDay.effortEstimatedByDay] in *.

Lemma processIssue_lengths milestone startDate dueDate n options byDay issue byDay' :
  processIssue milestone startDate dueDate (Z.of_nat n) options byDay issue = Ok byDay' ->
  length (ByDay.issuesOpenedByDay byDay) = n ->
  length (ByDay.effortEstimatedByDay byDay) = n ->
  (n <= length (ByDay.issuesClosedByDay byDay))%nat ->
  (n <= length (ByDay.effortSpentByDay byDay))%nat ->
  length (ByDay.issuesOpenedByDay byDay') = n
  /\ length (ByDay.effortEstimatedByDay byDay') = n
  /\ (n <= length (ByDay.issuesClosedByDay byDay'))%nat
  /\ (n <= length (ByDay.effortSpentByDay byDay'))%nat.
Proof.
  intros H Ho He Hc Hs. unfold processIssue in H.
  bind_inv H. bind_inv H.
  destruct (List.find _ _) as [comment|]; [|discriminate].
  bind_inv H.
  set (dayAdded := Z.max 0 (day_index (updatedAt a1) startDate)) in *.
  destruct (Z.leb_spec (Z.of_nat n) dayAdded) as [|Hlt].
  { by injection H as <-. }
  match type of H with (if ?c then _ else _) = _ => destruct c end.
  { by injection H as <-. }
  bind_inv H.
  assert (Hopened : forall v, length (array_add_assign (ByDay.issuesOpenedByDay byDay)
                                        (KInt dayAdded) v) = n).
  { intros v. rewrite length_array_add_assign_lt; [done | lia]. }
  assert (Hestimated : forall v, length (array_add_assign (ByDay.effortEstimatedByDay byDay)
                                           (KInt dayAdded) v) = n).
  { intros v. rewrite length_array_add_assign_lt; [done | lia]. }
  assert (Hclosed : forall (c : bool) k v,
             (n <= length (if c then array_add_assign (ByDay.issuesClosedByDay byDay) k v
                           else ByDay.issuesClosedByDay byDay))%nat).
  { intros [] k v; [|done].
    etransitivity; [exact Hc | apply length_array_add_assign_ge]. }
  match type of H with (if ?c then _ else _) = _ => destruct c end.
  - bind_inv H. injection H as <-. proj_byDay. repeat split; auto.
    cbv zeta. destruct (Nat.eqb _ _).
    + etransitivity; [|apply length_array_add_assign_ge].
      etransitivity; [exact Hs | apply length_addEffortDays_ge].
    + etransitivity; [exact Hs | apply length_addEffortDays_ge].
  - injection H as <-. proj_byDay. repeat split; auto.
Qed.

Lemma processIssues_lengths milestone startDate dueDate n options issues :
  forall byDay byDay',
  processIssues milestone startDate dueDate (Z.of_nat n) options byDay issues = Ok byDay' ->
  length (ByDay.issuesOpenedByDay byDay) = n ->
  length (ByDay.effortEstimatedByDay byDay) = n ->
  (n <= length (ByDay.issuesClosedByDay byDay))%nat ->
  (n <= length (ByDay.effortSpentByDay byDay))%nat ->
  length (ByDay.issuesOpenedByDay byDay') = n
  /\ length (ByDay.effortEstimatedByDay byDay') = n
  /\ (n <= length (ByDay.issuesClosedByDay byDay'))%nat
  /\ (n <= length (ByDay.effortSpentByDay byDay'))%nat.
Proof.
  induction issues as [|issue issues IH]; intros byDay byDay' H Ho He Hc Hs; simpl in H.
  - injection H as <-. auto.
  - bind_inv H.
    destruct (processIssue_lengths _ _ _ _ _ _ _ _ Ha Ho He Hc Hs) as (Ho' & He' & Hc' & Hs').
    eapply IH; eauto.
Qed.

(** What [generateBurndownChart] returns is built from the arrays left by
    the loop over the issues. *)
Lemma generateBurndownChart_Ok milestone issues options out :
  generateBurndownChart milestone issues options = Ok out ->
  let startDate := startDate milestone in
  let dueDate := dueDate milestone in
  let n := days_of startDate dueDate in
  exists byDay,
    0 <= n
    /\ processIssues milestone startDate dueDate n (merge_options startDate dueDate options)
         (initial_byDay n) issues = Ok byDay
    /\ days out = n
    /\ issuesOpenedByDay out = ByDay.issuesOpenedByDay byDay
    /\ issuesClosedByDay out = ByDay.issuesClosedByDay byDay
    /\ effortSpentByDay out = ByDay.effortSpentByDay byDay
    /\ effortEstimatedByDay out = ByDay.effortEstimatedByDay byDay
    /\ completedTasks out = ByDay.issuesClosedByDay byDay
    /\ length (labels out) = Z.to_nat n
    /\ length (remainingEffort out) = Z.to_nat n
    /\ length (idealBurndown out) = Z.to_nat n
    /\ length (remainingTasks out) = Z.to_nat n.
Proof.
  intros H startDate0 dueDate0 n. unfold generateBurndownChart in H.
  fold startDate0 dueDate0 n in H.
  bind_inv H. bind_inv H. bind_inv H. bind_inv H.
  apply new_Array_fill_Ok in Ha as [Hn ->].
  apply new_Array_fill_Ok in Ha0 as [_ ->].
  apply new_Array_fill_Ok in Ha1 as [_ ->].
  apply new_Array_fill_Ok in Ha2 as [_ ->].
  bind_inv H. exists a.
  destruct (useEstimate _); injection H as <-; simpl;
    rewrite ?length_fill_map; repeat split; auto.
Qed.

(** C1 (code at the failing input): the issue logs its hours for
    2020-02-10, day index 9 of a milestone of 5 days, in a note written
    inside the window. The run returns and [days] is 5; every series has
    length 5 but [effortSpentByDay]: the write [effortSpentByDay[9] += 10.5]
    goes past the end of the array and extends it to length 10, with empty
    slots at 5 to 8 and [NaN], which is [undefined + 10.5], at 9. *)
Theorem C1_effortSpentByDay_longer_than_days :
  exists out,
    generateBurndownChart Examples.february [Examples.late_effort_issue] no_options = Ok out
    /\ days out = 5
    /\ length (issuesOpenedByDay out) = 5%nat
    /\ length (issuesClosedByDay out) = 5%nat
    /\ length (effortEstimatedByDay out) = 5%nat
    /\ length (completedTasks out) = 5%nat
    /\ length (remainingEffort out) = 5%nat
    /\ length (idealBurndown out) = 5%nat
    /\ length (remainingTasks out) = 5%nat
    /\ length (labels out) = 5%nat
    /\ length (effortSpentByDay out) = 10%nat
    /\ effortSpentByDay out
       = [Some zero; Some zero; Some zero; Some zero; Some zero;
          None; None; None; None; Some NaN].
Proof. eexists. split; [vm_compute; reflexivity | repeat split]. Qed.

(** X27: in every run that returns, [days] is
    [ceil((dueDate - startDate) / 1 day) + 1] and is not negative; the
    series [issuesOpenedByDay], [effortEstimatedByDay], [remainingEffort],
    [idealBurndown], [remainingTasks] and the labels have length exactly
    [days]; [effortSpentByDay] and [issuesClosedByDay], which is
    [completedTasks], are never shorter than [days]. *)
Theorem X27_series_lengths milestone issues options out :
  generateBurndownChart milestone issues options = Ok out ->
  days out
    = Math_ceil (inject_Z (dueDate milestone - startDate milestone)
                 / inject_Z MILLISECONDS_IN_DAY) + 1
  /\ 0 <= days out
  /\ Z.of_nat (length (issuesOpenedByDay out)) = days out
  /\ Z.of_nat (length (effortEstimatedByDay out)) = days out
  /\ Z.of_nat (length (remainingEffort out)) = days out
  /\ Z.of_nat (length (idealBurndown out)) = days out
  /\ Z.of_nat (length (remainingTasks out)) = days out
  /\ Z.of_nat (length (labels out)) = days out
  /\ days out <= Z.of_nat (length (effortSpentByDay out))
  /\ days out <= Z.of_nat (length (issuesClosedByDay out))
  /\ completedTasks out = issuesClosedByDay out.
Proof.
  intros H. apply generateBurndownChart_Ok in H.
  destruct H as (byDay & Hn & Hloop & Hdays & Ho & Hc & Hs & He & Hct & Hl & Hre & Hib & Hrt).
  rewrite <- (Z2Nat.id _ Hn) in Hloop at 1.
  apply processIssues_lengths in Hloop; unfold initial_byDay; proj_byDay;
    rewrite ?length_replicate; try lia.
  destruct Hloop as (Ho' & He' & Hc' & Hs').
  rewrite Hdays, Ho, He, Hs, Hc, Hct, Hl, Hre, Hib, Hrt, Ho', He'.
  rewrite <- days_of_ceil_plus_1.
  repeat split; lia.
Qed.

Lemma X27_series_lengths_witness :
  exists out,
    generateBurndownChart Examples.february [Examples.worked_issue] no_options = Ok out
    /\ Z.of_nat (length (issuesOpenedByDay out)) = days out
    /\ Z.of_nat (length (idealBurndown out)) = days out
    /\ days out <= Z.of_nat (length (effortSpentByDay out)).
Proof.
  eexists. split; [vm_compute; reflexivity|].
  match goal with
  | |- context [issuesOpenedByDay ?o] =>
      pose proof (X27_series_lengths Examples.february [Examples.worked_issue] no_options o
                    ltac:(vm_compute; reflexivity)) as H
  end.
  repeat split; apply H.
Defined.

(** ** The effort extractor *)

Lemma filter_result_app {A} (f : A -> result bool) l1 l2 :
  filter_result f (l1 ++ l2)%list
  = (kept1 ← filter_result f l1; kept2 ← filter_result f l2; Ok (kept1 ++ kept2)%list).
Proof.
  induction l1 as [|x l1 IH]; simpl.
  - by destruct (filter_result f l2).
  - destruct (f x) as [keep|e]; simpl; [|done].
    rewrite IH. destruct (filter_result f l1) as [kept1|e]; simpl; [|done].
    destruct (filter_result f l2) as [kept2|e]; simpl; [|done].
    by destruct keep.
Qed.

Lemma filter_result_rejected {A} (f : A -> result bool) l :
  Forall (fun x => f x = Ok false) l -> filter_result f l = Ok [].
Proof.
  induction 1 as [|x l Hx _ IH]; simpl; [done|].
  by rewrite Hx, IH.
Qed.

(** C7: an issue with one spending note, of body
    ["added 1d 2h 30m of time spent at 2020-02-25"], written by the system
    within the window (every other discussion entry is rejected by the
    spending filter): [spendings] holds one contribution, of 1 day, 2 hours
    and 30 minutes, [totalHours] 1 * 8 + 2 + 30 / 60 = 10.5, dated
    2020-02-25 (midnight UTC, 1582588800000 ms); [getTimeSpent] returns the
    total 10.5 and the 10.5 hours under that date. *)
Theorem C7_duration_parsing issue startDate endDate before comment after note others :
  discussion issue = (before ++ comment :: after)%list ->
  notes comment = note :: others ->
  body note = "added 1d 2h 30m of time spent at 2020-02-25" ->
  system note = true ->
  startDate <= createdAt note <= endDate ->
  Forall (fun c => isSpendingComment startDate endDate c = Ok false) (before ++ after)%list ->
  Date_getTime "2020-02-25" = Some 1582588800000
  /\ spendings issue startDate endDate
     = Ok [{| Spending.author := author comment;
              Spending.date := Some 1582588800000;
              Spending.days := of_Z 1;
              Spending.hours := of_Z 2;
              Spending.minutes := of_Z 30;
              Spending.totalHours := Fin (21 # 2) |}]
  /\ getTimeSpent issue startDate endDate
     = Ok {| TimeSpent.total := Fin (21 # 2);
             TimeSpent.days := [(Some 1582588800000, Fin (21 # 2))] |}.
Proof.
  intros Hd Hn Hb Hs [Hlo Hhi] Hrej.
  apply Forall_app in Hrej as [Hbefore Hafter].
  assert (Haccept : isSpendingComment startDate endDate comment = Ok true).
  { unfold isSpendingComment, note0. rewrite Hn. simpl. rewrite Hb, Hs.
    apply Z.leb_le in Hlo, Hhi. rewrite Hlo, Hhi. reflexivity. }
  assert (Hsp : spendings issue startDate endDate
                = Ok [{| Spending.author := author comment;
                         Spending.date := Some 1582588800000;
                         Spending.days := of_Z 1;
                         Spending.hours := of_Z 2;
                         Spending.minutes := of_Z 30;
                         Spending.totalHours := Fin (21 # 2) |}]).
  { unfold spendings. rewrite Hd, filter_result_app.
    rewrite (filter_result_rejected _ _ Hbefore). simpl.
    rewrite Haccept. simpl.
    rewrite (filter_result_rejected _ _ Hafter). simpl.
    unfold toSpending, note0. rewrite Hn. simpl. rewrite Hb. reflexivity. }
  split; [reflexivity|]. split; [exact Hsp|].
  unfold getTimeSpent. rewrite Hsp. reflexivity.
Qed.

Lemma C7_duration_parsing_witness :
  let comment := Examples.system_note "added 1d 2h 30m of time spent at 2020-02-25"
                                      (Examples.at_date "2020-02-03") in
  getTimeSpent (Examples.issue_of [comment] None)
               (startDate Examples.february) (dueDate Examples.february)
  = Ok {| TimeSpent.total := Fin (21 # 2);
          TimeSpent.days := [(Some 1582588800000, Fin (21 # 2))] |}.
Proof.
  intros comment.
  refine (proj2 (proj2 (C7_duration_parsing
            (Examples.issue_of [comment] None)
            (startDate Examples.february) (dueDate Examples.february)
            [] comment []
            {| body := "added 1d 2h 30m of time spent at 2020-02-25"; system := true;
               createdAt := Examples.at_date "2020-02-03";
               updatedAt := Examples.at_date "2020-02-03" |}
            [] _ _ _ _ _ _))).
  - reflexivity.
  - reflexivity.
  - reflexivity.
  - reflexivity.
  - vm_compute. split; discriminate.
  - constructor.
Defined.

Lemma TimeMap_get_set o k v : TimeMap_get (TimeMap_set o k v) k = Some v.
Proof.
  induction o as [|[k' v'] o IH]; simpl.
  - by rewrite decide_True.
  - destruct (decide (k = k')) as [->|Hne]; simpl.
    + by rewrite decide_True.
    + by rewrite decide_False.
Qed.

(** Whatever was recorded before, a contribution leaves its own hours under
    its date: contributions of the same date do not add up. *)
Lemma recordSpending_overwrites timeSpent spending :
  TimeMap_get (TimeSpent.days (recordSpending timeSpent spending)) (Spending.date spending)
  = Some (add zero (Spending.totalHours spending)).
Proof. unfold recordSpending. simpl. apply TimeMap_get_set. Qed.

Lemma fold_recordSpending_total spendings timeSpent :
  TimeSpent.total (fold_left recordSpending spendings timeSpent) = TimeSpent.total timeSpent.
Proof.
  revert timeSpent. induction spendings as [|spending spendings IH]; intros timeSpent; simpl;
    [done|].
  by rewrite IH.
Qed.

(** The total is the sum of the hours of all contributions. *)
Lemma getTimeSpent_total issue startDate endDate contributions timeSpent :
  spendings issue startDate endDate = Ok contributions ->
  getTimeSpent issue startDate endDate = Ok timeSpent ->
  TimeSpent.total timeSpent
  = fold_left add (map Spending.totalHours contributions) zero.
Proof.
  intros Hs H. unfold getTimeSpent in H. rewrite Hs in H. simpl in H.
  injection H as <-. rewrite fold_recordSpending_total. simpl. clear Hs.
  generalize zero. induction contributions as [|c l IH]; intros acc; simpl; [done|].
  apply IH.
Qed.

(** C4 (code at the failing input): one hour and two hours are logged for
    2020-02-03. The total is their sum, 3, but the day is mapped to 2, the
    hours of the contribution met last: the loop reads [timeSpent[k]],
    which is always [undefined], where it means [timeSpent.days[k]]. *)
Theorem C4_same_day_contributions_overwrite :
  let startDate := startDate Examples.february in
  let dueDate := dueDate Examples.february in
  (map Spending.date <$> spendings Examples.two_contributions startDate dueDate)
  = Ok [Some 1580688000000; Some 1580688000000]
  /\ (map Spending.totalHours <$> spendings Examples.two_contributions startDate dueDate)
     = Ok [of_Z 1; of_Z 2]
  /\ getTimeSpent Examples.two_contributions startDate dueDate
     = Ok {| TimeSpent.total := of_Z 3;
             TimeSpent.days := [(Some 1580688000000, of_Z 2)] |}.
Proof. vm_compute. repeat split. Qed.

(** ** The regular expressions of the extractor *)

#[local] Arguments cclass_matches : simpl never.

Lemma run_Star_nil k r input g :
  run (Star k :: r) input [] g = run r input [] g.
Proof. reflexivity. Qed.

Lemma run_Star_cons k r input c s g :
  run (Star k :: r) input (c :: s) g
  = if cclass_matches k c then
      match run (Star k :: r) input s g with
      | Some m => Some m
      | None => run r input (c :: s) g
      end
    else run r input (c :: s) g.
Proof. reflexivity. Qed.

(** A star hands over to the rest of the expression at some later point of
    the input. *)
Lemma run_Star_inv k r input s g m :
  run (Star k :: r) input s g = Some m ->
  exists s', s' `suffix_of` s /\ run r input s' g = Some m.
Proof.
  induction s as [|c s IH].
  - rewrite run_Star_nil. intros H. by exists [].
  - rewrite run_Star_cons. intros H.
    assert (run r input (c :: s) g = Some m ->
            exists s', s' `suffix_of` c :: s /\ run r input s' g = Some m) as Hhere.
    { intros Hr. by exists (c :: s). }
    destruct (cclass_matches k c); [|auto].
    destruct (run (Star k :: r) input s g) as [m'|] eqn:Hstar; [|auto].
    injection H as ->. destruct (IH eq_refl) as (s' & Hs' & Hr).
    exists s'. split; [by apply suffix_cons_r | done].
Qed.

Lemma search_Some r input s m :
  search r input s = Some m ->
  exists s0, s0 `suffix_of` s /\ match_at r input s0 = Some m.
Proof.
  induction s as [|c s IH]; simpl.
  - destruct (match_at r input []) eqn:Hm; [|done]. intros [= ->]. by exists [].
  - destruct (match_at r input (c :: s)) eqn:Hm.
    + intros [= ->]. by exists (c :: s).
    + intros H. destruct (IH H) as (s0 & Hs0 & Hm0).
      exists s0. split; [by apply suffix_cons_r | done].
Qed.

Lemma search_complete r input s s0 m :
  s0 `suffix_of` s ->
  match_at r input s0 = Some m ->
  exists m', search r input s = Some m'.
Proof.
  intros Hsuf Hm. induction s as [|c s IH].
  - apply suffix_nil_inv in Hsuf as ->. simpl. rewrite Hm. eauto.
  - simpl. destruct (match_at r input (c :: s)) eqn:Hhere; [eauto|].
    destruct s0 as [|c0 s0]; [apply IH, suffix_nil|].
    apply suffix_cons_inv in Hsuf as [[= -> ->]|Hsuf]; [congruence | auto].
Qed.

Ltac explicit_regex r :=
  let r' := eval vm_compute in r in change r with r' in *.

Ltac step_char H s :=
  let c := fresh "c" in
  destruct s as [|c s]; simpl in H; [discriminate|];
  destruct (cclass_matches _ c) eqn:?; [|discriminate].

(** The date pattern captures its group wherever it matches. *)
Lemma re_date_group input s m :
  match_at re_date input s = Some m -> exists iso, m1 m = Some iso.
Proof.
  unfold match_at. explicit_regex re_date.
  destruct (run _ input s no_captures) as [[rest g]|] eqn:H; [|done].
  intros [= <-]. simpl.
  do 13 step_char H s.
  injection H as <- <-. simpl. eauto.
Qed.

(** What the spending filter accepts has a date for the date pattern. *)
Lemma re_isSpending_tail_date input s g m :
  run (lit "at " ++ times 4 Digit ++ lit "-" ++ times 2 Digit ++ lit "-"
       ++ times 2 Digit ++ [Eol])%list input s g = Some m ->
  exists m', match_at re_date input s = Some m'.
Proof.
  unfold match_at. explicit_regex re_date.
  match goal with |- run ?r _ _ _ = _ -> _ => explicit_regex r end.
  intros H. do 13 step_char H s.
  simpl. repeat match goal with E : cclass_matches _ _ = true |- _ => rewrite E; clear E end.
  eauto.
Qed.

Lemma re_isSpending_has_date body :
  str_match body re_isSpending <> None ->
  exists m iso, str_match body re_date = Some m /\ m1 m = Some iso.
Proof.
  unfold str_match. set (input := list_ascii_of_string body).
  destruct (search re_isSpending input input) as [m|] eqn:Hsearch; [|done]. intros _.
  apply search_Some in Hsearch as (s & Hsuffix & Hm). unfold match_at in Hm.
  destruct (run re_isSpending input s no_captures) as [[rest g]|] eqn:Hrun; [|done].
  clear Hm. explicit_regex re_isSpending.
  match type of Hrun with
  | context [Star Dot :: ?tail] => remember (Star Dot :: tail) as star eqn:Hstar
  end.
  simpl in Hrun. destruct (length s =? length input)%nat; [|discriminate].
  assert (exists s5, s5 `suffix_of` s /\ run star input s5 no_captures = Some (rest, g))
    as (s5 & Hs5 & Hrun5).
  { do 5 step_char Hrun s. eexists. split; [|exact Hrun].
    do 5 apply suffix_cons_r. done. }
  subst star. apply run_Star_inv in Hrun5 as (s' & Hs' & Hdate).
  apply re_isSpending_tail_date in Hdate as [m' Hm'].
  destruct (search_complete re_date input input s' m') as [m'' Hfound]; [|done|].
  { by repeat (etransitivity; [eassumption|]). }
  exists m''. apply search_Some in Hfound as Hat. destruct Hat as (s'' & _ & Hat).
  destruct (re_date_group _ _ _ Hat) as [iso Hiso]. eauto.
Qed.

(** The duration pattern captures its group wherever it matches. *)
Lemma re_humanReadableTime_group input s m :
  match_at re_humanReadableTime input s = Some m -> exists text, m1 m = Some text.
Proof.
  unfold match_at.
  destruct (run _ input s no_captures) as [[rest g]|] eqn:H; [|done].
  intros [= <-]. simpl.
  explicit_regex re_humanReadableTime.
  match type of H with
  | context [Star Dot :: ?tail] => remember (Star Dot :: tail) as star eqn:Hstar
  end.
  do 6 step_char H s. simpl in H.
  subst star. apply run_Star_inv in H as (s' & _ & H).
  simpl in H. do 3 step_char H s'.
  injection H as <- <-. simpl. eauto.
Qed.

Lemma str_match_group body r :
  (forall input s m, match_at r input s = Some m -> exists text, m1 m = Some text) ->
  forall m, str_match body r = Some m -> exists text, m1 m = Some text.
Proof.
  intros Hgroup m Hm. unfold str_match in Hm.
  apply search_Some in Hm as (s & _ & Hat). eauto.
Qed.

(** What can go wrong in the callback of [map] on a comment that the
    filter accepted is the duration pattern, and nothing else: when it
    matches the body, the contribution is built. *)
Lemma toSpending_accepted startDate endDate comment note :
  notes comment !! 0%nat = Some note ->
  isSpendingComment startDate endDate comment = Ok true ->
  match str_match (body note) re_humanReadableTime with
  | Some _ => exists spending, toSpending comment = Ok spending
  | None => toSpending comment = Throw (cannot_read "1" "null")
  end.
Proof.
  intros Hnote Hacc. unfold isSpendingComment, toSpending, note0 in *.
  rewrite Hnote in *. simpl in *.
  injection Hacc as Hacc. apply andb_true_iff in Hacc as [Hacc _].
  apply andb_true_iff in Hacc as [Hacc _]. apply bool_decide_eq_true in Hacc.
  destruct (re_isSpending_has_date _ Hacc) as (md & iso & Hdate & Hiso).
  destruct (str_match (body note) re_humanReadableTime) as [mt|] eqn:Htime; [|done].
  destruct (str_match_group _ _ re_humanReadableTime_group _ Htime) as [text Htext].
  simpl. rewrite Htext, Hdate. simpl. eauto.
Qed.

(** What a star consumed matches its class. *)
Lemma run_Star_consumed k r input s g m :
  run (Star k :: r) input s g = Some m ->
  exists taken s',
    s = (taken ++ s')%list
    /\ forallb (cclass_matches k) taken = true
    /\ run r input s' g = Some m.
Proof.
  induction s as [|c s IH].
  - rewrite run_Star_nil. intros H. by exists [], [].
  - rewrite run_Star_cons. intros H.
    assert (run r input (c :: s) g = Some m ->
            exists taken s', c :: s = (taken ++ s')%list
                             /\ forallb (cclass_matches k) taken = true
                             /\ run r input s' g = Some m) as Hhere.
    { intros Hr. by exists [], (c :: s). }
    destruct (cclass_matches k c) eqn:Hc; [|auto].
    destruct (run (Star k :: r) input s g) as [m'|] eqn:Hstar; [|auto].
    injection H as ->. destruct (IH eq_refl) as (taken & s' & -> & Htaken & Hr).
    exists (c :: taken), s'. simpl. by rewrite Hc, Htaken.
Qed.

Lemma consumed_app (taken rest : list ascii) : consumed (taken ++ rest) rest = taken.
Proof.
  unfold consumed. rewrite length_app.
  replace (length taken + length rest - length rest)%nat with (length taken) by lia.
  by rewrite take_app_length.
Qed.

(** C9 (code at the failing input): the note ["added at 2020-02-03"] of
    the system passes the spending filter, and the extraction of its
    duration throws: the duration pattern does not match, and [[1]] is read
    from [null]. *)
Theorem C9_accepted_note_without_duration_throws :
  let startDate := startDate Examples.february in
  let dueDate := dueDate Examples.february in
  let comment := Examples.system_note "added at 2020-02-03" (Examples.at_date "2020-02-03") in
  isSpendingComment startDate dueDate comment = Ok true
  /\ toSpending comment = Throw (cannot_read "1" "null")
  /\ getTimeSpent Examples.no_duration_issue startDate dueDate
     = Throw (cannot_read "1" "null").
Proof. vm_compute. repeat split. Qed.

(** ** The boundary of the window *)

(** C2 (code at the failing input): the milestone has one day and the
    issue is closed on the next one, so [dayClosed] is 1, which is [days]
    and not [days - 1]. The test [dayClosed <= days] lets it through, and
    [issuesClosedByDay[1] += 1], past the end of the array, stores
    [undefined + 1], that is [NaN], in a new second element. *)
Theorem C2_closed_on_day_after_due_is_counted :
  day_index (Examples.at_date "2020-02-02") (startDate Examples.one_day)
  = days_of (startDate Examples.one_day) (dueDate Examples.one_day)
  /\ exists out,
       generateBurndownChart Examples.one_day [Examples.closed_next_day] no_options = Ok out
       /\ days out = 1
       /\ issuesClosedByDay out = [Some zero; Some NaN].
Proof.
  split; [reflexivity|]. eexists. split; [vm_compute; reflexivity|].
  split; reflexivity.
Qed.

(** The ideal burndown is computed by one expression for every number of
    days. *)
Lemma idealBurndown_formula milestone issues options out :
  generateBurndownChart milestone issues options = Ok out ->
  idealBurndown out
  = fill_map (days out) (fun i =>
      Some (sub (totalEffort out)
                (mul (div (totalEffort out) (of_Z (days out - 1))) (of_Z (Z.of_nat i))))).
Proof.
  intros H. unfold generateBurndownChart in H.
  do 5 bind_inv H.
  destruct (useEstimate _); injection H as <-; reflexivity.
Qed.

(** For a milestone of one day the expression divides by zero: whatever
    the total effort, the only point of the ideal burndown is [NaN]. *)
Lemma idealBurndown_one_day milestone issues options out :
  generateBurndownChart milestone issues options = Ok out ->
  days out = 1 ->
  idealBurndown out = [Some NaN].
Proof.
  intros H Hd. rewrite (idealBurndown_formula _ _ _ _ H), Hd.
  unfold fill_map. simpl.
  destruct (totalEffort out) as [q| | |]; try reflexivity.
  unfold div, sgn. simpl. destruct (Qnum q ?= 0); reflexivity.
Qed.

(** C5 (code at the failing input): the milestone starts and ends on
    2020-02-01 and 10.5 hours were spent; [days] is 1, the total effort is
    10.5, and the ideal burndown is [[NaN]], not [[10.5]]:
    [10.5 / (1 - 1)] is [Infinity] and [Infinity * 0] is [NaN]. *)
Theorem C5_one_day_idealBurndown_is_NaN :
  exists out,
    generateBurndownChart Examples.one_day [Examples.same_day_issue] no_options = Ok out
    /\ days out = 1
    /\ totalEffort out = Fin (21 # 2)
    /\ idealBurndown out = [Some NaN].
Proof.
  eexists. split; [vm_compute; reflexivity|]. repeat split.
Qed.

(** ** Windows that end before they start *)

(** C8 (as stated, refuted): the milestone is due on 2020-02-01, the day
    before it starts, and the run returns, with zero days and empty
    series; nothing is raised. *)
Lemma C8_due_before_start_is_accepted :
  dueDate Examples.due_before_start < startDate Examples.due_before_start
  /\ exists out,
       generateBurndownChart Examples.due_before_start [Examples.worked_issue] no_options
       = Ok out
       /\ days out = 0
       /\ issuesOpenedByDay out = [].
Proof.
  split; [reflexivity|]. eexists. split; [vm_compute; reflexivity|].
  split; reflexivity.
Qed.

Lemma generateBurndownChart_invalid_length milestone issues options :
  days_of (startDate milestone) (dueDate milestone) < 0 ->
  generateBurndownChart milestone issues options = Throw invalid_array_length.
Proof.
  intros H. unfold generateBurndownChart, new_Array_fill.
  apply Z.ltb_lt in H. by rewrite H.
Qed.

Lemma generateBurndownChart_no_issues milestone options :
  0 <= days_of (startDate milestone) (dueDate milestone) <= 2 ^ 32 - 1 ->
  exists out,
    generateBurndownChart milestone [] options = Ok out
    /\ days out = days_of (startDate milestone) (dueDate milestone).
Proof.
  intros [Hlo Hhi]. unfold generateBurndownChart, new_Array_fill.
  destruct (Z.ltb_spec (days_of (startDate milestone) (dueDate milestone)) 0); [lia|].
  destruct (Z.ltb_spec (2 ^ 32 - 1) (days_of (startDate milestone) (dueDate milestone)));
    [lia|].
  simpl.
  match goal with |- context [if ?c then _ else _] => destruct c end;
    eexists; split; reflexivity.
Qed.

(** C8 (amended): for a due date earlier than the start date, a run whose
    due date is two days or more before the start date throws, before any
    series exists, the [RangeError] of [new Array(days)] with a negative
    [days]; a run whose due date is less than two days before the start
    date raises nothing for the window: [days] is 0 or 1 and, without
    issues, the series are returned. *)
Theorem C8_due_before_start milestone issues options :
  dueDate milestone < startDate milestone ->
  (dueDate milestone - startDate milestone <= - (2 * MILLISECONDS_IN_DAY) ->
   generateBurndownChart milestone issues options = Throw invalid_array_length)
  /\ (- (2 * MILLISECONDS_IN_DAY) < dueDate milestone - startDate milestone ->
      exists out,
        generateBurndownChart milestone [] options = Ok out
        /\ (days out = 0 \/ days out = 1)).
Proof.
  intros Hlt. pose proof (days_of_Z (startDate milestone) (dueDate milestone)) as Hdays.
  rewrite MILLISECONDS_IN_DAY_eq in *. split; intros Hgap.
  - apply generateBurndownChart_invalid_length. rewrite Hdays.
    assert (1 <= (startDate milestone - dueDate milestone - 86400000) / 86400000);
      [|lia].
    apply Z.div_le_lower_bound; lia.
  - assert (-1 <= (startDate milestone - dueDate milestone - 86400000) / 86400000 < 1)
      as Hq.
    { split.
      - apply Z.div_le_lower_bound; lia.
      - apply Z.div_lt_upper_bound; lia. }
    destruct (generateBurndownChart_no_issues milestone options) as (out & Hout & Hd).
    { rewrite Hdays. lia. }
    exists out. split; [exact Hout|]. rewrite Hd, Hdays. lia.
Qed.

Lemma C8_due_before_start_witness :
  generateBurndownChart Examples.due_two_days_before_start [Examples.worked_issue] no_options
  = Throw invalid_array_length.
Proof.
  refine (proj1 (C8_due_before_start Examples.due_two_days_before_start
                   [Examples.worked_issue] no_options _) _).
  - reflexivity.
  - vm_compute. discriminate.
Defined.

(** ** Sorting the discussion *)

Lemma insert_sorted_Permutation {A} (before : A -> A -> bool) x l :
  Permutation (insert_sorted before x l) (x :: l).
Proof.
  induction l as [|y l IH]; simpl; [done|].
  destruct (before x y); [done|].
  rewrite IH. apply perm_swap.
Qed.

Lemma insertion_sort_Permutation {A} (before : A -> A -> bool) l :
  Permutation (insertion_sort before l) l.
Proof.
  induction l as [|x l IH]; simpl; [done|].
  rewrite insert_sorted_Permutation. by constructor.
Qed.

Lemma sort_discussion_Permutation d sorted :
  sort_discussion d = Ok sorted -> Permutation sorted d.
Proof.
  unfold sort_discussion. destruct (length d <? 2)%nat.
  - by intros [= <-].
  - intros H. bind_inv H. injection H as <-. apply insertion_sort_Permutation.
Qed.

Section Sorted.
Context {A : Type} (before : A -> A -> bool).
Hypothesis before_total : forall x y, before x y = false -> before y x = true.
Hypothesis before_trans :
  forall x y z, before x y = true -> before y z = true -> before x z = true.

Lemma insert_sorted_StronglySorted x l :
  StronglySorted (fun a b => before a b = true) l ->
  StronglySorted (fun a b => before a b = true) (insert_sorted before x l).
Proof.
  induction 1 as [|y l Hl IH Hy]; simpl.
  - repeat constructor.
  - destruct (before x y) eqn:Hxy.
    + constructor; [by constructor|].
      constructor; [done|]. eapply Forall_impl; [exact Hy|]. eauto.
    + constructor; [done|].
      rewrite (insert_sorted_Permutation before x l). constructor; auto.
Qed.

Lemma insertion_sort_StronglySorted l :
  StronglySorted (fun a b => before a b = true) (insertion_sort before l).
Proof.
  induction l as [|x l IH]; simpl; [constructor|].
  by apply insert_sorted_StronglySorted.
Qed.
End Sorted.

(** The sorted discussion has the newest first. *)
Lemma sort_discussion_newest_first d sorted :
  sort_discussion d = Ok sorted ->
  (2 <= length d)%nat ->
  StronglySorted (fun a b => (updateAt b <=? updateAt a) = true) sorted.
Proof.
  unfold sort_discussion. destruct (Nat.ltb_spec (length d) 2) as [|_]; [lia|].
  intros Hs _. bind_inv Hs. injection Hs as <-.
  apply (insertion_sort_StronglySorted (fun a b => updateAt b <=? updateAt a)).
  - intros x y Hxy. apply Z.leb_le. apply Z.leb_gt in Hxy. lia.
  - intros x y z Hxy Hyz. apply Z.leb_le. apply Z.leb_le in Hxy, Hyz. lia.
Qed.

Lemma map_result_is_Ok {A B} (f : A -> result B) l :
  Forall (fun x => is_Ok (f x) = true) l -> is_Ok (map_result f l) = true.
Proof.
  induction 1 as [|x l Hx _ IH]; simpl; [done|].
  destruct (f x); [|done]. simpl. by destruct (map_result f l).
Qed.

Lemma filter_result_Ok_inv {A} (f : A -> result bool) l r :
  filter_result f l = Ok r -> Forall (fun x => is_Ok (f x) = true) l.
Proof.
  revert r. induction l as [|x l IH]; intros r H; simpl in H; [constructor|].
  bind_inv H. bind_inv H. constructor; [by rewrite Ha | eauto].
Qed.

(** Whether [comment.notes[0]] can be read does not depend on the property
    read from it. *)
Lemma note0_is_Ok comment prop prop' :
  is_Ok (note0 comment prop) = true -> is_Ok (note0 comment prop') = true.
Proof. unfold note0. by destruct (notes comment !! 0%nat). Qed.

(** Once [getTimeSpent] went through the discussion, every comment has a
    first note, and the comparator of the sort reads it without fail. *)
Lemma getTimeSpent_Ok_notes issue startDate endDate timeSpent :
  getTimeSpent issue startDate endDate = Ok timeSpent ->
  Forall (fun comment => is_Ok (note0 comment "updatedAt") = true) (discussion issue).
Proof.
  intros H. unfold getTimeSpent in H. bind_inv H. unfold spendings in Ha.
  bind_inv Ha. apply filter_result_Ok_inv in Ha0.
  eapply Forall_impl; [exact Ha0|]. intros comment Hc. simpl in Hc.
  unfold isSpendingComment in Hc.
  apply note0_is_Ok with (prop := "body").
  by destruct (note0 comment "body").
Qed.

Lemma getTimeSpent_Ok_sort issue startDate endDate timeSpent :
  getTimeSpent issue startDate endDate = Ok timeSpent ->
  exists sorted, sort_discussion (discussion issue) = Ok sorted.
Proof.
  intros H. apply getTimeSpent_Ok_notes in H. unfold sort_discussion.
  destruct (length (discussion issue) <? 2)%nat; [eauto|].
  apply map_result_is_Ok in H.
  destruct (map_result _ (discussion issue)); [simpl; eauto | discriminate].
Qed.

(** ** Issues that never mention the milestone *)

Lemma find_None_Forall {A} (f : A -> bool) l :
  Forall (fun x => f x = false) l -> List.find f l = None.
Proof. induction 1 as [|x l Hx _ IH]; simpl; [done|]. by rewrite Hx. Qed.

Lemma existsb_false_Forall {A} (f : A -> bool) l :
  existsb f l = false -> Forall (fun x => f x = false) l.
Proof.
  induction l as [|x l IH]; simpl; [constructor|].
  intros [Hx Hl]%orb_false_iff. constructor; auto.
Qed.

Lemma find_no_evidence milestone issue sorted :
  hasMilestoneEvidence milestone issue = false ->
  Permutation sorted (discussion issue) ->
  List.find (fun comment => existsb (mentionsMilestone milestone) (notes comment)) sorted
  = None.
Proof.
  intros Hev Hperm. apply find_None_Forall.
  rewrite Hperm. by apply existsb_false_Forall.
Qed.

(** The search for the milestone change finds nothing, and reading [notes]
    from its result throws. *)
Lemma processIssue_no_evidence milestone startDate dueDate days options byDay issue :
  hasMilestoneEvidence milestone issue = false ->
  processIssue milestone startDate dueDate days options byDay issue
  = match getTimeSpent issue startDate dueDate with
    | Ok _ => Throw (cannot_read "notes" "undefined")
    | Throw e => Throw e
    end.
Proof.
  intros Hev. unfold processIssue.
  destruct (getTimeSpent issue startDate dueDate) as [timeSpent|e] eqn:Hts; [|done].
  destruct (getTimeSpent_Ok_sort _ _ _ _ Hts) as [sorted Hsort].
  rewrite Hsort. simpl.
  by rewrite (find_no_evidence _ _ _ Hev (sort_discussion_Permutation _ _ Hsort)).
Qed.

Lemma processIssues_app milestone startDate dueDate days options byDay before after :
  processIssues milestone startDate dueDate days options byDay (before ++ after)%list
  = (byDay' ← processIssues milestone startDate dueDate days options byDay before;
     processIssues milestone startDate dueDate days options byDay' after).
Proof.
  revert byDay. induction before as [|issue before IH]; intros byDay; simpl; [done|].
  destruct (processIssue _ _ _ _ _ byDay issue); simpl; [apply IH | done].
Qed.

Lemma processIssues_no_evidence milestone startDate dueDate days options issues issue :
  In issue issues ->
  hasMilestoneEvidence milestone issue = false ->
  forall byDay,
  exists e, processIssues milestone startDate dueDate days options byDay issues = Throw e.
Proof.
  intros Hin Hev. induction issues as [|first issues IH]; intros byDay; [destruct Hin|].
  simpl. destruct Hin as [->|Hin].
  - rewrite processIssue_no_evidence by done.
    destruct (getTimeSpent _ _ _); simpl; eauto.
  - destruct (processIssue _ _ _ _ _ byDay first); simpl; eauto.
Qed.

Lemma generateBurndownChart_loop_Throw milestone issues options e :
  let startDate := startDate milestone in
  let dueDate := dueDate milestone in
  let n := days_of startDate dueDate in
  0 <= n <= 2 ^ 32 - 1 ->
  processIssues milestone startDate dueDate n (merge_options startDate dueDate options)
                (initial_byDay n) issues = Throw e ->
  generateBurndownChart milestone issues options = Throw e.
Proof.
  intros startDate0 dueDate0 n [Hlo Hhi] Hloop.
  unfold generateBurndownChart, new_Array_fill. fold startDate0 dueDate0 n.
  destruct (Z.ltb_spec n 0); [lia|].
  destruct (Z.ltb_spec (2 ^ 32 - 1) n); [lia|].
  simpl. fold (initial_byDay n). by rewrite Hloop.
Qed.

Lemma generateBurndownChart_range_Throw milestone issues options :
  let n := days_of (startDate milestone) (dueDate milestone) in
  ~ 0 <= n <= 2 ^ 32 - 1 ->
  generateBurndownChart milestone issues options = Throw invalid_array_length.
Proof.
  intros n Hn. unfold generateBurndownChart, new_Array_fill. fold n.
  destruct (Z.ltb_spec n 0); [done|].
  destruct (Z.ltb_spec (2 ^ 32 - 1) n); [done | lia].
Qed.

(** C3 (as stated, refuted): the discussion of the issue never mentions
    the milestone, and what reaches the caller is the [TypeError] of
    reading [notes] from [undefined], the result of [find]. *)
Lemma C3_missing_evidence_is_a_dereference :
  hasMilestoneEvidence Examples.february Examples.no_evidence_issue = false
  /\ generateBurndownChart Examples.february [Examples.no_evidence_issue] no_options
     = Throw (TypeError "Cannot read property 'notes' of undefined").
Proof. split; vm_compute; reflexivity. Qed.

(** C3 (amended): when the discussion of an issue holds no note of the
    system whose body is the milestone change by title or by iid, every run
    over a collection containing the issue throws to its caller and returns
    no series; and when the run reaches the issue (the arrays were
    allocated, the issues before it were processed and [getTimeSpent] went
    through its discussion), the exception is the [TypeError] of reading
    [notes] from [undefined]. *)
Theorem C3_missing_evidence_throws milestone issue :
  hasMilestoneEvidence milestone issue = false ->
  (forall issues options,
     In issue issues ->
     exists e, generateBurndownChart milestone issues options = Throw e)
  /\ (forall before after options byDay,
        let startDate := startDate milestone in
        let dueDate := dueDate milestone in
        let n := days_of startDate dueDate in
        0 <= n <= 2 ^ 32 - 1 ->
        processIssues milestone startDate dueDate n (merge_options startDate dueDate options)
                      (initial_byDay n) before = Ok byDay ->
        is_Ok (getTimeSpent issue startDate dueDate) = true ->
        generateBurndownChart milestone (before ++ issue :: after)%list options
        = Throw (cannot_read "notes" "undefined")).
Proof.
  intros Hev. split.
  - intros issues options Hin.
    destruct (decide (0 <= days_of (startDate milestone) (dueDate milestone) <= 2 ^ 32 - 1))
      as [Hn|Hn].
    + destruct (processIssues_no_evidence milestone (startDate milestone)
                  (dueDate milestone) (days_of (startDate milestone) (dueDate milestone))
                  (merge_options (startDate milestone) (dueDate milestone) options)
                  issues issue Hin Hev
                  (initial_byDay (days_of (startDate milestone) (dueDate milestone))))
        as [e He].
      exists e. by apply generateBurndownChart_loop_Throw.
    + eexists. by apply generateBurndownChart_range_Throw.
  - intros before after options byDay startDate0 dueDate0 n Hn Hbefore Hts.
    apply generateBurndownChart_loop_Throw; [done|]. fold startDate0 dueDate0 n.
    rewrite processIssues_app, Hbefore. simpl.
    rewrite processIssue_no_evidence by done.
    by destruct (getTimeSpent issue startDate0 dueDate0).
Qed.

Lemma C3_missing_evidence_throws_witness :
  generateBurndownChart Examples.february
    ([Examples.worked_issue] ++ Examples.no_evidence_issue :: [Examples.worked_issue])%list
    no_options
  = Throw (cannot_read "notes" "undefined").
Proof.
  refine (proj2 (C3_missing_evidence_throws Examples.february Examples.no_evidence_issue _)
                [Examples.worked_issue] [Examples.worked_issue] no_options _ _ _ _).
  - reflexivity.
  - vm_compute. split; discriminate.
  - vm_compute. reflexivity.
  - reflexivity.
Defined.

(** ** Folding an effort ledger into [effortSpentByDay] *)

Lemma array_add_assign_lookup_same a i x v :
  Z.of_nat i < 2 ^ 32 - 1 ->
  a !! i = Some (Some x) ->
  array_add_assign a (KInt (Z.of_nat i)) v !! i = Some (Some (add x v)).
Proof.
  intros Hi Hx. unfold array_add_assign, is_array_index.
  destruct (Z.leb_spec 0 (Z.of_nat i)); [|lia].
  destruct (Z.ltb_spec (Z.of_nat i) (2 ^ 32 - 1)); [|lia].
  simpl. rewrite Nat2Z.id, Hx. unfold array_set.
  pose proof (lookup_lt_Some _ _ _ Hx) as Hlen.
  destruct (Nat.ltb_spec i (length a)); [|lia].
  by rewrite list_lookup_insert_eq.
Qed.

Lemma array_add_assign_lookup_other a k i v :
  (i < length a)%nat ->
  k <> KInt (Z.of_nat i) ->
  array_add_assign a k v !! i = a !! i.
Proof.
  intros Hi Hk. destruct k as [| |z]; try reflexivity.
  unfold array_add_assign, is_array_index.
  destruct (Z.leb_spec 0 z); [|done].
  destruct (z <? 2 ^ 32 - 1); [|done].
  simpl. unfold array_set.
  assert (Z.to_nat z <> i) by (intros <-; apply Hk; f_equal; lia).
  destruct (Nat.ltb_spec (Z.to_nat z) (length a)).
  - by rewrite list_lookup_insert_ne.
  - by rewrite lookup_app_l.
Qed.

Lemma fold_effort_days_lookup startDate effortDays dates :
  forall spent i x,
  Z.of_nat i < 2 ^ 32 - 1 ->
  spent !! i = Some (Some x) ->
  fold_left (fun spent date =>
               array_add_assign spent (effort_day startDate date)
                                (amount_of effortDays date)) dates spent !! i
  = Some (Some (fold_left add (amounts_for startDate effortDays dates i) x)).
Proof.
  induction dates as [|date dates IH]; intros spent i x Hi Hx; simpl; [done|].
  rewrite fold_left_app.
  destruct (effort_day startDate date) as [| |z] eqn:Hday; simpl; try by apply IH.
  destruct (Z.eqb_spec z (Z.of_nat i)) as [->|Hne]; simpl.
  - apply IH; [done|]. by apply array_add_assign_lookup_same.
  - apply IH; [done|]. rewrite array_add_assign_lookup_other; [done | |congruence].
    by eapply lookup_lt_Some.
Qed.

(** C6 (code at the failing input): 10.5 hours are logged for 2020-02-10,
    whose day index from the start of the milestone is 9, and the milestone
    has 5 days. The index is not clamped to [days - 1], which is 4: slot 4
    keeps its 0 and the write goes to index 9, past the end of the array,
    where [undefined + 10.5] is [NaN]. The 10.5 hours that [getTimeSpent]
    found are in no slot, and the total effort, the remaining effort and the
    ideal burndown are [NaN]. *)
Theorem C6_late_day_is_not_clamped :
  let startDate := startDate Examples.february in
  let dueDate := dueDate Examples.february in
  let late := Examples.at_date "2020-02-10" in
  effort_day startDate (Some late) = KInt 9
  /\ clamp (day_index late startDate) 0 (days_of startDate dueDate - 1) = 4
  /\ getTimeSpent Examples.late_effort_issue startDate dueDate
     = Ok {| TimeSpent.total := Fin (21 # 2);
             TimeSpent.days := [(Some late, Fin (21 # 2))] |}
  /\ exists out,
       generateBurndownChart Examples.february [Examples.late_effort_issue] no_options
       = Ok out
       /\ days out = 5
       /\ effortSpentByDay out !! 4%nat = Some (Some zero)
       /\ effortSpentByDay out !! 9%nat = Some (Some NaN)
       /\ totalEffort out = NaN
       /\ remainingEffort out = replicate 5 (Some NaN)
       /\ idealBurndown out = replicate 5 (Some NaN).
Proof.
  cbv zeta. split; [reflexivity|]. split; [reflexivity|].
  split; [vm_compute; reflexivity|].
  eexists. split; [vm_compute; reflexivity|].
  repeat split.
Qed.

(** X28: an entry [(day, amount)] of the per-day mapping whose day
    is a valid date is added at index [max(0, round((day - windowStart) /
    1 day))], with no upper bound. Every slot [i] that [effortSpentByDay]
    has before the fold receives the amounts of exactly the entries whose
    index is [i], nothing being redirected to the last slot; the fold never
    shortens the array; and the index is
    [clamp(round((day - windowStart) / 1 day), 0, days - 1)] exactly for the
    days that are not later than the last day of the window. *)
Theorem X28_effort_is_added_at_its_day startDate effortDays spent i x :
  Z.of_nat i < 2 ^ 32 - 1 ->
  spent !! i = Some (Some x) ->
  addEffortDays startDate effortDays spent !! i
  = Some (Some (fold_left add
                  (amounts_for startDate effortDays (Object_keys effortDays) i) x))
  /\ (length spent <= length (addEffortDays startDate effortDays spent))%nat
  /\ forall days t,
       0 < days ->
       effort_day startDate (Some t) = KInt (clamp (day_index t startDate) 0 (days - 1))
       <-> day_index t startDate <= days - 1.
Proof.
  intros Hi Hx. split; [|split].
  - by apply fold_effort_days_lookup.
  - apply length_addEffortDays_ge.
  - intros days t Hdays. unfold effort_day, clamp. split.
    + intros [= Heq]. lia.
    + intros Hle. f_equal. lia.
Qed.

Lemma X28_effort_is_added_at_its_day_witness :
  addEffortDays (startDate Examples.february)
    [(Some (Examples.at_date "2020-02-03"), Fin (21 # 2));
     (Some (Examples.at_date "2020-02-10"), of_Z 1)]
    (replicate 5 (Some zero)) !! 2%nat
  = Some (Some (Fin (21 # 2))).
Proof.
  refine (proj1 (X28_effort_is_added_at_its_day (startDate Examples.february)
            [(Some (Examples.at_date "2020-02-03"), Fin (21 # 2));
             (Some (Examples.at_date "2020-02-10"), of_Z 1)]
            (replicate 5 (Some zero)) 2 zero _ _)).
  - reflexivity.
  - reflexivity.
Defined.

Lemma add_NaN_l v : add NaN v = NaN.
Proof. by destruct v. Qed.

Lemma add_NaN_r v : add v NaN = NaN.
Proof. by destruct v. Qed.

Lemma array_add_assign_NaN_stays a k v i :
  a !! i = Some (Some NaN) -> array_add_assign a k v !! i = Some (Some NaN).
Proof.
  intros Hi. pose proof (lookup_lt_Some _ _ _ Hi) as Hlen.
  assert (k = KInt (Z.of_nat i) \/ k <> KInt (Z.of_nat i)) as [->|Hk].
  { destruct k as [| |z]; [by right | by right|].
    destruct (Z.eq_dec z (Z.of_nat i)) as [->|Hz]; [by left | right; congruence]. }
  - unfold array_add_assign, is_array_index.
    destruct (Z.leb_spec 0 (Z.of_nat i)); [|lia].
    destruct (Z.of_nat i <? 2 ^ 32 - 1); [|done].
    simpl. rewrite Nat2Z.id, Hi. unfold array_set.
    destruct (Nat.ltb_spec i (length a)); [|lia].
    by rewrite list_lookup_insert_eq.
  - rewrite array_add_assign_lookup_other; done.
Qed.

(** A slot that is past the end, empty, or [NaN] holds no number, and no
    write gives it one. *)
Lemma array_add_assign_no_number a k v i :
  match a !! i with Some (Some x) => x = NaN | _ => True end ->
  match array_add_assign a k v !! i with Some (Some x) => x = NaN | _ => True end
  /\ (k = KInt (Z.of_nat i) -> Z.of_nat i < 2 ^ 32 - 1 ->
      array_add_assign a k v !! i = Some (Some NaN)).
Proof.
  intros Hlost. destruct k as [| |z]; [done | done|].
  unfold array_add_assign, is_array_index.
  destruct (Z.leb_spec 0 z); simpl; [|split; [done | intros [= ->]; lia]].
  destruct (Z.ltb_spec z (2 ^ 32 - 1)); simpl; [|split; [done | intros [= ->]; lia]].
  unfold array_set.
  destruct (decide (Z.to_nat z = i)) as [<-|Hne].
  - assert (match a !! Z.to_nat z with
            | Some (Some x) => add x v
            | _ => NaN
            end = NaN) as ->.
    { destruct (a !! Z.to_nat z) as [[x|]|]; try done. subst x. apply add_NaN_l. }
    assert ((if (Z.to_nat z <? length a)%nat
             then <[Z.to_nat z := Some NaN]> a
             else (a ++ replicate (Z.to_nat z - length a) None ++ [Some NaN])%list)
            !! Z.to_nat z = Some (Some NaN)) as ->; [|done].
    destruct (Nat.ltb_spec (Z.to_nat z) (length a)).
    + by rewrite list_lookup_insert_eq.
    + rewrite lookup_app_r by lia. rewrite lookup_app_r by (rewrite length_replicate; lia).
      rewrite length_replicate.
      by replace (Z.to_nat z - length a - (Z.to_nat z - length a))%nat with 0%nat by lia.
  - split; [|intros [= ->]; lia].
    destruct (Nat.ltb_spec (Z.to_nat z) (length a)).
    + by rewrite list_lookup_insert_ne.
    + destruct (Nat.lt_ge_cases i (length a)); [by rewrite lookup_app_l|].
      rewrite lookup_app_r by lia.
      destruct (Nat.lt_ge_cases (i - length a) (Z.to_nat z - length a)).
      * rewrite lookup_app_l by (rewrite length_replicate; lia).
        by rewrite lookup_replicate_2.
      * rewrite lookup_app_r by (rewrite length_replicate; lia).
        rewrite length_replicate.
        destruct (i - length a - (Z.to_nat z - length a))%nat as [|n] eqn:Hn; [lia|].
        done.
Qed.

Lemma fold_effort_days_NaN_stays startDate effortDays dates i :
  forall spent,
  spent !! i = Some (Some NaN) ->
  fold_left (fun spent date =>
               array_add_assign spent (effort_day startDate date)
                                (amount_of effortDays date)) dates spent !! i
  = Some (Some NaN).
Proof.
  induction dates as [|date dates IH]; intros spent Hi; simpl; [done|].
  apply IH. by apply array_add_assign_NaN_stays.
Qed.

Lemma fold_effort_days_no_number startDate effortDays dates date i :
  Z.of_nat i < 2 ^ 32 - 1 ->
  In date dates ->
  effort_day startDate date = KInt (Z.of_nat i) ->
  forall spent,
  match spent !! i with Some (Some x) => x = NaN | _ => True end ->
  fold_left (fun spent date =>
               array_add_assign spent (effort_day startDate date)
                                (amount_of effortDays date)) dates spent !! i
  = Some (Some NaN).
Proof.
  intros Hi Hin Hday. induction dates as [|first dates IH]; intros spent Hlost;
    [destruct Hin|].
  simpl.
  destruct (array_add_assign_no_number spent (effort_day startDate first)
              (amount_of effortDays first) i Hlost) as [Hlost' Hhere].
  destruct Hin as [->|Hin].
  - apply fold_effort_days_NaN_stays. by apply Hhere.
  - by apply IH.
Qed.

Lemma fold_sum_NaN a :
  fold_left (fun sum slot => match slot with Some x => add sum x | None => sum end) a NaN
  = NaN.
Proof.
  induction a as [|[x|] a IH]; cbn [fold_left]; [done | by rewrite add_NaN_l | done].
Qed.

Lemma reduce_sum_NaN a i : a !! i = Some (Some NaN) -> reduce_sum a = NaN.
Proof.
  unfold reduce_sum. generalize zero. revert i.
  induction a as [|slot a IH]; intros i acc Hi; [done|].
  destruct i as [|i]; simpl in Hi; cbn [fold_left].
  - injection Hi as ->. rewrite add_NaN_r. apply fold_sum_NaN.
  - by eapply IH.
Qed.

(** X29: an entry of the per-day mapping whose day index is past the end
    of [effortSpentByDay] is not added to any slot: after the fold the slot
    of that index holds [NaN], whatever the amount and whatever the other
    entries, and the sum of the array is [NaN]. *)
Theorem X29_effort_past_the_end_is_NaN startDate effortDays spent date z :
  In date (Object_keys effortDays) ->
  effort_day startDate date = KInt z ->
  Z.of_nat (length spent) <= z < 2 ^ 32 - 1 ->
  addEffortDays startDate effortDays spent !! Z.to_nat z = Some (Some NaN)
  /\ reduce_sum (addEffortDays startDate effortDays spent) = NaN.
Proof.
  intros Hin Hday [Hlo Hhi].
  assert (addEffortDays startDate effortDays spent !! Z.to_nat z = Some (Some NaN)) as H.
  { unfold addEffortDays.
    apply (fold_effort_days_no_number startDate effortDays _ date); try done.
    - lia.
    - rewrite Hday. f_equal. lia.
    - rewrite lookup_ge_None_2 by lia. done. }
  split; [done|]. by eapply reduce_sum_NaN.
Qed.

Lemma X29_effort_past_the_end_is_NaN_witness :
  addEffortDays (startDate Examples.february)
    [(Some (Examples.at_date "2020-02-10"), Fin (21 # 2))]
    (replicate 5 (Some zero)) !! 9%nat
  = Some (Some NaN).
Proof.
  refine (proj1 (X29_effort_past_the_end_is_NaN (startDate Examples.february)
            [(Some (Examples.at_date "2020-02-10"), Fin (21 # 2))]
            (replicate 5 (Some zero)) (Some (Examples.at_date "2020-02-10")) 9 _ _ _)).
  - left. reflexivity.
  - reflexivity.
  - vm_compute. split; [discriminate | reflexivity].
Defined.

(** ** The [includeOpen] option *)

Section IncludeOpen.
Context (milestone : Milestone) (startDate dueDate days : Z).
Context (options1 options2 : Options).
Hypothesis same_getEffort : getEffort options1 = getEffort options2.
Hypothesis same_getEffortEstimate :
  getEffortEstimate options1 = getEffortEstimate options2.

(** One turn of the loop: from arrays with the same counts, two runs that
    both go through leave the same counts. *)
Lemma processIssue_counts byDay1 byDay2 issue byDay1' byDay2' :
  counts byDay1 = counts byDay2 ->
  processIssue milestone startDate dueDate days options1 byDay1 issue = Ok byDay1' ->
  processIssue milestone startDate dueDate days options2 byDay2 issue = Ok byDay2' ->
  counts byDay1' = counts byDay2'.
Proof.
  intros Hc H1 H2. unfold processIssue in H1, H2.
  rewrite <- same_getEffort, <- same_getEffortEstimate in H2.
  destruct (getTimeSpent issue startDate dueDate); [|discriminate].
  destruct (sort_discussion (discussion issue)) as [sorted|]; [|discriminate].
  simpl in H1, H2.
  destruct (List.find _ sorted) as [comment|]; [|discriminate].
  destruct (note0 comment "updatedAt") as [note|]; [|discriminate].
  simpl in H1, H2.
  destruct (days <=? _); [congruence|].
  match type of H1 with (if ?c then _ else _) = _ => destruct c end; [congruence|].
  destruct (getEffortEstimate options1 _) as [estimate|]; [|discriminate].
  simpl in H1, H2.
  destruct (getEffort options1 _) as [returned|];
    repeat match goal with
           | H : (if ?c then _ else _) = Ok _ |- _ => destruct c; simpl in H
           end;
    try discriminate;
    injection H1 as <-; injection H2 as <-;
    unfold counts in *; proj_byDay;
    injection Hc as -> -> ->; reflexivity.
Qed.

Lemma processIssues_counts issues :
  forall byDay1 byDay2 byDay1' byDay2',
  counts byDay1 = counts byDay2 ->
  processIssues milestone startDate dueDate days options1 byDay1 issues = Ok byDay1' ->
  processIssues milestone startDate dueDate days options2 byDay2 issues = Ok byDay2' ->
  counts byDay1' = counts byDay2'.
Proof.
  induction issues as [|issue issues IH]; intros byDay1 byDay2 byDay1' byDay2' Hc H1 H2;
    simpl in H1, H2.
  - congruence.
  - bind_inv H1. bind_inv H2. eapply IH; [|exact H1|exact H2].
    eapply processIssue_counts; eauto.
Qed.

Hypothesis safe : getEffort_is_safe startDate dueDate (getEffort options1).

(** With a [getEffort] that is safe the two runs also throw alike. *)
Lemma processIssue_counts_safe byDay1 byDay2 issue :
  counts byDay1 = counts byDay2 ->
  counts <$> processIssue milestone startDate dueDate days options1 byDay1 issue
  = counts <$> processIssue milestone startDate dueDate days options2 byDay2 issue.
Proof.
  intros Hc. unfold processIssue.
  rewrite <- same_getEffort, <- same_getEffortEstimate.
  destruct (getTimeSpent issue startDate dueDate) as [timeSpent|] eqn:Hts; [|done].
  destruct (sort_discussion (discussion issue)) as [sorted|] eqn:Hsort; [|done].
  simpl.
  destruct (List.find _ sorted) as [comment|]; [|done].
  destruct (note0 comment "updatedAt") as [note|]; [|done].
  simpl.
  destruct (days <=? _); [simpl; congruence|].
  match goal with |- context [if ?c then Ok byDay1 else _] => destruct c end;
    [simpl; congruence|].
  destruct (getEffortEstimate options1 _) as [estimate|]; [|done].
  simpl.
  pose proof (safe issue sorted) as Hsafe.
  rewrite Hts in Hsafe. specialize (Hsafe eq_refl (sort_discussion_Permutation _ _ Hsort)).
  destruct (getEffort options1 _) as [returned|]; [|discriminate].
  unfold counts in *. injection Hc as -> -> ->.
  destruct (_ || _ && includeOpen options1), (_ || _ && includeOpen options2);
    reflexivity.
Qed.

Lemma processIssues_counts_safe issues :
  forall byDay1 byDay2,
  counts byDay1 = counts byDay2 ->
  counts <$> processIssues milestone startDate dueDate days options1 byDay1 issues
  = counts <$> processIssues milestone startDate dueDate days options2 byDay2 issues.
Proof.
  induction issues as [|issue issues IH]; intros byDay1 byDay2 Hc; simpl.
  - by rewrite Hc.
  - pose proof (processIssue_counts_safe byDay1 byDay2 issue Hc) as Hstep.
    destruct (processIssue _ _ _ _ options1 byDay1 issue) as [byDay1'|e1];
      destruct (processIssue _ _ _ _ options2 byDay2 issue) as [byDay2'|e2];
      simpl in *; try congruence.
    apply IH. congruence.
Qed.

End IncludeOpen.

Lemma generateBurndownChart_unaffected milestone issues options :
  let startDate := startDate milestone in
  let dueDate := dueDate milestone in
  let n := days_of startDate dueDate in
  unaffected_by_includeOpen <$> generateBurndownChart milestone issues options
  = (_ ← new_Array_fill n zero;
     unaffected_of_counts n <$>
       (counts <$> processIssues milestone startDate dueDate n
                     (merge_options startDate dueDate options) (initial_byDay n) issues)).
Proof.
  intros startDate0 dueDate0 n. unfold generateBurndownChart.
  fold startDate0 dueDate0 n.
  destruct (new_Array_fill n zero) as [a|] eqn:Ha; [|done].
  apply new_Array_fill_Ok in Ha as [_ ->]. simpl. fold (initial_byDay n).
  destruct (processIssues _ _ _ _ _ _ issues) as [byDay|]; [|done].
  simpl. by destruct (default false (u_useEstimate options)).
Qed.

(** Whether [spendings] goes through is a property of each comment on its
    own. *)
Lemma filter_then_map_is_Ok {A B} (f : A -> result bool) (g : A -> result B) l :
  is_Ok (accepted ← filter_result f l; map_result g accepted) = true
  <-> Forall (fun x => exists keep, f x = Ok keep
                        /\ (keep = true -> is_Ok (g x) = true)) l.
Proof.
  induction l as [|x l IH]; simpl.
  - split; [constructor | done].
  - rewrite Forall_cons, <- IH. clear IH.
    destruct (f x) as [keep|e]; simpl;
      [|split; [done | intros [(keep & ? & _) _]; done]].
    destruct (filter_result f l) as [rest|e]; simpl; [|split; [done | tauto]].
    destruct keep; simpl.
    + destruct (g x); simpl.
      * destruct (map_result g rest); simpl;
          (split; [intros H; split; [eauto | done] | by intros [_ ?]]).
      * split; [done|]. intros [(keep & [= <-] & Hg) _]. by specialize (Hg eq_refl).
    + split; [|tauto]. intros H. split; [|done]. exists false. split; done.
Qed.

Lemma getTimeSpent_is_Ok issue startDate endDate :
  is_Ok (getTimeSpent issue startDate endDate) = true
  <-> Forall (fun comment =>
                exists keep, isSpendingComment startDate endDate comment = Ok keep
                             /\ (keep = true -> is_Ok (toSpending comment) = true))
             (discussion issue).
Proof.
  rewrite <- filter_then_map_is_Ok. unfold getTimeSpent, spendings.
  by destruct (filter_result _ (discussion issue) ≫= _).
Qed.

(** The default [getEffort], which is [getTimeSpent], is safe. *)
Lemma default_getEffort_is_safe startDate dueDate :
  getEffort_is_safe startDate dueDate
    (fun issue => Some <$> getTimeSpent issue startDate dueDate).
Proof.
  intros issue reordered Hok Hperm.
  apply getTimeSpent_is_Ok in Hok. rewrite <- Hperm in Hok.
  apply (getTimeSpent_is_Ok (with_discussion issue reordered)) in Hok.
  by destruct (getTimeSpent (with_discussion issue reordered) startDate dueDate).
Qed.

#[local] Arguments unaffected_by_includeOpen : simpl never.
#[local] Arguments unaffected_of_counts : simpl never.
#[local] Arguments counts : simpl never.

(** C10: two runs on the same milestone and issues whose options differ in
    [includeOpen] alone. When both return, [issuesOpenedByDay],
    [issuesClosedByDay], [effortEstimatedByDay], [completedTasks] and
    [remainingTasks] are the same in both. When [getEffort] is the default
    one, or any function that is safe in the sense of [getEffort_is_safe],
    the two runs moreover return or throw together, with the same
    exception. *)
Theorem C10_includeOpen_reaches_effort_only milestone issues options b1 b2 :
  let run b := generateBurndownChart milestone issues (set_includeOpen options b) in
  (forall out1 out2,
     run b1 = Ok out1 -> run b2 = Ok out2 ->
     unaffected_by_includeOpen out1 = unaffected_by_includeOpen out2)
  /\ (getEffort_is_safe (startDate milestone) (dueDate milestone)
        (getEffort (merge_options (startDate milestone) (dueDate milestone) options)) ->
      unaffected_by_includeOpen <$> run b1 = unaffected_by_includeOpen <$> run b2)
  /\ (u_getEffort options = None ->
      unaffected_by_includeOpen <$> run b1 = unaffected_by_includeOpen <$> run b2).
Proof.
  intros run.
  assert (Hsafe : getEffort_is_safe (startDate milestone) (dueDate milestone)
            (getEffort (merge_options (startDate milestone) (dueDate milestone) options)) ->
          unaffected_by_includeOpen <$> run b1 = unaffected_by_includeOpen <$> run b2).
  { intros safe. unfold run. rewrite !generateBurndownChart_unaffected.
    destruct (new_Array_fill _ zero); [|done]. simpl. f_equal.
    by apply processIssues_counts_safe. }
  split; [|split; [exact Hsafe|]].
  - intros out1 out2 H1 H2.
    pose proof (generateBurndownChart_unaffected milestone issues (set_includeOpen options b1))
      as E1.
    pose proof (generateBurndownChart_unaffected milestone issues (set_includeOpen options b2))
      as E2.
    fold (run b1) in E1. fold (run b2) in E2. rewrite H1 in E1. rewrite H2 in E2.
    simpl in E1, E2.
    destruct (new_Array_fill _ zero); [|discriminate]. simpl in E1, E2.
    destruct (processIssues _ _ _ _ _ _ issues) as [byDay1|] eqn:L1 in E1; [|discriminate].
    destruct (processIssues _ _ _ _ _ _ issues) as [byDay2|] eqn:L2 in E2; [|discriminate].
    simpl in E1, E2.
    assert (counts byDay1 = counts byDay2) as Hcounts
      by (eapply processIssues_counts; [| | |exact L1|exact L2]; done).
    congruence.
  - intros Hdefault. apply Hsafe. simpl. rewrite Hdefault. simpl.
    apply default_getEffort_is_safe.
Qed.

Lemma C10_includeOpen_reaches_effort_only_witness :
  unaffected_by_includeOpen <$>
    generateBurndownChart Examples.february [Examples.worked_issue; Examples.open_issue]
      (set_includeOpen no_options (Some false))
  = unaffected_by_includeOpen <$>
    generateBurndownChart Examples.february [Examples.worked_issue; Examples.open_issue]
      (set_includeOpen no_options (Some true)).
Proof.
  refine (proj2 (proj2 (C10_includeOpen_reaches_effort_only Examples.february
            [Examples.worked_issue; Examples.open_issue] no_options
            (Some false) (Some true))) _).
  reflexivity.
Defined.

(** The option does reach [effortSpentByDay]: the two hours of the open
    issue are counted on the second day only when it is set. *)
Example includeOpen_reaches_effortSpentByDay :
  (effortSpentByDay <$>
     generateBurndownChart Examples.february [Examples.worked_issue; Examples.open_issue]
       (set_includeOpen no_options (Some false)))
  = Ok (Some <$> [zero; zero; Fin (21 # 2); zero; zero])
  /\ (effortSpentByDay <$>
        generateBurndownChart Examples.february [Examples.worked_issue; Examples.open_issue]
          (set_includeOpen no_options (Some true)))
     = Ok (Some <$> [zero; of_Z 2; Fin (21 # 2); zero; zero]).
Proof. split; vm_compute; reflexivity. Qed.

(** * Further properties of the code *)

(** ** Days of the window and day indices *)

(** X1: [days] is the number of days, started ones included, from the start
    date to the due date, plus one: it is [n] exactly when the due date is
    more than [n - 2] and at most [n - 1] days after the start date. A
    window of [k] whole days has [k + 1] days. *)
Theorem X1_days_of_bounds startDate dueDate n :
  days_of startDate dueDate = n
  <-> (n - 2) * MILLISECONDS_IN_DAY < dueDate - startDate <= (n - 1) * MILLISECONDS_IN_DAY.
Proof.
  rewrite days_of_Z, MILLISECONDS_IN_DAY_eq.
  pose proof (Z.div_mod (startDate - dueDate - 86400000) 86400000 ltac:(lia)) as Hdm.
  pose proof (Z.mod_pos_bound (startDate - dueDate - 86400000) 86400000 ltac:(lia)) as Hb.
  split; intros H; lia.
Qed.

(** X2: [Math.round] puts a time on day [k] exactly when it lies within
    half a day of the [k]-th midnight after the start date, the earlier
    half-day bound included: noon belongs to the next day. *)
Theorem X2_day_index_bounds t startDate k :
  day_index t startDate = k
  <-> (2 * k - 1) * MILLISECONDS_IN_DAY <= 2 * (t - startDate)
      < (2 * k + 1) * MILLISECONDS_IN_DAY.
Proof.
  rewrite day_index_Z, MILLISECONDS_IN_DAY_eq.
  pose proof (Z.div_mod (2 * (t - startDate) + 86400000) (2 * 86400000) ltac:(lia)) as Hdm.
  pose proof (Z.mod_pos_bound (2 * (t - startDate) + 86400000) (2 * 86400000) ltac:(lia))
    as Hb.
  split; intros H; lia.
Qed.

(** ** The effort extractor on discussions without time spent *)

(** X3: when the filter accepts no entry of the discussion (an empty
    discussion included), [getTimeSpent] returns the total 0 and no day. *)
Theorem X3_no_spending_gives_empty_ledger issue startDate endDate :
  Forall (fun comment => isSpendingComment startDate endDate comment = Ok false)
         (discussion issue) ->
  getTimeSpent issue startDate endDate
  = Ok {| TimeSpent.total := zero; TimeSpent.days := [] |}.
Proof.
  intros H. unfold getTimeSpent, spendings.
  by rewrite (filter_result_rejected _ _ H).
Qed.

Lemma X3_no_spending_gives_empty_ledger_witness :
  getTimeSpent
    (Examples.issue_of
       [Examples.system_note "changed milestone to %7" (Examples.at_date "2020-02-01");
        {| author := "alice";
           notes := [{| body := "added 3h of time spent at 2020-02-02"; system := false;
                        createdAt := Examples.at_date "2020-02-02";
                        updatedAt := Examples.at_date "2020-02-02" |}] |}]
       None)
    (startDate Examples.february) (dueDate Examples.february)
  = Ok {| TimeSpent.total := zero; TimeSpent.days := [] |}.
Proof.
  apply X3_no_spending_gives_empty_ledger.
  repeat constructor.
Defined.

Lemma isSpendingComment_rejects startDate endDate comment note others :
  notes comment = note :: others ->
  system note = false \/ createdAt note < startDate \/ endDate < createdAt note ->
  isSpendingComment startDate endDate comment = Ok false.
Proof.
  intros Hn H. unfold isSpendingComment, note0. rewrite Hn. simpl. f_equal.
  destruct H as [->|[H|H]].
  - by rewrite andb_false_r.
  - apply Z.leb_gt in H. rewrite H. simpl. by rewrite !andb_false_r.
  - apply Z.leb_gt in H. rewrite H. by rewrite !andb_false_r.
Qed.

(** X4: an entry whose first note is not by the system, or was created
    before the start date or after the end date, is ignored: the ledger is
    the one of the discussion without that entry. *)
Theorem X4_other_entries_are_ignored issue startDate endDate before comment after
    note others :
  discussion issue = (before ++ comment :: after)%list ->
  notes comment = note :: others ->
  system note = false \/ createdAt note < startDate \/ endDate < createdAt note ->
  getTimeSpent issue startDate endDate
  = getTimeSpent (with_discussion issue (before ++ after)%list) startDate endDate.
Proof.
  intros Hd Hn H. pose proof (isSpendingComment_rejects _ _ _ _ _ Hn H) as Hrej.
  unfold getTimeSpent, spendings. rewrite Hd. simpl.
  rewrite !filter_result_app. simpl. rewrite Hrej. simpl.
  destruct (filter_result _ before) as [kept1|]; simpl; [|done].
  by destruct (filter_result _ after).
Qed.

Lemma X4_other_entries_are_ignored_witness :
  let user_note :=
    {| author := "alice";
       notes := [{| body := "added 3h of time spent at 2020-02-02"; system := false;
                    createdAt := Examples.at_date "2020-02-02";
                    updatedAt := Examples.at_date "2020-02-02" |}] |} in
  getTimeSpent
    (Examples.issue_of (user_note :: discussion Examples.worked_issue) None)
    (startDate Examples.february) (dueDate Examples.february)
  = getTimeSpent
      (with_discussion
         (Examples.issue_of (user_note :: discussion Examples.worked_issue) None)
         ([] ++ discussion Examples.worked_issue)%list)
      (startDate Examples.february) (dueDate Examples.february).
Proof.
  intros user_note.
  refine (X4_other_entries_are_ignored _ _ _ [] user_note _ _ [] _ _ _).
  - reflexivity.
  - reflexivity.
  - left. reflexivity.
Defined.

Lemma filter_result_Throw {A} (f : A -> result bool) l x e :
  In x l -> f x = Throw e ->
  (forall y e', f y = Throw e' -> e' = e) ->
  filter_result f l = Throw e.
Proof.
  intros Hin Hx Hsame. induction l as [|y l IH]; [destruct Hin|]. simpl.
  destruct (f y) as [keep|e'] eqn:Hy; simpl.
  - destruct Hin as [->|Hin]; [congruence|]. by rewrite IH.
  - f_equal. eauto.
Qed.

(** X5: a discussion entry without notes makes [getTimeSpent] throw the
    [TypeError] of reading [body] from [undefined], whatever the other
    entries are. *)
Theorem X5_entry_without_notes_throws issue startDate endDate comment :
  In comment (discussion issue) ->
  notes comment = [] ->
  getTimeSpent issue startDate endDate = Throw (cannot_read "body" "undefined").
Proof.
  intros Hin Hn. unfold getTimeSpent, spendings.
  rewrite (filter_result_Throw _ _ comment (cannot_read "body" "undefined")); try done.
  - unfold isSpendingComment, note0. by rewrite Hn.
  - intros c e'. unfold isSpendingComment, note0.
    destruct (notes c !! 0%nat); simpl; congruence.
Qed.

Lemma X5_entry_without_notes_throws_witness :
  getTimeSpent
    (Examples.issue_of
       (discussion Examples.worked_issue ++ [{| author := "alice"; notes := [] |}])%list
       None)
    (startDate Examples.february) (dueDate Examples.february)
  = Throw (cannot_read "body" "undefined").
Proof.
  apply (X5_entry_without_notes_throws _ _ _ {| author := "alice"; notes := [] |}).
  - simpl. auto.
  - reflexivity.
Defined.

(** ** The contributions *)

(** X6: on an entry that the filter accepted, the date pattern always
    matches, so the callback of [map] builds the contribution exactly when
    the duration pattern matches the body; otherwise it throws. *)
Theorem X6_contribution_built_iff_duration_matches startDate endDate comment note :
  notes comment !! 0%nat = Some note ->
  isSpendingComment startDate endDate comment = Ok true ->
  is_Ok (toSpending comment) = true
  <-> str_match (body note) re_humanReadableTime <> None.
Proof.
  intros Hn Hacc. pose proof (toSpending_accepted _ _ _ _ Hn Hacc) as H.
  destruct (str_match (body note) re_humanReadableTime).
  - destruct H as [spending ->]. done.
  - rewrite H. done.
Qed.

Lemma X6_contribution_built_iff_duration_matches_witness :
  let comment := Examples.system_note "added 45m of time spent at 2020-02-03"
                                      (Examples.at_date "2020-02-03") in
  is_Ok (toSpending comment) = true
  <-> str_match "added 45m of time spent at 2020-02-03" re_humanReadableTime <> None.
Proof.
  intros comment.
  refine (X6_contribution_built_iff_duration_matches (startDate Examples.february)
            (dueDate Examples.february) comment
            {| body := "added 45m of time spent at 2020-02-03"; system := true;
               createdAt := Examples.at_date "2020-02-03";
               updatedAt := Examples.at_date "2020-02-03" |} _ _).
  - reflexivity.
  - reflexivity.
Defined.

Lemma decimal_nonneg_from l acc :
  forallb is_digit l = true -> 0 <= acc ->
  0 <= fold_left (fun acc c => 10 * acc + digit_value c) l acc.
Proof.
  revert acc. induction l as [|c l IH]; intros acc Hl Hacc; simpl in *; [done|].
  apply andb_true_iff in Hl as [Hc Hl]. apply IH; [done|].
  unfold is_digit in Hc. apply andb_true_iff in Hc as [Hc _].
  apply N.leb_le in Hc. unfold digit_value. lia.
Qed.

Lemma double_of_whole_spec z : 0 <= z -> whole_or_infinite (double_of_whole z).
Proof.
  intros Hz. unfold double_of_whole. cbv zeta.
  destruct (_ <=? 53); [right; eauto|].
  destruct (2 ^ 1024 <=? _); [by left|]. right. eexists. split; [|reflexivity].
  apply Z.shiftl_nonneg.
  assert (0 <= z ≫ (Z.log2 z + 1 - 53)) by by apply Z.shiftr_nonneg.
  destruct (_ || _); lia.
Qed.

(** A component found by its pattern is a whole number, or [Infinity] when
    the run of digits is too long for a double. *)
Lemma component_of_match_whole unit text m :
  str_match text (plus Digit ++ [One (Lit unit)])%list = Some m ->
  whole_or_infinite (component (Some m)).
Proof.
  unfold str_match. intros H. apply search_Some in H as (s & _ & H).
  unfold match_at in H.
  destruct (run _ _ s no_captures) as [[rest g]|] eqn:Hrun; [|done].
  injection H as <-.
  change (plus Digit ++ [One (Lit unit)])%list
    with (One Digit :: Star Digit :: [One (Lit unit)]) in Hrun.
  remember (Star Digit :: [One (Lit unit)]) as star eqn:Hstar.
  simpl in Hrun. destruct s as [|c s]; [done|].
  destruct (cclass_matches Digit c) eqn:Hc; [|done].
  subst star. apply run_Star_consumed in Hrun as (taken & s' & -> & Htaken & Hrun).
  simpl in Hrun. destruct s' as [|u s']; [done|].
  destruct (cclass_matches (Lit unit) u); [|done]. injection Hrun as <- _.
  unfold component, slice_0_m1, Number_of_string. cbn [m0].
  assert (consumed (c :: taken ++ u :: s') s' = ((c :: taken) ++ [u])%list) as ->.
  { replace (c :: taken ++ u :: s')%list with (((c :: taken) ++ [u]) ++ s')%list
      by (simpl; by rewrite <- app_assoc).
    apply consumed_app. }
  cbv zeta. rewrite !list_ascii_of_string_of_list_ascii, removelast_last.
  assert (forallb is_digit (c :: taken) = true) as Hdigits.
  { simpl. change (is_digit c) with (cclass_matches Digit c). rewrite Hc. exact Htaken. }
  rewrite Hdigits. apply double_of_whole_spec. by apply decimal_nonneg_from.
Qed.

Lemma component_whole unit text :
  whole_or_infinite (component (str_match text (plus Digit ++ [One (Lit unit)])%list)).
Proof.
  destruct (str_match text _) as [m|] eqn:Hm.
  - by eapply component_of_match_whole.
  - right. by exists 0.
Qed.

Lemma whole_is_nonnegative x : whole_or_infinite x -> nonnegative x.
Proof.
  intros [->|(z & Hz & ->)]; simpl; [done|].
  unfold Qle. simpl. lia.
Qed.

Lemma nonnegative_add x y : nonnegative x -> nonnegative y -> nonnegative (add x y).
Proof.
  destruct x as [p| | |], y as [q| | |]; simpl; try done.
  intros Hp Hq. rewrite Qred_correct.
  replace 0%Q with (0 + 0)%Q by reflexivity. by apply Qplus_le_compat.
Qed.

Lemma nonnegative_mul_8 x : nonnegative x -> nonnegative (mul x (of_Z 8)).
Proof.
  destruct x as [p| | |]; simpl; try done.
  intros Hp. rewrite Qred_correct. by apply Qmult_le_0_compat.
Qed.

Lemma nonnegative_div_60 x : nonnegative x -> nonnegative (div x (of_Z 60)).
Proof.
  destruct x as [p| | |]; simpl; try done.
  intros Hp. rewrite Qred_correct. by apply Qmult_le_0_compat.
Qed.

(** X7: in every contribution that is built, days, hours and minutes are
    each a whole number that is not negative, or [Infinity] for a run of
    digits too long for a double, and [totalHours] is a number that is not
    negative, or [Infinity]: no component and no total is [NaN]. *)
Theorem X7_hours_are_numbers comment spending :
  toSpending comment = Ok spending ->
  whole_or_infinite (Spending.days spending)
  /\ whole_or_infinite (Spending.hours spending)
  /\ whole_or_infinite (Spending.minutes spending)
  /\ nonnegative (Spending.totalHours spending).
Proof.
  unfold toSpending. intros H. bind_inv H. bind_inv H.
  destruct a0 as [humanReadableTime|]; [|discriminate].
  bind_inv H. injection H as <-.
  cbn [Spending.totalHours Spending.days Spending.hours Spending.minutes].
  pose proof (component_whole "d" humanReadableTime) as Hd.
  pose proof (component_whole "h" humanReadableTime) as Hh.
  pose proof (component_whole "m" humanReadableTime) as Hm.
  change (plus Digit ++ [One (Lit "d")])%list with re_humanReadableDays in Hd.
  change (plus Digit ++ [One (Lit "h")])%list with re_humanReadableHours in Hh.
  change (plus Digit ++ [One (Lit "m")])%list with re_humanReadableMinutes in Hm.
  repeat (split; [done|]).
  apply nonnegative_add; [apply nonnegative_add|].
  - by apply nonnegative_mul_8, whole_is_nonnegative.
  - by apply whole_is_nonnegative.
  - by apply nonnegative_div_60, whole_is_nonnegative.
Qed.

Lemma X7_hours_are_numbers_witness :
  whole_or_infinite (of_Z 0)
  /\ whole_or_infinite (of_Z 0)
  /\ whole_or_infinite (of_Z 45)
  /\ nonnegative (Fin (3 # 4)).
Proof.
  exact (X7_hours_are_numbers
           (Examples.system_note "added 45m of time spent at 2020-02-03"
                                 (Examples.at_date "2020-02-03"))
           {| Spending.author := "gitlab"; Spending.date := Some 1580688000000;
              Spending.days := of_Z 0; Spending.hours := of_Z 0;
              Spending.minutes := of_Z 45; Spending.totalHours := Fin (3 # 4) |}
           eq_refl).
Defined.

Lemma TimeMap_set_keys_In o k v k' :
  In k' (map fst (TimeMap_set o k v)) <-> k' = k \/ In k' (map fst o).
Proof.
  induction o as [|[k0 v0] o IH]; simpl.
  - split; [intros [<-|[]]; auto | intros [->|[]]; auto].
  - destruct (decide (k = k0)) as [->|Hne]; simpl.
    + intuition congruence.
    + rewrite IH. intuition congruence.
Qed.

Lemma TimeMap_set_keys_NoDup o k v :
  NoDup (map fst o) -> NoDup (map fst (TimeMap_set o k v)).
Proof.
  rewrite !NoDup_ListNoDup.
  induction o as [|[k0 v0] o IH]; simpl; intros Hnd.
  - repeat constructor. intros [].
  - inversion Hnd as [|? ? Hnotin Hnd']; subst.
    destruct (decide (k = k0)) as [->|Hne]; simpl.
    + by constructor.
    + constructor; [|auto].
      rewrite TimeMap_set_keys_In. intros [->|Hin]; [done | auto].
Qed.

Lemma fold_recordSpending_keys contributions :
  forall timeSpent,
  NoDup (map fst (TimeSpent.days timeSpent)) ->
  NoDup (map fst (TimeSpent.days (fold_left recordSpending contributions timeSpent)))
  /\ forall k,
       In k (map fst (TimeSpent.days (fold_left recordSpending contributions timeSpent)))
       <-> In k (map fst (TimeSpent.days timeSpent))
           \/ In k (map Spending.date contributions).
Proof.
  induction contributions as [|c l IH]; intros timeSpent Hnd; simpl.
  - split; [done|]. intros k. tauto.
  - destruct (IH (recordSpending timeSpent c)) as [Hnd' Hin].
    { unfold recordSpending. simpl. by apply TimeMap_set_keys_NoDup. }
    split; [done|]. intros k. rewrite Hin. unfold recordSpending at 1. simpl.
    rewrite TimeMap_set_keys_In. intuition congruence.
Qed.

(** X8: the days of the ledger returned by [getTimeSpent] are the dates of
    the contributions, each of them once. *)
Theorem X8_ledger_days_are_the_dates issue startDate endDate contributions timeSpent :
  spendings issue startDate endDate = Ok contributions ->
  getTimeSpent issue startDate endDate = Ok timeSpent ->
  NoDup (map fst (TimeSpent.days timeSpent))
  /\ forall date,
       In date (map fst (TimeSpent.days timeSpent))
       <-> In date (map Spending.date contributions).
Proof.
  intros Hs H. unfold getTimeSpent in H. rewrite Hs in H. simpl in H. injection H as <-.
  match goal with
  | |- context [fold_left recordSpending contributions ?t] =>
      destruct (fold_recordSpending_keys contributions t) as [Hnd Hin]
  end.
  { simpl. constructor. }
  split; [done|]. intros date. rewrite Hin. simpl. tauto.
Qed.

Lemma X8_ledger_days_are_the_dates_witness :
  exists timeSpent,
    getTimeSpent Examples.two_contributions
      (startDate Examples.february) (dueDate Examples.february) = Ok timeSpent
    /\ NoDup (map fst (TimeSpent.days timeSpent)).
Proof.
  eexists. split; [vm_compute; reflexivity|].
  match goal with
  | |- NoDup (map fst (TimeSpent.days ?t)) =>
      refine (proj1 (X8_ledger_days_are_the_dates Examples.two_contributions
                (startDate Examples.february) (dueDate Examples.february)
                _ t _ _))
  end.
  - vm_compute. reflexivity.
  - vm_compute. reflexivity.
Defined.

(** ** The comment mentioning the last milestone change *)

Lemma sort_discussion_sorted d sorted :
  sort_discussion d = Ok sorted ->
  StronglySorted (fun a b => (updateAt b <=? updateAt a) = true) sorted.
Proof.
  intros H. destruct (Nat.le_gt_cases 2 (length d)) as [Hlen|Hlen].
  - by eapply sort_discussion_newest_first.
  - unfold sort_discussion in H. destruct (Nat.ltb_spec (length d) 2); [|lia].
    injection H as <-. destruct d as [|a [|b d]]; simpl in Hlen; try lia;
      repeat constructor.
Qed.

Lemma find_in_sorted {A} (R : A -> A -> Prop) (f : A -> bool) l x :
  (forall a, R a a) ->
  StronglySorted R l ->
  List.find f l = Some x ->
  forall y, In y l -> f y = true -> R x y.
Proof.
  intros Hrefl Hsorted. induction Hsorted as [|a l Hl IH Ha]; simpl; [done|].
  destruct (f a) eqn:Hfa.
  - intros [= <-] y [<-|Hy] _; [apply Hrefl|].
    rewrite Forall_forall in Ha. apply Ha. by apply list_elem_of_In.
  - intros Hfind y [<-|Hy] Hfy; [congruence | auto].
Qed.

(** X9: the comment taken for the day an issue was added is one that
    mentions the milestone, and among the comments of the discussion that
    mention it none was updated later. *)
Theorem X9_latest_milestone_change_is_found milestone d sorted comment :
  sort_discussion d = Ok sorted ->
  List.find (fun comment => existsb (mentionsMilestone milestone) (notes comment)) sorted
  = Some comment ->
  In comment d
  /\ existsb (mentionsMilestone milestone) (notes comment) = true
  /\ forall other,
       In other d ->
       existsb (mentionsMilestone milestone) (notes other) = true ->
       updateAt other <= updateAt comment.
Proof.
  intros Hsort Hfind.
  pose proof (sort_discussion_Permutation _ _ Hsort) as Hperm.
  pose proof (sort_discussion_sorted _ _ Hsort) as Hsorted.
  destruct (find_some _ _ Hfind) as [Hin Hc].
  split; [|split; [done|]].
  - by eapply Permutation_in.
  - intros other Hother Hmentions. apply Z.leb_le.
    apply (find_in_sorted (fun a b => (updateAt b <=? updateAt a) = true)
             (fun comment => existsb (mentionsMilestone milestone) (notes comment))
             sorted comment); try done.
    + intros a. apply Z.leb_refl.
    + eapply Permutation_in; [symmetry; exact Hperm | done].
Qed.

Lemma X9_latest_milestone_change_is_found_witness :
  let first := Examples.system_note "changed milestone to %7" (Examples.at_date "2020-02-01") in
  let moved := Examples.system_note "changed milestone to %8" (Examples.at_date "2020-02-02") in
  let back := Examples.system_note "changed milestone to %7" (Examples.at_date "2020-02-04") in
  In back [first; moved; back]
  /\ existsb (mentionsMilestone Examples.february) (notes back) = true
  /\ forall other,
       In other [first; moved; back] ->
       existsb (mentionsMilestone Examples.february) (notes other) = true ->
       updateAt other <= updateAt back.
Proof.
  intros first moved back.
  refine (X9_latest_milestone_change_is_found Examples.february
            [first; moved; back] [back; moved; first] back _ _).
  - reflexivity.
  - reflexivity.
Defined.

(** ** A milestone without issues *)

Lemma reduce_sum_zeros n : reduce_sum (replicate n (Some zero)) = zero.
Proof.
  unfold reduce_sum. assert (forall acc, acc = zero ->
    fold_left (fun sum slot => match slot with Some x => add sum x | None => sum end)
              (replicate n (Some zero)) acc = zero) as H; [|by apply H].
  induction n as [|n IH]; intros acc ->; simpl; [done|]. by apply IH.
Qed.

Lemma cumulative_zeros n i : cumulative (replicate n (Some zero)) i = zero.
Proof. unfold cumulative, slice0. rewrite take_replicate. apply reduce_sum_zeros. Qed.

Lemma fill_map_const {A} n (f : nat -> A) c :
  (forall i, f i = c) -> fill_map n f = replicate (Z.to_nat n) c.
Proof.
  intros Hf. unfold fill_map. generalize 0%nat.
  induction (Z.to_nat n) as [|k IH]; intros start; simpl; [done|].
  by rewrite Hf, IH.
Qed.

Lemma ideal_of_zero n i :
  1 < n -> sub zero (mul (div zero (of_Z (n - 1))) (of_Z (Z.of_nat i))) = zero.
Proof.
  intros Hn. unfold of_Z, div, sgn, zero, of_Z. simpl.
  destruct (n - 1) as [|p|p] eqn:Hp; try lia. simpl.
  unfold mul. simpl. destruct (Z.of_nat i); reflexivity.
Qed.

(** X10: for a milestone of two days or more and no issue, every series is
    made of zeros, one per day, and the total effort is 0, in both modes of
    [useEstimate]. *)
Theorem X10_no_issues_gives_zeros milestone options :
  let n := days_of (startDate milestone) (dueDate milestone) in
  2 <= n <= 2 ^ 32 - 1 ->
  let zeros := replicate (Z.to_nat n) (Some zero) in
  exists out,
    generateBurndownChart milestone [] options = Ok out
    /\ days out = n
    /\ issuesOpenedByDay out = zeros
    /\ issuesClosedByDay out = zeros
    /\ effortSpentByDay out = zeros
    /\ effortEstimatedByDay out = zeros
    /\ totalEffort out = zero
    /\ remainingEffort out = zeros
    /\ idealBurndown out = zeros
    /\ remainingTasks out = zeros
    /\ completedTasks out = zeros
    /\ length (labels out) = Z.to_nat n.
Proof.
  intros n [Hlo Hhi] zeros. unfold generateBurndownChart, new_Array_fill. fold n.
  destruct (Z.ltb_spec n 0); [lia|].
  destruct (Z.ltb_spec (2 ^ 32 - 1) n); [lia|].
  simpl. fold zeros.
  assert (fill_map n (fun i => Some (sub (cumulative zeros i) (cumulative zeros i))) = zeros)
    as Hdiff.
  { apply fill_map_const. intros i. unfold zeros. by rewrite cumulative_zeros. }
  assert (fill_map n (fun i => Some (sub zero (cumulative zeros i))) = zeros) as Hrem.
  { apply fill_map_const. intros i. unfold zeros. by rewrite cumulative_zeros. }
  assert (fill_map n (fun i => Some (sub zero
            (mul (div zero (of_Z (n - 1))) (of_Z (Z.of_nat i))))) = zeros) as Hideal.
  { apply fill_map_const. intros i. rewrite ideal_of_zero; [done | lia]. }
  assert (reduce_sum zeros = zero) as Hsum by apply reduce_sum_zeros.
  match goal with |- context [if ?c then _ else _] => destruct c end;
    eexists; (split; [reflexivity|]); simpl; rewrite ?Hsum, ?Hdiff, ?Hrem, ?Hideal,
      ?length_fill_map; repeat split; done.
Qed.

Lemma X10_no_issues_gives_zeros_witness :
  exists out,
    generateBurndownChart Examples.february [] no_options = Ok out
    /\ idealBurndown out = replicate 5 (Some zero)
    /\ remainingEffort out = replicate 5 (Some zero).
Proof.
  destruct (X10_no_issues_gives_zeros Examples.february no_options) as (out & H).
  - vm_compute. split; discriminate.
  - exists out. repeat split; apply H.
Defined.

(** ** Story points *)

Lemma substring_all s : substring 0 (String.length s) s = s.
Proof. induction s as [|c s IH]; simpl; [done | by rewrite IH]. Qed.

Lemma prefix_split p s : String.prefix p s = true <-> exists rest, s = p ++ rest.
Proof.
  revert s. induction p as [|c p IH]; intros s; simpl.
  - split; [eauto | by destruct s].
  - destruct s as [|c' s]; [split; [done | intros [rest H]; done]|].
    simpl. destruct (ascii_dec c c') as [->|Hne].
    + rewrite IH. split; intros [rest H]; exists rest; congruence.
    + split; [done | intros [rest H]; congruence].
Qed.

Lemma starts_with_iff label pattern :
  pattern <> "" ->
  indexOf label pattern = Some 0%nat <-> exists rest, label = pattern ++ rest.
Proof.
  intros Hp. rewrite <- prefix_split. unfold indexOf.
  destruct label as [|c label]; cbn [String.index].
  - destruct pattern; [done|]. split; done.
  - destruct (String.prefix pattern (String c label)); [done|].
    split; [|done]. by destruct (String.index 0 _ label).
Qed.

Lemma replace_prefix rest :
  String_replace ("storypoints::" ++ rest) "storypoints::" "" = rest.
Proof.
  unfold String_replace.
  assert (indexOf ("storypoints::" ++ rest) "storypoints::" = Some 0%nat) as ->
    by (apply starts_with_iff; [done | eauto]).
  cbn -[substring String.length]. simpl String.length.
  replace (S (S (S (S (S (S (S (S (S (S (S (S (S (String.length rest))))))))))))) - 13)%nat
    with (String.length rest) by lia.
  simpl. apply substring_all.
Qed.

(** X11: [getStorypoints] reads the first label that starts with
    [storypoints::] and gives [Number] of what follows the prefix, with no
    per-day entries; an issue without such a label gives a total of 0. *)
Theorem X11_storypoints_of_first_label issue_labels Number issue :
  (forall before rest after,
     issue_labels issue = (before ++ ("storypoints::" ++ rest)%string :: after)%list ->
     Forall (fun label => forall text, label <> "storypoints::" ++ text) before ->
     getStorypoints issue_labels Number issue
     = {| TimeSpent.total := Number rest; TimeSpent.days := [] |})
  /\ (Forall (fun label => forall text, label <> "storypoints::" ++ text)
             (issue_labels issue) ->
      getStorypoints issue_labels Number issue
      = {| TimeSpent.total := zero; TimeSpent.days := [] |}).
Proof.
  assert (forall l, Forall (fun label => forall text, label <> "storypoints::" ++ text) l ->
          forall tail,
          List.find (fun label => bool_decide (indexOf label "storypoints::" = Some 0%nat))
                    (l ++ tail)%list
          = List.find (fun label => bool_decide (indexOf label "storypoints::" = Some 0%nat))
                      tail) as Hskip.
  { induction 1 as [|label l Hlabel _ IH]; intros tail; simpl; [done|].
    rewrite bool_decide_false; [apply IH|].
    rewrite starts_with_iff by done. intros [text ->]. by eapply Hlabel. }
  unfold getStorypoints. split.
  - intros before rest after -> Hbefore. rewrite (Hskip _ Hbefore). simpl List.find.
    rewrite bool_decide_true by (apply starts_with_iff; [done | eauto]).
    exact (f_equal (fun text => {| TimeSpent.total := Number text; TimeSpent.days := [] |})
                   (replace_prefix rest)).
  - intros Hnone. rewrite <- (app_nil_r (issue_labels issue)).
    by rewrite (Hskip _ Hnone).
Qed.

Lemma X11_storypoints_of_first_label_witness :
  getStorypoints (fun _ => ["bug"; "storypoints::5"; "storypoints::8"]) Number_of_string
                 Examples.open_issue
  = {| TimeSpent.total := of_Z 5; TimeSpent.days := [] |}.
Proof.
  refine (proj1 (X11_storypoints_of_first_label
                   (fun _ => ["bug"; "storypoints::5"; "storypoints::8"]) Number_of_string
                   Examples.open_issue) ["bug"] "5" ["storypoints::8"] eq_refl _).
  repeat constructor. intros text. discriminate.
Defined.

(** One turn of the loop with an effort that has no per-day entries: the
    total of an open issue is written to the property [null] of the array,
    which none of the series reads. *)
Lemma processIssue_no_days milestone startDate dueDate days options1 options2 byDay issue :
  getEffort options1 = getEffort options2 ->
  getEffortEstimate options1 = getEffortEstimate options2 ->
  (forall issue, exists returned,
     getEffort options1 issue = Ok returned
     /\ TimeSpent.days (default {| TimeSpent.total := zero; TimeSpent.days := [] |} returned)
        = []) ->
  processIssue milestone startDate dueDate days options1 byDay issue
  = processIssue milestone startDate dueDate days options2 byDay issue.
Proof.
  intros Heffort Hestimate Hnodays. unfold processIssue.
  rewrite <- Heffort, <- Hestimate.
  destruct (getTimeSpent issue startDate dueDate); [|done].
  destruct (sort_discussion (discussion issue)) as [sorted|]; [|done].
  simpl.
  destruct (List.find _ sorted) as [comment|]; [|done].
  destruct (note0 comment "updatedAt") as [note|]; [|done].
  simpl.
  destruct (days <=? _); [done|].
  destruct (closedAt issue) as [t|]; simpl.
  - destruct (_ <? 0); [done|].
    destruct (getEffortEstimate options1 _); [|done]. simpl.
    reflexivity.
  - destruct (getEffortEstimate options1 _); [|done]. simpl.
    destruct (Hnodays (with_discussion issue sorted)) as (returned & -> & Hdays).
    simpl. rewrite Hdays. simpl.
    by destruct (includeOpen options1), (includeOpen options2).
Qed.

Lemma processIssues_no_days milestone startDate dueDate days options1 options2 issues :
  getEffort options1 = getEffort options2 ->
  getEffortEstimate options1 = getEffortEstimate options2 ->
  (forall issue, exists returned,
     getEffort options1 issue = Ok returned
     /\ TimeSpent.days (default {| TimeSpent.total := zero; TimeSpent.days := [] |} returned)
        = []) ->
  forall byDay,
  processIssues milestone startDate dueDate days options1 byDay issues
  = processIssues milestone startDate dueDate days options2 byDay issues.
Proof.
  intros Heffort Hestimate Hnodays.
  induction issues as [|issue issues IH]; intros byDay; simpl; [done|].
  rewrite (processIssue_no_days _ _ _ _ options1 options2) by done.
  destruct (processIssue _ _ _ _ options2 byDay issue); simpl; [apply IH | done].
Qed.

(** X12: with [getStorypoints] as [getEffort], as the [--storypoints] flag
    sets it, the [includeOpen] option changes nothing of what the chart is
    built from, nor whether the call throws. *)
Theorem X12_storypoints_ignore_includeOpen issue_labels Number milestone issues options b1 b2 :
  u_getEffort options
  = Some (fun issue => Ok (Some (getStorypoints issue_labels Number issue))) ->
  generateBurndownChart milestone issues (set_includeOpen options b1)
  = generateBurndownChart milestone issues (set_includeOpen options b2).
Proof.
  intros Hstory. unfold generateBurndownChart.
  destruct (new_Array_fill _ zero) as [zeros|]; [|done]. simpl.
  rewrite (processIssues_no_days milestone (startDate milestone) (dueDate milestone)
             (days_of (startDate milestone) (dueDate milestone))
             (merge_options (startDate milestone) (dueDate milestone)
                            (set_includeOpen options b1))
             (merge_options (startDate milestone) (dueDate milestone)
                            (set_includeOpen options b2))); try done.
  intros issue. simpl. rewrite Hstory. simpl. eexists. split; [reflexivity|].
  simpl. unfold getStorypoints. by destruct (List.find _ _).
Qed.

Lemma X12_storypoints_ignore_includeOpen_witness :
  let options :=
    {| u_getEffort :=
         Some (fun issue =>
                 Ok (Some (getStorypoints (fun _ => ["storypoints::3"]) Number_of_string
                                          issue)));
       u_getEffortEstimate := None; u_width := None; u_height := None;
       u_includeOpen := None; u_useEstimate := None |} in
  generateBurndownChart Examples.february [Examples.worked_issue; Examples.open_issue]
                        (set_includeOpen options (Some true))
  = generateBurndownChart Examples.february [Examples.worked_issue; Examples.open_issue]
                          (set_includeOpen options None).
Proof.
  intros options.
  apply (X12_storypoints_ignore_includeOpen (fun _ => ["storypoints::3"]) Number_of_string).
  reflexivity.
Defined.

(** ** Issues that stop the loop, and issues that it skips *)

Lemma processIssues_member_throws milestone startDate dueDate days options issues issue :
  In issue issues ->
  (forall byDay,
     is_Ok (processIssue milestone startDate dueDate days options byDay issue) = false) ->
  forall byDay,
    is_Ok (processIssues milestone startDate dueDate days options byDay issues) = false.
Proof.
  intros Hin Hthrow. induction issues as [|first issues IH]; intros byDay; [destruct Hin|].
  simpl. destruct Hin as [->|Hin].
  - specialize (Hthrow byDay). by destruct (processIssue _ _ _ _ _ byDay issue).
  - destruct (processIssue _ _ _ _ _ byDay first); simpl; [by apply IH | done].
Qed.

(** X13: [getTimeSpent] is called on every issue before anything else is
    read from it, whatever the options: when it throws on one issue of the
    list, [generateBurndownChart] throws, also with a [getEffort] of the
    caller's that never reads the notes. *)
Theorem X13_unreadable_notes_abort_the_chart milestone issues issue options :
  In issue issues ->
  is_Ok (getTimeSpent issue (startDate milestone) (dueDate milestone)) = false ->
  is_Ok (generateBurndownChart milestone issues options) = false.
Proof.
  intros Hin Hthrow. unfold generateBurndownChart.
  destruct (new_Array_fill _ zero) as [zeros|]; [|done]. simpl.
  match goal with
  | |- context [processIssues ?m ?s ?d ?n ?o ?b issues] =>
      pose proof (processIssues_member_throws m s d n o issues issue Hin) as Hloop;
      specialize (Hloop ltac:(intros byDay; unfold processIssue;
                              by destruct (getTimeSpent issue s d)) b);
      by destruct (processIssues m s d n o b issues)
  end.
Qed.

Lemma X13_unreadable_notes_abort_the_chart_witness :
  is_Ok (generateBurndownChart Examples.february
           [Examples.worked_issue; Examples.no_duration_issue]
           {| u_getEffort :=
                Some (fun issue =>
                        Ok (Some (getStorypoints (fun _ => ["storypoints::3"])
                                                 Number_of_string issue)));
              u_getEffortEstimate := None; u_width := None; u_height := None;
              u_includeOpen := None; u_useEstimate := None |})
  = false.
Proof.
  apply (X13_unreadable_notes_abort_the_chart Examples.february
           [Examples.worked_issue; Examples.no_duration_issue] Examples.no_duration_issue).
  - right. left. reflexivity.
  - reflexivity.
Defined.

Lemma updateAt_note0 comment prop note :
  note0 comment prop = Ok note -> updateAt comment = updatedAt note.
Proof.
  unfold note0, updateAt. destruct (notes comment !! 0%nat); [|done]. by intros [= ->].
Qed.

(** The two tests that end a turn of the loop with [continue], on the
    comment that the search for the last milestone change finds. *)
Lemma processIssue_skips milestone startDate dueDate days options issue :
  is_Ok (getTimeSpent issue startDate dueDate) = true ->
  hasMilestoneEvidence milestone issue = true ->
  exists comment,
    In comment (discussion issue)
    /\ existsb (mentionsMilestone milestone) (notes comment) = true
    /\ (days <= Z.max 0 (day_index (updateAt comment) startDate)
        \/ (exists t, closedAt issue = Some t /\ day_index t startDate < 0) ->
        forall byDay,
          processIssue milestone startDate dueDate days options byDay issue = Ok byDay).
Proof.
  intros Hts Hev. unfold processIssue.
  destruct (getTimeSpent issue startDate dueDate) as [timeSpent|] eqn:Ets; [|done].
  destruct (getTimeSpent_Ok_sort _ _ _ _ Ets) as [sorted Hsort]. rewrite Hsort.
  pose proof (sort_discussion_Permutation _ _ Hsort) as Hperm. simpl.
  destruct (List.find _ sorted) as [comment|] eqn:Hfind.
  - apply find_some in Hfind as [Hin Hmentions].
    exists comment. split; [by rewrite <- Hperm|]. split; [done|].
    intros Hskip byDay.
    destruct (note0 comment "updatedAt") as [note|] eqn:Hnote.
    + simpl. rewrite <- (updateAt_note0 _ _ _ Hnote).
      destruct (Z.leb_spec days (0 `max` day_index (updateAt comment) startDate));
        [done|].
      destruct Hskip as [?|(t & -> & Hbefore)]; [lia|]. simpl.
      by destruct (Z.ltb_spec (day_index t startDate) 0); [|lia].
    + unfold note0 in Hnote. destruct (notes comment) as [|note others]; done.
  - exfalso. unfold hasMilestoneEvidence in Hev.
    apply existsb_exists in Hev as (comment & Hin & Hmentions).
    rewrite <- Hperm in Hin.
    by rewrite (find_none _ _ Hfind _ Hin) in Hmentions.
Qed.

Lemma generateBurndownChart_skip milestone before issue after options :
  (forall byDay,
     processIssue milestone (startDate milestone) (dueDate milestone)
       (days_of (startDate milestone) (dueDate milestone))
       (merge_options (startDate milestone) (dueDate milestone) options) byDay issue
     = Ok byDay) ->
  generateBurndownChart milestone (before ++ issue :: after) options
  = generateBurndownChart milestone (before ++ after) options.
Proof.
  intros Hskip. unfold generateBurndownChart.
  destruct (new_Array_fill _ zero) as [zeros|]; [|done]. simpl.
  rewrite !processIssues_app.
  destruct (processIssues _ _ _ _ _ _ before) as [byDay|]; [|done].
  simpl. by rewrite Hskip.
Qed.

(** X14: an issue that was closed so long before the start of the milestone
    that its day of closing rounds to a negative day leaves no trace in the
    chart: the chart is the one of the list without it. *)
Theorem X14_closed_before_start_is_skipped milestone before issue after options t :
  is_Ok (getTimeSpent issue (startDate milestone) (dueDate milestone)) = true ->
  hasMilestoneEvidence milestone issue = true ->
  closedAt issue = Some t ->
  day_index t (startDate milestone) < 0 ->
  generateBurndownChart milestone (before ++ issue :: after) options
  = generateBurndownChart milestone (before ++ after) options.
Proof.
  intros Hts Hev Hclosed Hbefore. apply generateBurndownChart_skip.
  destruct (processIssue_skips milestone (startDate milestone) (dueDate milestone)
              (days_of (startDate milestone) (dueDate milestone))
              (merge_options (startDate milestone) (dueDate milestone) options)
              issue Hts Hev) as (comment & _ & _ & Hskip).
  apply Hskip. right. eauto.
Qed.

Lemma X14_closed_before_start_is_skipped_witness :
  let early :=
    Examples.issue_of
      [Examples.system_note "changed milestone to %7" (Examples.at_date "2020-01-20");
       Examples.system_note "added 1h of time spent at 2020-02-02"
                            (Examples.at_date "2020-02-02")]
      (Some (Examples.at_date "2020-01-30")) in
  generateBurndownChart Examples.february ([Examples.worked_issue] ++ early :: []) no_options
  = generateBurndownChart Examples.february ([Examples.worked_issue] ++ []) no_options.
Proof.
  intros early.
  apply (X14_closed_before_start_is_skipped Examples.february [Examples.worked_issue]
           early [] no_options (Examples.at_date "2020-01-30")); reflexivity.
Defined.

(** X15: an issue whose every change to this milestone is dated on a day
    past the last one of the window leaves no trace in the chart either,
    closed or not, and its effort is not read. *)
Theorem X15_added_after_due_is_skipped milestone before issue after options :
  is_Ok (getTimeSpent issue (startDate milestone) (dueDate milestone)) = true ->
  hasMilestoneEvidence milestone issue = true ->
  (forall comment,
     In comment (discussion issue) ->
     existsb (mentionsMilestone milestone) (notes comment) = true ->
     days_of (startDate milestone) (dueDate milestone)
     <= day_index (updateAt comment) (startDate milestone)) ->
  generateBurndownChart milestone (before ++ issue :: after) options
  = generateBurndownChart milestone (before ++ after) options.
Proof.
  intros Hts Hev Hlate. apply generateBurndownChart_skip.
  destruct (processIssue_skips milestone (startDate milestone) (dueDate milestone)
              (days_of (startDate milestone) (dueDate milestone))
              (merge_options (startDate milestone) (dueDate milestone) options)
              issue Hts Hev) as (comment & Hin & Hmentions & Hskip).
  apply Hskip. left. specialize (Hlate comment Hin Hmentions). lia.
Qed.

Lemma X15_added_after_due_is_skipped_witness :
  let late :=
    Examples.issue_of
      [Examples.system_note "changed milestone to %7" (Examples.at_date "2020-02-06");
       Examples.system_note "added 1h of time spent at 2020-02-02"
                            (Examples.at_date "2020-02-02")]
      (Some (Examples.at_date "2020-02-07")) in
  generateBurndownChart Examples.february ([Examples.worked_issue] ++ late :: []) no_options
  = generateBurndownChart Examples.february ([Examples.worked_issue] ++ []) no_options.
Proof.
  intros late.
  apply (X15_added_after_due_is_skipped Examples.february [Examples.worked_issue]
           late [] no_options); [reflexivity | reflexivity |].
  intros comment [<-|[<-|[]]]; [intros _; vm_compute; discriminate | discriminate].
Defined.

(** ** The entry of a day in the ledger *)

Lemma TimeMap_get_set_ne o k v k' :
  k' <> k -> TimeMap_get (TimeMap_set o k v) k' = TimeMap_get o k'.
Proof.
  intros Hne. induction o as [|[k0 v0] o IH]; simpl.
  - by rewrite decide_False.
  - destruct (decide (k = k0)) as [->|Hk]; simpl.
    + by rewrite !decide_False.
    + by rewrite IH.
Qed.

Lemma fold_recordSpending_other contributions date :
  Forall (fun contribution => Spending.date contribution <> date) contributions ->
  forall timeSpent,
    TimeMap_get (TimeSpent.days (fold_left recordSpending contributions timeSpent)) date
    = TimeMap_get (TimeSpent.days timeSpent) date.
Proof.
  induction 1 as [|contribution contributions Hne _ IH]; intros timeSpent; simpl; [done|].
  rewrite IH. unfold recordSpending. simpl. apply TimeMap_get_set_ne. congruence.
Qed.

(** X16: the entry of a date in [days] is [0 + totalHours] of the last
    contribution that bears this date, whatever the contributions before
    it: the hours of one day are never added up. *)
Theorem X16_day_entry_is_the_last_contribution issue startDate endDate
    before last after timeSpent :
  spendings issue startDate endDate = Ok (before ++ last :: after)%list ->
  Forall (fun contribution => Spending.date contribution <> Spending.date last) after ->
  getTimeSpent issue startDate endDate = Ok timeSpent ->
  TimeMap_get (TimeSpent.days timeSpent) (Spending.date last)
  = Some (add zero (Spending.totalHours last)).
Proof.
  intros Hs Hafter H. unfold getTimeSpent in H. rewrite Hs in H. simpl in H.
  injection H as <-. rewrite fold_left_app. simpl.
  rewrite (fold_recordSpending_other _ _ Hafter).
  apply recordSpending_overwrites.
Qed.

Lemma X16_day_entry_is_the_last_contribution_witness :
  exists timeSpent,
    getTimeSpent Examples.two_contributions
                 (startDate Examples.february) (dueDate Examples.february) = Ok timeSpent
    /\ TimeMap_get (TimeSpent.days timeSpent) (Some 1580688000000) = Some (of_Z 2).
Proof.
  eexists. split; [vm_compute; reflexivity|].
  exact (X16_day_entry_is_the_last_contribution Examples.two_contributions
           (startDate Examples.february) (dueDate Examples.february)
           [{| Spending.author := "gitlab"; Spending.date := Some 1580688000000;
               Spending.days := zero; Spending.hours := of_Z 1;
               Spending.minutes := zero; Spending.totalHours := of_Z 1 |}]
           {| Spending.author := "gitlab"; Spending.date := Some 1580688000000;
              Spending.days := zero; Spending.hours := of_Z 2;
              Spending.minutes := zero; Spending.totalHours := of_Z 2 |}
           [] _ eq_refl (List.Forall_nil _) eq_refl).
Defined.

(** ** The series derived from the arrays of the loop *)

Lemma generateBurndownChart_totalEffort milestone issues options out :
  generateBurndownChart milestone issues options = Ok out ->
  totalEffort out
  = reduce_sum (if default false (u_useEstimate options)
                then effortEstimatedByDay out else effortSpentByDay out)
  /\ remainingEffort out
     = fill_map (days out) (fun i =>
         Some (sub (if default false (u_useEstimate options)
                    then cumulative (effortEstimatedByDay out) i
                    else totalEffort out)
                   (cumulative (effortSpentByDay out) i))).
Proof.
  intros H. unfold generateBurndownChart in H.
  do 5 bind_inv H. simpl in H.
  destruct (default false (u_useEstimate options)); injection H as <-; split; reflexivity.
Qed.

Lemma map_seq_lookup {A} (f : nat -> A) k :
  forall start i, (i < k)%nat -> map f (seq start k) !! i = Some (f (start + i)%nat).
Proof.
  induction k as [|k IH]; intros start i Hi; [lia|].
  destruct i as [|i]; simpl.
  - f_equal. f_equal. lia.
  - rewrite IH by lia. f_equal. f_equal. lia.
Qed.

Lemma fill_map_lookup {A} n (f : nat -> A) i :
  (i < Z.to_nat n)%nat -> fill_map n f !! i = Some (f i).
Proof. intros Hi. unfold fill_map. by rewrite map_seq_lookup. Qed.

Lemma sub_diag q : sub (Fin q) (Fin q) = zero.
Proof.
  unfold sub, neg, add, zero, of_Z. f_equal.
  change (inject_Z 0) with (Qred 0). apply Qred_complete.
  rewrite Qred_correct. ring.
Qed.

Lemma processIssue_not_closed_within milestone startDate dueDate days options
    byDay issue byDay' :
  includeOpen options = false ->
  (forall t, closedAt issue = Some t -> days < day_index t startDate) ->
  processIssue milestone startDate dueDate days options byDay issue = Ok byDay' ->
  ByDay.effortSpentByDay byDay' = ByDay.effortSpentByDay byDay
  /\ ByDay.issuesClosedByDay byDay' = ByDay.issuesClosedByDay byDay.
Proof.
  intros Hopen Hclosed H. unfold processIssue in H.
  bind_inv H. bind_inv H.
  destruct (List.find _ _) as [comment|]; [|discriminate].
  bind_inv H.
  destruct (days <=? _); [by injection H as <-|].
  rewrite Hopen in H. simpl in H.
  destruct (closedAt issue) as [t|]; simpl in H.
  - destruct (_ <? 0); [by injection H as <-|].
    specialize (Hclosed t eq_refl).
    destruct (Z.leb_spec (day_index t startDate) days); [lia|].
    bind_inv H. simpl in H. by injection H as <-.
  - bind_inv H. simpl in H. by injection H as <-.
Qed.

Lemma processIssues_not_closed_within milestone startDate dueDate days options issues :
  includeOpen options = false ->
  Forall (fun issue => forall t, closedAt issue = Some t -> days < day_index t startDate)
         issues ->
  forall byDay byDay',
  processIssues milestone startDate dueDate days options byDay issues = Ok byDay' ->
  ByDay.effortSpentByDay byDay' = ByDay.effortSpentByDay byDay
  /\ ByDay.issuesClosedByDay byDay' = ByDay.issuesClosedByDay byDay.
Proof.
  intros Hopen. induction 1 as [|issue issues Hissue _ IH]; intros byDay byDay' H;
    simpl in H.
  - by injection H as <-.
  - bind_inv H.
    destruct (processIssue_not_closed_within _ _ _ _ _ _ _ _ Hopen Hissue Ha) as [<- <-].
    by apply IH.
Qed.

(** X17: when [includeOpen] is not set and no issue was closed by the day
    after the last one of the window, the loop writes nothing to
    [effortSpentByDay] and [issuesClosedByDay], [getEffort] is not called,
    and the total effort of the spent mode is 0. *)
Theorem X17_no_effort_without_closed_issues milestone issues options out :
  u_includeOpen options <> Some true ->
  Forall (fun issue => forall t,
            closedAt issue = Some t ->
            days_of (startDate milestone) (dueDate milestone)
            < day_index t (startDate milestone)) issues ->
  generateBurndownChart milestone issues options = Ok out ->
  let zeros := replicate (Z.to_nat (days out)) (Some zero) in
  effortSpentByDay out = zeros
  /\ issuesClosedByDay out = zeros
  /\ completedTasks out = zeros
  /\ (u_useEstimate options <> Some true -> totalEffort out = zero).
Proof.
  intros Hopen Hissues H zeros.
  destruct (generateBurndownChart_totalEffort _ _ _ _ H) as [Htotal _].
  destruct (generateBurndownChart_Ok _ _ _ _ H)
    as (byDay & _ & Hloop & Hdays & _ & Hclosed & Hspent & _ & Hcompleted & _).
  apply processIssues_not_closed_within in Hloop as [Hs Hc]; [| |done].
  - simpl in Hs, Hc. unfold zeros. rewrite Hdays.
    assert (effortSpentByDay out
            = replicate (Z.to_nat (days_of (startDate milestone) (dueDate milestone)))
                        (Some zero)) as Hzeros by congruence.
    repeat split; try congruence.
    intros Hspentmode. rewrite Htotal.
    destruct (u_useEstimate options) as [[]|]; try done;
      simpl; rewrite Hzeros; apply reduce_sum_zeros.
  - simpl. by destruct (u_includeOpen options) as [[]|].
Qed.

Lemma X17_no_effort_without_closed_issues_witness :
  exists out,
    generateBurndownChart Examples.february [Examples.open_issue] no_options = Ok out
    /\ effortSpentByDay out = replicate 5 (Some zero)
    /\ totalEffort out = zero.
Proof.
  eexists. split; [vm_compute; reflexivity|].
  destruct (X17_no_effort_without_closed_issues Examples.february [Examples.open_issue]
              no_options _ ltac:(discriminate)
              ltac:(repeat constructor; discriminate) eq_refl) as (Hs & _ & _ & Ht).
  split; [exact Hs | apply Ht; discriminate].
Defined.

(** X18: in the spent mode, when every effort was written inside the window
    and the total is finite, the remaining effort of the last day is 0. *)
Theorem X18_remainingEffort_ends_at_zero milestone issues options out q :
  generateBurndownChart milestone issues options = Ok out ->
  u_useEstimate options <> Some true ->
  0 < days out ->
  length (effortSpentByDay out) = Z.to_nat (days out) ->
  totalEffort out = Fin q ->
  remainingEffort out !! (Z.to_nat (days out) - 1)%nat = Some (Some zero).
Proof.
  intros H Hmode Hdays Hlength Htotal.
  destruct (generateBurndownChart_totalEffort _ _ _ _ H) as [Hsum ->].
  rewrite fill_map_lookup by lia. f_equal. f_equal.
  assert (default false (u_useEstimate options) = false) as Hspent
    by (by destruct (u_useEstimate options) as [[]|]).
  rewrite Hspent in *. unfold cumulative, slice0.
  rewrite take_ge by lia. rewrite <- Hsum, Htotal. apply sub_diag.
Qed.

Lemma X18_remainingEffort_ends_at_zero_witness :
  exists out,
    generateBurndownChart Examples.february [Examples.worked_issue] no_options = Ok out
    /\ remainingEffort out !! 4%nat = Some (Some zero).
Proof.
  eexists. split; [vm_compute; reflexivity|].
  exact (X18_remainingEffort_ends_at_zero Examples.february [Examples.worked_issue]
           no_options _ (21 # 2) eq_refl ltac:(discriminate) eq_refl eq_refl eq_refl).
Defined.

Lemma reduce_sum_canonical a q : reduce_sum a = Fin q -> Qred q = q.
Proof.
  unfold reduce_sum.
  assert (forall acc,
            (forall x, acc = Fin x -> Qred x = x) ->
            fold_left (fun sum slot => match slot with Some x => add sum x | None => sum end)
                      a acc = Fin q -> Qred q = q) as H.
  { induction a as [|slot a IH]; intros acc Hacc; simpl; [apply Hacc|].
    apply IH. destruct slot as [x|]; [|done].
    intros y Hy. destruct acc, x; try discriminate. injection Hy as <-.
    apply Qred_complete, Qred_correct. }
  apply H. intros x [= <-]. reflexivity.
Qed.

Lemma ideal_first q n :
  2 <= n -> Qred q = q ->
  sub (Fin q) (mul (div (Fin q) (of_Z (n - 1))) (of_Z 0)) = Fin q.
Proof.
  intros Hn Hq. unfold div, of_Z, sgn. simpl Qnum.
  destruct (Z.compare_spec (n - 1) 0) as [?|?|_]; try lia.
  unfold mul, sub, neg, add. f_equal. etrans; [|exact Hq].
  apply Qred_complete. rewrite !Qred_correct. ring.
Qed.

(** X19: for a milestone of two days or more, the ideal burndown starts at
    the total effort when that is finite, is 0 on every day when the total
    effort is 0, and is [NaN] on every day when the total effort is
    [NaN]. *)
Theorem X19_idealBurndown_starts_at_the_total milestone issues options out :
  generateBurndownChart milestone issues options = Ok out ->
  2 <= days out ->
  (forall q, totalEffort out = Fin q -> idealBurndown out !! 0%nat = Some (Some (Fin q)))
  /\ (totalEffort out = zero ->
      idealBurndown out = replicate (Z.to_nat (days out)) (Some zero))
  /\ (totalEffort out = NaN ->
      idealBurndown out = replicate (Z.to_nat (days out)) (Some NaN)).
Proof.
  intros H Hdays. rewrite (idealBurndown_formula _ _ _ _ H).
  split; [|split].
  - intros q Htotal.
    assert (Qred q = q) as Hq.
    { destruct (generateBurndownChart_totalEffort _ _ _ _ H) as [Hsum _].
      rewrite Htotal in Hsum. symmetry in Hsum. by apply reduce_sum_canonical in Hsum. }
    rewrite Htotal, fill_map_lookup by lia.
    do 2 f_equal. by apply ideal_first.
  - intros ->. apply fill_map_const. intros i. rewrite ideal_of_zero; [done | lia].
  - intros ->. apply fill_map_const. intros i. reflexivity.
Qed.

Lemma X19_idealBurndown_starts_at_the_total_witness :
  exists out,
    generateBurndownChart Examples.february [Examples.worked_issue] no_options = Ok out
    /\ idealBurndown out !! 0%nat = Some (Some (Fin (21 # 2))).
Proof.
  eexists. split; [vm_compute; reflexivity|].
  exact (proj1 (X19_idealBurndown_starts_at_the_total Examples.february
                  [Examples.worked_issue] no_options _ eq_refl
                  ltac:(vm_compute; discriminate)) (21 # 2) eq_refl).
Defined.

(** ** The count of opened issues *)

Lemma Qred_inject_Z z : Qred (inject_Z z) = inject_Z z.
Proof.
  unfold Qred, inject_Z.
  pose proof (Z.ggcd_gcd z 1) as Hg. pose proof (Z.ggcd_correct_divisors z 1) as Hd.
  destruct (Z.ggcd z 1) as [g [a b]]. simpl in *.
  rewrite Z.gcd_1_r in Hg. subst g. destruct Hd as [Ha Hb].
  replace a with z by lia. replace b with 1 by lia. reflexivity.
Qed.

Lemma add_of_Z a b : add (of_Z a) (of_Z b) = of_Z (a + b).
Proof.
  unfold add, of_Z. f_equal. rewrite <- (Qred_inject_Z (a + b)).
  apply Qred_complete. by rewrite inject_Z_plus.
Qed.

Lemma reduce_sum_of_Z ks :
  reduce_sum (((fun k => Some (of_Z k)) <$> ks)) = of_Z (fold_right Z.add 0 ks).
Proof.
  unfold reduce_sum.
  assert (forall acc,
            fold_left (fun sum slot => match slot with Some x => add sum x | None => sum end)
                      (((fun k => Some (of_Z k)) <$> ks)) (of_Z acc)
            = of_Z (acc + fold_right Z.add 0 ks)) as H.
  { induction ks as [|k ks IH]; intros acc; cbn [fold_left fmap list_fmap fold_right];
      [f_equal; lia|].
    rewrite add_of_Z, IH. f_equal. lia. }
  apply (H 0).
Qed.

Lemma sum_insert ks i k k' :
  ks !! i = Some k ->
  fold_right Z.add 0 (<[i := k']> ks) = fold_right Z.add 0 ks - k + k'.
Proof.
  revert i. induction ks as [|k0 ks IH]; intros i Hi; [done|].
  destruct i as [|i]; simpl in *.
  - injection Hi as ->. lia.
  - rewrite (IH _ Hi). lia.
Qed.

Lemma array_add_assign_one ks d :
  0 <= d < Z.of_nat (length ks) ->
  Z.of_nat (length ks) <= 2 ^ 32 - 1 ->
  exists ks',
    array_add_assign ((fun k => Some (of_Z k)) <$> ks) (KInt d) one
    = ((fun k => Some (of_Z k)) <$> ks')
    /\ length ks' = length ks
    /\ fold_right Z.add 0 ks' = fold_right Z.add 0 ks + 1
    /\ (Forall (fun k => 0 <= k) ks -> Forall (fun k => 0 <= k) ks').
Proof.
  intros Hd Hn.
  destruct (lookup_lt_is_Some_2 ks (Z.to_nat d) ltac:(lia)) as [k Hk].
  exists (<[Z.to_nat d := k + 1]> ks).
  unfold array_add_assign, is_array_index, array_set.
  destruct (Z.leb_spec 0 d); [|lia]. destruct (Z.ltb_spec d (2 ^ 32 - 1)); [|lia].
  cbn [andb]. cbv zeta. rewrite length_fmap, list_lookup_fmap, Hk.
  destruct (Nat.ltb_spec (Z.to_nat d) (length ks)); [|lia].
  cbn [fmap option_fmap option_map]. unfold one. rewrite add_of_Z, list_fmap_insert.
  repeat split.
  - apply length_insert.
  - rewrite (sum_insert _ _ _ _ Hk). lia.
  - intros Hks. apply Forall_insert; [done|].
    rewrite Forall_lookup in Hks. specialize (Hks _ _ Hk). simpl in Hks. lia.
Qed.

Lemma processIssue_opened milestone startDate dueDate days options byDay issue byDay' :
  processIssue milestone startDate dueDate days options byDay issue = Ok byDay' ->
  ByDay.issuesOpenedByDay byDay' = ByDay.issuesOpenedByDay byDay
  \/ exists d, 0 <= d < days
       /\ ByDay.issuesOpenedByDay byDay'
          = array_add_assign (ByDay.issuesOpenedByDay byDay) (KInt d) one.
Proof.
  intros H. unfold processIssue in H.
  bind_inv H. bind_inv H.
  destruct (List.find _ _) as [comment|]; [|discriminate].
  bind_inv H.
  destruct (Z.leb_spec days (0 `max` day_index (updatedAt a1) startDate));
    [left; by injection H as <-|].
  match type of H with (if ?c then _ else _) = _ => destruct c end;
    [left; by injection H as <-|].
  bind_inv H. right. exists (0 `max` day_index (updatedAt a1) startDate).
  split; [lia|].
  match type of H with (if ?c then _ else _) = _ => destruct c end.
  - bind_inv H. by injection H as <-.
  - by injection H as <-.
Qed.

Lemma processIssues_opened milestone startDate dueDate days options issues :
  days <= 2 ^ 32 - 1 ->
  forall byDay byDay' ks,
  processIssues milestone startDate dueDate days options byDay issues = Ok byDay' ->
  ByDay.issuesOpenedByDay byDay = ((fun k => Some (of_Z k)) <$> ks) ->
  Z.of_nat (length ks) = days ->
  Forall (fun k => 0 <= k) ks ->
  exists ks',
    ByDay.issuesOpenedByDay byDay' = ((fun k => Some (of_Z k)) <$> ks')
    /\ Forall (fun k => 0 <= k) ks'
    /\ fold_right Z.add 0 ks
       <= fold_right Z.add 0 ks'
       <= fold_right Z.add 0 ks + Z.of_nat (length issues).
Proof.
  intros Hrange.
  induction issues as [|issue issues IH]; intros byDay byDay' ks H Hks Hlen Hpos;
    simpl in H.
  - injection H as <-. exists ks. repeat split; try done; simpl; lia.
  - bind_inv H. apply processIssue_opened in Ha as [Hsame|(d & Hd & Hadd)].
    + rewrite Hks in Hsame.
      destruct (IH _ _ _ H Hsame Hlen Hpos) as (ks' & ? & ? & ?).
      exists ks'. repeat split; try done; simpl length; lia.
    + rewrite Hks in Hadd.
      destruct (array_add_assign_one ks d ltac:(lia) ltac:(lia))
        as (ks1 & Heq & Hlen1 & Hsum1 & Hpos1).
      rewrite Heq in Hadd.
      destruct (IH _ _ _ H Hadd ltac:(lia) (Hpos1 Hpos)) as (ks' & ? & ? & ?).
      exists ks'. repeat split; try done; simpl length; lia.
Qed.

(** X20: in every run that returns, [issuesOpenedByDay] holds a whole
    number that is not negative for every day, and their sum is at most the
    number of issues: an issue is counted on one day, once, or skipped. *)
Theorem X20_opened_issues_are_counted_once milestone issues options out :
  generateBurndownChart milestone issues options = Ok out ->
  exists counts,
    issuesOpenedByDay out = ((fun k => Some (of_Z k)) <$> counts)
    /\ Z.of_nat (length counts) = days out
    /\ Forall (fun k => 0 <= k) counts
    /\ reduce_sum (issuesOpenedByDay out) = of_Z (fold_right Z.add 0 counts)
    /\ 0 <= fold_right Z.add 0 counts <= Z.of_nat (length issues).
Proof.
  intros H.
  assert (days_of (startDate milestone) (dueDate milestone) <= 2 ^ 32 - 1) as Hrange.
  { unfold generateBurndownChart, new_Array_fill in H.
    destruct (Z.ltb_spec (2 ^ 32 - 1) (days_of (startDate milestone) (dueDate milestone)));
      [|done].
    rewrite orb_true_r in H. discriminate. }
  destruct (generateBurndownChart_Ok _ _ _ _ H)
    as (byDay & Hn & Hloop & Hdays & Hopened & _).
  destruct (processIssues_opened _ _ _ _ _ _ Hrange _ _
              (replicate (Z.to_nat (days_of (startDate milestone) (dueDate milestone))) 0)
              Hloop) as (counts & Hcounts & Hpos & Hsum).
  - simpl. induction (Z.to_nat _) as [|k IH]; simpl; [done | by rewrite IH].
  - rewrite length_replicate. lia.
  - apply Forall_replicate. lia.
  - exists counts. rewrite Hopened, Hcounts.
    assert (fold_right Z.add 0
              (replicate (Z.to_nat (days_of (startDate milestone) (dueDate milestone))) 0)
            = 0) as Hzero
      by (induction (Z.to_nat _) as [|k IH]; simpl; [done | by rewrite IH]).
    rewrite Hzero in Hsum.
    repeat split; try done; try lia; [|apply reduce_sum_of_Z].
    destruct (generateBurndownChart_Ok _ _ _ _ H) as (byDay' & _ & Hloop' & _).
    rewrite Hloop in Hloop'. injection Hloop' as <-.
    pose proof (processIssues_lengths milestone (startDate milestone) (dueDate milestone)
                  (Z.to_nat (days_of (startDate milestone) (dueDate milestone)))
                  (merge_options (startDate milestone) (dueDate milestone) options)
                  issues (initial_byDay (days_of (startDate milestone) (dueDate milestone)))
                  byDay) as Hlen.
    rewrite Z2Nat.id in Hlen by lia.
    destruct (Hlen Hloop) as (Hl & _); simpl; rewrite ?length_replicate; try lia.
    rewrite Hcounts, length_fmap in Hl. lia.
Qed.

Lemma X20_opened_issues_are_counted_once_witness :
  exists counts,
    issuesOpenedByDay <$>
      generateBurndownChart Examples.february [Examples.worked_issue; Examples.open_issue]
                            no_options
    = Ok (((fun k => Some (of_Z k)) <$> counts))
    /\ fold_right Z.add 0 counts <= 2.
Proof.
  destruct (X20_opened_issues_are_counted_once Examples.february
              [Examples.worked_issue; Examples.open_issue] no_options _ eq_refl)
    as (counts & Hcounts & _ & _ & _ & Hsum).
  exists counts. split; [|exact (proj2 Hsum)].
  vm_compute in Hcounts. vm_compute. by rewrite Hcounts.
Defined.

(** ** The notes that the spending filter accepts *)

Lemma run_Star_complete k r input taken s g m :
  forallb (cclass_matches k) taken = true ->
  run r input s g = Some m ->
  exists m', run (Star k :: r) input (taken ++ s)%list g = Some m'.
Proof.
  intros Htaken Hrun. induction taken as [|c taken IH]; simpl app.
  - destruct s as [|c s]; [rewrite run_Star_nil; eauto|].
    rewrite run_Star_cons, Hrun.
    destruct (cclass_matches k c); [|eauto].
    destruct (run (Star k :: r) input s g); eauto.
  - simpl in Htaken. apply andb_true_iff in Htaken as [Hc Htaken].
    rewrite run_Star_cons, Hc. destruct (IH Htaken) as [m' ->]. eauto.
Qed.

Lemma suffix_same_length {A} (s l : list A) :
  s `suffix_of` l -> length s = length l -> s = l.
Proof.
  intros [prefix ->] Hlen. rewrite length_app in Hlen.
  destruct prefix; [done | simpl in Hlen; lia].
Qed.

Lemma search_here r input s m :
  match_at r input s = Some m -> search r input s = Some m.
Proof. intros H. destruct s; simpl; by rewrite H. Qed.

Lemma re_isSpending_spec input :
  search re_isSpending input input <> None <-> is_spending_text input.
Proof.
  split.
  - destruct (search re_isSpending input input) as [m|] eqn:Hsearch; [|done]. intros _.
    apply search_Some in Hsearch as (s & Hsuffix & Hm). unfold match_at in Hm.
    destruct (run re_isSpending input s no_captures) as [[rest g]|] eqn:Hrun; [|done].
    clear Hm. explicit_regex re_isSpending.
    match type of Hrun with
    | context [Star Dot :: ?tail] => remember (Star Dot :: tail) as star eqn:Hstar
    end.
    simpl in Hrun. destruct (Nat.eqb_spec (length s) (length input)); [|discriminate].
    apply suffix_same_length in Hsuffix; [|done]. subst s.
    do 5 step_char Hrun input. subst star.
    apply run_Star_consumed in Hrun as (middle & tail & -> & Hmiddle & Hrun).
    do 13 step_char Hrun tail. simpl in Hrun. destruct tail; [|discriminate].
    unfold cclass_matches in *.
    repeat match goal with
           | H : Ascii.eqb _ _ = true |- _ => apply Ascii.eqb_eq in H; subst
           end.
    exists middle. eexists. split; [reflexivity|]. split; [done|].
    simpl. by repeat match goal with H : is_digit _ = true |- _ => rewrite H; clear H end.
  - intros (middle & date & -> & Hmiddle & Hdate).
    do 10 (destruct date as [|? date]; [done|]). destruct date; [|done].
    simpl in Hdate.
    repeat match goal with
           | H : _ && _ = true |- _ => apply andb_true_iff in H as [? ?]
           end.
    repeat match goal with
           | H : Ascii.eqb _ _ = true |- _ => apply Ascii.eqb_eq in H; subst
           end.
    match goal with
    | |- search _ ?text _ <> None =>
        assert (exists m, run re_isSpending text text no_captures = Some m)
          as [[rest g] Hrun]
    end.
    { explicit_regex re_isSpending.
      match goal with
      | |- context [Star Dot :: ?tail] => remember (Star Dot :: tail) as star eqn:Hstar
      end.
      simpl. rewrite Nat.eqb_refl. subst star.
      eapply run_Star_complete; [exact Hmiddle|].
      simpl. unfold cclass_matches.
      repeat match goal with H : is_digit _ = true |- _ => rewrite H; clear H end.
      reflexivity. }
    erewrite search_here; [done|]. unfold match_at. by rewrite Hrun.
Qed.

(** X21: the filter of [getTimeSpent] keeps a discussion entry exactly when
    its first note was written by the system, was created inside the window,
    bounds included, and has a body that starts with [added] and ends with
    [at ] and a date of the shape [dddd-dd-dd], with no line terminator in
    between. *)
Theorem X21_spending_filter startDate endDate comment :
  isSpendingComment startDate endDate comment = Ok true
  <-> exists note,
        notes comment !! 0%nat = Some note
        /\ is_spending_text (list_ascii_of_string (body note))
        /\ system note = true
        /\ startDate <= createdAt note <= endDate.
Proof.
  unfold isSpendingComment, note0.
  destruct (notes comment !! 0%nat) as [note|]; simpl.
  - unfold str_match. cbv zeta. split.
    + intros [= H]. apply andb_true_iff in H as [H Hwindow].
      apply andb_true_iff in H as [Hbody Hsystem].
      apply andb_true_iff in Hwindow as [Hlo Hhi].
      apply bool_decide_eq_true in Hbody. apply re_isSpending_spec in Hbody.
      exists note. repeat split; try done; lia.
    + intros (note' & [= <-] & Hbody & Hsystem & Hlo & Hhi).
      apply re_isSpending_spec in Hbody.
      rewrite bool_decide_true, Hsystem by done. simpl.
      destruct (Z.leb_spec startDate (createdAt note)); [|lia].
      destruct (Z.leb_spec (createdAt note) endDate); [done | lia].
  - split; [done | by intros (note & ? & _)].
Qed.

(** ** The date of a contribution *)

Lemma Date_getTime_midnight iso t :
  Date_getTime iso = Some t -> exists day, t = day * MILLISECONDS_IN_DAY.
Proof.
  unfold Date_getTime.
  destruct (list_ascii_of_string iso) as [|y1 [|y2 [|y3 [|y4 [|h1 [|m1 [|m2 [|h2 [|d1
    [|d2 [|]]]]]]]]]]]; try done.
  destruct (_ && _ && _); [|done]. destruct (_ && _ && _ && _); [|done].
  intros [= <-]. eauto.
Qed.

(** X22: the date of a contribution, when it is a valid one, is a whole
    number of days after the epoch, midnight UTC; measured from a start that
    is itself at midnight UTC, its day index is exact, no rounding takes
    place. *)
Theorem X22_contribution_dates_are_midnights comment spending t :
  toSpending comment = Ok spending ->
  Spending.date spending = Some t ->
  t mod MILLISECONDS_IN_DAY = 0
  /\ forall startDate,
       startDate mod MILLISECONDS_IN_DAY = 0 ->
       day_index t startDate * MILLISECONDS_IN_DAY = t - startDate.
Proof.
  intros H Hdate. unfold toSpending in H. bind_inv H. bind_inv H.
  destruct a0 as [humanReadableTime|]; [|discriminate].
  bind_inv H. injection H as <-. cbn [Spending.date] in Hdate.
  destruct a0 as [iso|]; [|discriminate]. simpl in Hdate.
  apply Date_getTime_midnight in Hdate as [day ->].
  rewrite MILLISECONDS_IN_DAY_eq. split; [apply Z.mod_mul; lia|].
  intros startDate Hstart. apply Z.mod_divide in Hstart as [start ->]; [|lia].
  rewrite day_index_Z, MILLISECONDS_IN_DAY_eq.
  replace (2 * (day * 86400000 - start * 86400000) + 86400000)
    with (86400000 + (day - start) * (2 * 86400000)) by lia.
  rewrite Z.div_add by lia. change (86400000 / (2 * 86400000)) with 0. lia.
Qed.

Lemma X22_contribution_dates_are_midnights_witness :
  day_index 1580688000000 (startDate Examples.february) * MILLISECONDS_IN_DAY
  = 1580688000000 - startDate Examples.february.
Proof.
  refine (proj2 (X22_contribution_dates_are_midnights
                   (Examples.system_note "added 45m of time spent at 2020-02-03"
                                         (Examples.at_date "2020-02-03"))
                   {| Spending.author := "gitlab"; Spending.date := Some 1580688000000;
                      Spending.days := zero; Spending.hours := zero;
                      Spending.minutes := of_Z 45; Spending.totalHours := Fin (3 # 4) |}
                   1580688000000 eq_refl eq_refl)
                (startDate Examples.february) eq_refl).
Defined.

(** ** Effort without a valid date *)

(** X23: the entries of [effort.days] under the name [NaN], the time of an
    invalid date, are added to the property [NaN] of the array and reach no
    day of [effortSpentByDay]. *)
Theorem X23_effort_without_date_reaches_no_day startDate effortDays spent :
  Forall (fun entry => fst entry = None) effortDays ->
  addEffortDays startDate effortDays spent = spent.
Proof.
  intros Hnone. unfold addEffortDays, Object_keys.
  assert (Forall (fun k => k = None) (map fst effortDays)) as Hkeys.
  { induction Hnone; simpl; constructor; auto. }
  revert Hkeys. generalize (map fst effortDays). intros names Hnames.
  assert (filter (fun k => is_index_key k = true) names = []) as ->.
  { induction Hnames as [|k names -> _ IH]; [done|].
    by rewrite filter_cons_False. }
  assert (filter (fun k => is_index_key k = false) names = names) as ->.
  { induction Hnames as [|k names -> _ IH]; [done|].
    rewrite filter_cons_True by done. by rewrite IH. }
  simpl. induction Hnames as [|k names -> _ IH]; simpl; [done|]. exact IH.
Qed.

Lemma X23_effort_without_date_reaches_no_day_witness :
  addEffortDays (startDate Examples.february) [(None, of_Z 3)] (replicate 5 (Some zero))
  = replicate 5 (Some zero).
Proof.
  apply (X23_effort_without_date_reaches_no_day (startDate Examples.february)
           [(None, of_Z 3)]).
  repeat constructor.
Defined.

(** ** The order of the discussion *)

Lemma filter_result_Permutation {A} (f : A -> result bool) l1 l2 :
  Permutation l1 l2 ->
  forall kept1, filter_result f l1 = Ok kept1 ->
  exists kept2, filter_result f l2 = Ok kept2 /\ Permutation kept1 kept2.
Proof.
  induction 1 as [|x l1 l2 _ IH|x y l|l1 l2 l3 _ IH1 _ IH2]; intros kept1 H.
  - exists kept1. done.
  - simpl in *. destruct (f x) as [keep|]; [|discriminate]. simpl in *.
    destruct (filter_result f l1) as [rest|]; [|discriminate]. simpl in *.
    injection H as <-. destruct (IH _ eq_refl) as (kept2 & -> & Hperm). simpl.
    eexists. split; [reflexivity|]. destruct keep; [by constructor | done].
  - simpl in *. destruct (f y) as [ky|]; [|discriminate]. simpl in *.
    destruct (f x) as [kx|]; [|discriminate]. simpl in *.
    destruct (filter_result f l) as [rest|]; [|discriminate]. simpl in *.
    injection H as <-. eexists. split; [reflexivity|].
    destruct kx, ky; try done. apply perm_swap.
  - destruct (IH1 _ H) as (kept2 & H2 & Hperm12).
    destruct (IH2 _ H2) as (kept3 & H3 & Hperm23).
    exists kept3. split; [done|]. by etrans.
Qed.

Lemma map_result_Permutation {A B} (f : A -> result B) l1 l2 :
  Permutation l1 l2 ->
  forall out1, map_result f l1 = Ok out1 ->
  exists out2, map_result f l2 = Ok out2 /\ Permutation out1 out2.
Proof.
  induction 1 as [|x l1 l2 _ IH|x y l|l1 l2 l3 _ IH1 _ IH2]; intros out1 H.
  - exists out1. done.
  - simpl in *. destruct (f x) as [fx|]; [|discriminate]. simpl in *.
    destruct (map_result f l1) as [rest|]; [|discriminate]. simpl in *.
    injection H as <-. destruct (IH _ eq_refl) as (out2 & -> & Hperm). simpl.
    eexists. split; [reflexivity|]. by constructor.
  - simpl in *. destruct (f y) as [fy|]; [|discriminate]. simpl in *.
    destruct (f x) as [fx|]; [|discriminate]. simpl in *.
    destruct (map_result f l) as [rest|]; [|discriminate]. simpl in *.
    injection H as <-. eexists. split; [reflexivity|]. apply perm_swap.
  - destruct (IH1 _ H) as (out2 & H2 & Hperm12).
    destruct (IH2 _ H2) as (out3 & H3 & Hperm23).
    exists out3. split; [done|]. by etrans.
Qed.

(** X24: for any reordering of the discussion of an issue on which
    [getTimeSpent] returns, it returns as well; the contributions are the
    same ones in another order, and the same dates have an entry in
    [days]. *)
Theorem X24_order_of_the_discussion issue startDate endDate reordered
    contributions timeSpent :
  Permutation reordered (discussion issue) ->
  spendings issue startDate endDate = Ok contributions ->
  getTimeSpent issue startDate endDate = Ok timeSpent ->
  exists contributions' timeSpent',
    spendings (with_discussion issue reordered) startDate endDate = Ok contributions'
    /\ Permutation contributions' contributions
    /\ getTimeSpent (with_discussion issue reordered) startDate endDate = Ok timeSpent'
    /\ forall date, In date (map fst (TimeSpent.days timeSpent'))
                    <-> In date (map fst (TimeSpent.days timeSpent)).
Proof.
  intros Hperm Hs H. unfold getTimeSpent in *. rewrite Hs in H. simpl in H.
  injection H as <-. unfold spendings in *. bind_inv Hs. simpl.
  destruct (filter_result_Permutation _ _ _ (Permutation_sym Hperm) _ Ha)
    as (accepted & -> & Haccepted).
  simpl.
  destruct (map_result_Permutation _ _ _ Haccepted _ Hs) as (contributions' & -> & Hc).
  simpl. do 2 eexists. split; [reflexivity|]. split; [by symmetry|].
  split; [reflexivity|]. intros date.
  destruct (fold_recordSpending_keys contributions'
              {| TimeSpent.total :=
                   fold_left (fun total spending =>
                                add total (Spending.totalHours spending))
                             contributions' zero;
                 TimeSpent.days := [] |}) as [_ ->]; [constructor|].
  destruct (fold_recordSpending_keys contributions
              {| TimeSpent.total :=
                   fold_left (fun total spending =>
                                add total (Spending.totalHours spending))
                             contributions zero;
                 TimeSpent.days := [] |}) as [_ ->]; [constructor|].
  simpl. by rewrite Hc.
Qed.

Lemma X24_order_of_the_discussion_witness :
  exists contributions' timeSpent',
    spendings (with_discussion Examples.two_contributions
                 (rev (discussion Examples.two_contributions)))
              (startDate Examples.february) (dueDate Examples.february)
    = Ok contributions'
    /\ length contributions' = 2%nat
    /\ getTimeSpent (with_discussion Examples.two_contributions
                       (rev (discussion Examples.two_contributions)))
                    (startDate Examples.february) (dueDate Examples.february)
       = Ok timeSpent'.
Proof.
  destruct (X24_order_of_the_discussion Examples.two_contributions
              (startDate Examples.february) (dueDate Examples.february)
              (rev (discussion Examples.two_contributions)) _ _
              (Permutation_sym (Permutation_rev _)) eq_refl eq_refl)
    as (contributions' & timeSpent' & Hs & Hperm & H & _).
  exists contributions', timeSpent'. split; [exact Hs|]. split; [|exact H].
  by rewrite (Permutation_length Hperm).
Defined.

(** ** The value of a component of the duration *)

Lemma star_digit_fails unit input run_of rest g :
  is_digit unit = false ->
  forallb is_digit run_of = true ->
  match rest with
  | [] => True
  | x :: _ => is_digit x = false /\ x <> unit
  end ->
  run [Star Digit; One (Lit unit)] input (run_of ++ rest)%list g = None.
Proof.
  intros Hunit Hrun Hrest. induction run_of as [|c run_of IH]; simpl app.
  - destruct rest as [|x rest]; [done|]. destruct Hrest as [Hx Hne].
    rewrite run_Star_cons. unfold cclass_matches at 1. rewrite Hx. simpl.
    unfold cclass_matches. by destruct (Ascii.eqb_spec unit x).
  - simpl in Hrun. apply andb_true_iff in Hrun as [Hc Hrun].
    rewrite run_Star_cons. unfold cclass_matches at 1. rewrite Hc, (IH Hrun). simpl.
    unfold cclass_matches. destruct (Ascii.eqb_spec unit c); [congruence | done].
Qed.

Lemma star_digit_succeeds unit input digits post g :
  is_digit unit = false ->
  forallb is_digit digits = true ->
  run [Star Digit; One (Lit unit)] input (digits ++ unit :: post)%list g = Some (post, g).
Proof.
  intros Hunit Hdigits. induction digits as [|c digits IH]; simpl app.
  - rewrite run_Star_cons. unfold cclass_matches at 1. rewrite Hunit. simpl.
    unfold cclass_matches. by rewrite Ascii.eqb_refl.
  - simpl in Hdigits. apply andb_true_iff in Hdigits as [Hc Hdigits].
    rewrite run_Star_cons. unfold cclass_matches at 1. by rewrite Hc, (IH Hdigits).
Qed.

Lemma digit_run_split (l : list ascii) :
  (forall c, last l = Some c -> is_digit c = false) ->
  l <> [] ->
  exists run_of x rest,
    l = (run_of ++ x :: rest)%list /\ forallb is_digit run_of = true /\ is_digit x = false.
Proof.
  induction l as [|c l IH]; intros Hlast Hne; [done|].
  destruct (is_digit c) eqn:Hc.
  - destruct l as [|c' l]; [specialize (Hlast c eq_refl); congruence|].
    destruct IH as (run_of & x & rest & -> & Hrun & Hx); [done | done|].
    exists (c :: run_of), x, rest. simpl. by rewrite Hc, Hrun.
  - by exists [], c, l.
Qed.

Lemma component_search unit input pre digits post :
  is_digit unit = false ->
  digits <> [] ->
  forallb is_digit digits = true ->
  ~ In unit pre ->
  (forall c, last pre = Some c -> is_digit c = false) ->
  search (plus Digit ++ [One (Lit unit)])%list input (pre ++ digits ++ unit :: post)%list
  = Some {| m0 := string_of_list_ascii (digits ++ [unit]); m1 := None |}.
Proof.
  intros Hunit Hne Hdigits Hpre Hlast.
  change (plus Digit ++ [One (Lit unit)])%list
    with (One Digit :: [Star Digit; One (Lit unit)]).
  induction pre as [|c pre IH].
  - simpl app. apply search_here. unfold match_at.
    destruct digits as [|d digits]; [done|].
    simpl in Hdigits. apply andb_true_iff in Hdigits as [Hd Hdigits].
    remember [Star Digit; One (Lit unit)] as star eqn:Hstar.
    simpl. unfold cclass_matches at 1. rewrite Hd. subst star.
    rewrite (star_digit_succeeds _ _ _ _ _ Hunit Hdigits).
    f_equal. f_equal.
    change (d :: (digits ++ unit :: post)%list)
      with ((d :: digits) ++ unit :: post)%list.
    replace ((d :: digits) ++ unit :: post)%list
      with (((d :: digits) ++ [unit]) ++ post)%list by by rewrite <- app_assoc.
    by rewrite consumed_app.
  - assert (match_at (One Digit :: [Star Digit; One (Lit unit)]) input
              ((c :: pre) ++ digits ++ unit :: post)%list = None) as Hfail.
    { unfold match_at. remember [Star Digit; One (Lit unit)] as star eqn:Hstar.
      simpl. unfold cclass_matches at 1. destruct (is_digit c) eqn:Hc; [|done].
      subst star.
      destruct pre as [|c' pre]; [specialize (Hlast c eq_refl); congruence|].
      destruct (digit_run_split (c' :: pre)) as (run_of & x & rest & Hsplit & Hrun & Hx);
        [exact Hlast | done|].
      rewrite Hsplit, <- app_assoc. simpl app.
      rewrite star_digit_fails; try done.
      split; [done|]. intros ->. apply Hpre. right. rewrite Hsplit.
      apply in_elt. }
    simpl app in *. simpl search. rewrite Hfail. apply IH.
    + intros Hin. apply Hpre. by right.
    + intros x Hx. apply Hlast. destruct pre; [done | exact Hx].
Qed.

Lemma decimal_bound_from l acc k :
  forallb is_digit l = true -> 0 <= k -> 0 <= acc < 10 ^ k ->
  0 <= fold_left (fun acc c => 10 * acc + digit_value c) l acc
    < 10 ^ (k + Z.of_nat (length l)).
Proof.
  revert acc k. induction l as [|c l IH]; intros acc k Hl Hk Hacc.
  - simpl. by rewrite Z.add_0_r.
  - simpl in Hl. apply andb_true_iff in Hl as [Hc Hl].
    cbn [fold_left length].
    replace (k + Z.of_nat (S (length l))) with ((k + 1) + Z.of_nat (length l)) by lia.
    apply IH; [done | lia|].
    unfold is_digit in Hc. apply andb_true_iff in Hc as [Hlo Hhi].
    apply N.leb_le in Hlo, Hhi. unfold digit_value.
    rewrite Z.pow_add_r, Z.pow_1_r by lia. lia.
Qed.

Lemma double_of_whole_small z : 0 <= z < 2 ^ 53 -> double_of_whole z = of_Z z.
Proof.
  intros [Hlo Hhi]. unfold double_of_whole. cbv zeta.
  destruct (Z.leb_spec (Z.log2 z + 1) 53) as [_|Hbits]; [done|].
  destruct (Z.eq_dec z 0) as [->|Hz]; [simpl in Hbits; lia|].
  assert (Z.log2 z < 53) by (apply Z.log2_lt_pow2; lia). lia.
Qed.

(** X25: in a text where a run of at most 15 digits followed by the letter
    of the unit comes after a part that holds no such letter and does not
    end with a digit, the component of this unit is the decimal value of
    the run, which a double holds exactly. *)
Theorem X25_component_value unit pre digits post :
  is_digit unit = false ->
  digits <> [] ->
  (length digits <= 15)%nat ->
  forallb is_digit digits = true ->
  ~ In unit pre ->
  (forall c, last pre = Some c -> is_digit c = false) ->
  component (str_match (string_of_list_ascii (pre ++ digits ++ unit :: post))
                       (plus Digit ++ [One (Lit unit)])%list)
  = of_Z (decimal digits)
  /\ 0 <= decimal digits < 10 ^ 15.
Proof.
  intros Hunit Hne Hlength Hdigits Hpre Hlast.
  assert (0 <= decimal digits < 10 ^ 15) as Hbound.
  { pose proof (decimal_bound_from digits 0 0 Hdigits ltac:(lia) ltac:(lia)) as [Hlo Hhi].
    fold (decimal digits) in Hlo, Hhi. split; [done|].
    eapply Z.lt_le_trans; [exact Hhi|]. apply Z.pow_le_mono_r; lia. }
  split; [|done]. unfold str_match.
  rewrite list_ascii_of_string_of_list_ascii. cbv zeta.
  rewrite component_search by done.
  unfold component, slice_0_m1. cbn [m0].
  rewrite list_ascii_of_string_of_list_ascii, removelast_last.
  unfold Number_of_string. cbv zeta. rewrite list_ascii_of_string_of_list_ascii.
  rewrite Hdigits. apply double_of_whole_small.
  assert (10 ^ 15 < 2 ^ 53) by reflexivity. lia.
Qed.

Lemma X25_component_value_witness :
  component (str_match "1d 2h 30m" re_humanReadableHours) = of_Z 2
  /\ component (str_match "1d 2h 30m" re_humanReadableMinutes) = of_Z 30.
Proof.
  split.
  - refine (proj1 (X25_component_value "h" (list_ascii_of_string "1d ")
                     (list_ascii_of_string "2") (list_ascii_of_string " 30m")
                     eq_refl _ _ eq_refl _ _)); [done | simpl; lia | | ].
    + simpl. intros [H|[H|[H|[]]]]; discriminate.
    + intros c [= <-]. reflexivity.
  - refine (proj1 (X25_component_value "m" (list_ascii_of_string "1d 2h ")
                     (list_ascii_of_string "30") [] eq_refl _ _ eq_refl _ _));
      [done | simpl; lia | | ].
    + simpl. intros [H|[H|[H|[H|[H|[H|[]]]]]]]; discriminate.
    + intros c [= <-]. reflexivity.
Defined.

(** X26: in a text that does not hold the letter of a unit, the component
    of this unit is 0. *)
Theorem X26_component_absent unit text :
  ~ In unit (list_ascii_of_string text) ->
  component (str_match text (plus Digit ++ [One (Lit unit)])%list) = zero.
Proof.
  intros Habsent. destruct (str_match text _) as [m|] eqn:Hm; [|done].
  exfalso. apply Habsent. unfold str_match in Hm.
  apply search_Some in Hm as (s & [prefix ->] & Hm). unfold match_at in Hm.
  destruct (run _ _ s no_captures) as [[rest g]|] eqn:Hrun; [|done].
  change (plus Digit ++ [One (Lit unit)])%list
    with (One Digit :: Star Digit :: [One (Lit unit)]) in Hrun.
  remember (Star Digit :: [One (Lit unit)]) as star eqn:Hstar.
  simpl in Hrun. destruct s as [|c s]; [done|].
  destruct (cclass_matches Digit c); [|done].
  subst star. apply run_Star_consumed in Hrun as (taken & s' & -> & _ & Hrun).
  simpl in Hrun. destruct s' as [|u s']; [done|].
  unfold cclass_matches in Hrun. destruct (Ascii.eqb_spec unit u) as [->|]; [|done].
  rewrite !in_app_iff. right. right. rewrite in_app_iff. right. by left.
Qed.

Lemma X26_component_absent_witness :
  component (str_match "2h 30m" re_humanReadableDays) = zero.
Proof.
  refine (X26_component_absent "d" "2h 30m" _).
  simpl. intros [H|[H|[H|[H|[H|[H|[]]]]]]]; discriminate.
Defined.
